(** * biorad: resampling and bias-corrected performance estimation

    A shallow embedding of the numerical core of the repository:

    - [backend/utils.py]: the bootstrap out-of-bag resampler, the
      feature-indicator formatter [check_support], the .632+ estimator
      ([point632plus], [relative_overfit_rate], [no_info_rate],
      [point632plus_score]) and [scale_fit_predict632];
    - [model_comparison/model_selection.py]: [bbc_cv] and [OOBSampler];
    - [experiments/comparison_schemes.py]: [nested_cross_validation_smac]
      and [SMACSearchCV].

    Conventions.  Python floats are idealised as exact rationals ([Q], compared
    with [==]); float literals such as [0.368] denote the rational 368/1000.
    Rounding, infinities and signed zeros are therefore outside that model;
    the one place where numpy produces a NaN on a degenerate input (the mean
    of an empty array) is modelled by an [option].  Module [Binary64] embeds
    [point632plus] a second time, on IEEE 754 binary64 numbers, for the
    statement that is about all floats.  Python exceptions are
    values of type [exn] carried in a sum type; the pseudo-random generator,
    the estimators, the scaler, the optimiser and the persistence helpers
    are external to the repository and enter as interfaces. *)

From Stdlib Require Import ZArith QArith Qminmax Lia Lqa Ascii String DecimalString.
From Stdlib Require DecimalZ DecimalPos SpecFloat.
From stdpp Require Import base option list gmap sets strings.

Set Default Proof Using "Type".
Local Open Scope Q_scope.

(** ** Python runtime: exceptions and the error monad *)

Module Py.

(** The exception classes the modelled code can raise itself; [Raised]
    stands for whatever an external collaborator throws. *)
Inductive exn : Type :=
| ZeroDivisionError
| ValueError
| IndexError
| TypeError
| NameError (name : string)
| Raised (what : string).

Definition result (A : Type) : Type := exn + A.

Definition ok {A} (a : A) : result A := inr a.
Definition raise {A} (e : exn) : result A := inl e.

Definition bind {A B} (m : result A) (k : A -> result B) : result B :=
  match m with
  | inl e => inl e
  | inr a => k a
  end.

(** [try: body  except: handler] with a bare [except], which catches
    every exception. *)
Definition try_except {A} (body : result A) (handler : A) : A :=
  match body with
  | inl _ => handler
  | inr a => a
  end.

Fixpoint mapM {A B} (f : A -> result B) (l : list A) : result (list B) :=
  match l with
  | [] => ok []
  | x :: l' =>
      bind (f x) (fun y => bind (mapM f l') (fun ys => ok (y :: ys)))
  end.

(** [x > y] on numbers. *)
Definition gt (x y : Q) : bool := if Qlt_le_dec y x then true else false.

(** [x < y] on numbers. *)
Definition lt (x y : Q) : bool := gt y x.

(** The builtin [min(a, b)]: the first argument unless the second is
    strictly smaller. *)
Definition min (a b : Q) : Q := if lt b a then b else a.

(** [a / b] on Python floats (and on floats inside a [numba.jit]
    function, whose default error model is Python's): a zero divisor
    raises. *)
Definition truediv (a b : Q) : result Q :=
  if Qeq_bool b 0 then raise ZeroDivisionError else ok (a / b).

(** [s.startswith(prefix)] *)
Definition startswith (s prefix : string) : bool := String.prefix prefix s.

(** [s.endswith(suffix)] *)
Definition endswith (s suffix : string) : bool :=
  let n := String.length s in
  let m := String.length suffix in
  (m <=? n)%nat && String.eqb (substring (n - m) m s) suffix.

End Py.

Notation "'let!' x ':=' m 'in' k" := (Py.bind m (fun x => k))
  (at level 10, x pattern, m at level 100, k at level 200).

(** ** numpy: the seeded generator and arrays *)

Module Numpy.
Import Py.

(** [np.random.RandomState]: the Mersenne Twister itself is numpy's, not
    the repository's, so only its interface is fixed here.  [seed s] is
    [RandomState(s)] for an integer [s]; [randint g high] draws one
    integer of [[0, high)] and returns the advanced generator. *)
Class RandomState (G : Type) : Type := {
  seed : Z -> G;
  randint : G -> nat -> nat * G;
  randint_lt : forall g high, (0 < high)%nat -> (fst (randint g high) < high)%nat
}.

Section Generator.
Context {G : Type} `{RandomState G}.

(** [RandomState(random_state)]: with [None] the generator is seeded
    from operating-system entropy, an extra input of the model. *)
Definition RandomState_new (random_state : option Z) (entropy : G) : G :=
  match random_state with
  | Some s => seed s
  | None => entropy
  end.

(** [randint(0, high, size)] *)
Fixpoint randints (g : G) (high size : nat) : list nat * G :=
  match size with
  | O => ([], g)
  | S size' =>
      let '(i, g1) := randint g high in
      let '(is', g2) := randints g1 high size' in
      (i :: is', g2)
  end.

(** [g.choice(a, size=size, replace=True)] for a 1-D array [a]:
    [a[randint(0, len(a), size)]].  (With [size = 0] current numpy
    returns the empty array even when [a] is empty.) *)
Definition choice (g : G) (a : list nat) (size : nat) : list nat * G :=
  let '(idx, g') := randints g (length a) size in
  (map (fun i => nth i a O) idx, g').

(** [np.arange(n)] *)
Definition arange (n : nat) : list nat := seq 0 n.
End Generator.

(** An n-dimensional integer array: its shape and its elements in
    row-major order. *)
Record ndarray : Type := mk_ndarray { shape : list nat; data : list Z }.

Definition ndim (a : ndarray) : nat := length (shape a).

(** [np.squeeze(a)]: drop the axes of length one. *)
Definition squeeze (a : ndarray) : ndarray :=
  {| shape := filter (fun d => negb (d =? 1)%nat) (shape a);
     data := data a |}.

(** A Python object passed where an array is expected: either already an
    [np.ndarray], or another array-like (list, tuple, scalar), given by
    the array that [np.asarray] makes of it. *)
Inductive array_like : Type :=
| NdArray (a : ndarray)
| Sequence (a : ndarray).

Definition asarray (o : array_like) : ndarray :=
  match o with NdArray a | Sequence a => a end.

Definition is_ndarray (o : array_like) : bool :=
  match o with NdArray _ => true | Sequence _ => false end.

End Numpy.

(** ** backend/utils.py *)

Module Utils.
Import Py Numpy.

(** *** Directory listing *)

(** The body of [for label in os.listdir(path_to_dir)]: the labels kept
    so far, in the order met. *)
Fixpoint listdir_loop (names : list string) (skip_tail skip_head : string)
    (labels : list string) : list string :=
  match names with
  | [] => labels
  | label :: names' =>
      if negb (endswith label skip_tail) && negb (startswith label skip_head)
      then listdir_loop names' skip_tail skip_head (labels ++ [label])
      else listdir_loop names' skip_tail skip_head labels
  end.

(** [listdir(path_to_dir, skip_tail, skip_head)]; [os.listdir] is the
    operating system's, an argument of the model.  The defaults of the
    two filters are the strings ['.csv'] and ['.']. *)
Definition listdir (os_listdir : string -> result (list string))
    (path_to_dir skip_tail skip_head : string) : result (list string) :=
  let! names := os_listdir path_to_dir in
  ok (listdir_loop names skip_tail skip_head []).

(** *** The bootstrap out-of-bag resampler *)

Record BootstrapOutOfBag : Type := {
  n_splits : nat;
  random_state : option Z
}.

Section Split.
Context {G : Type} `{RandomState G}.

(** The body of [for _ in range(self.n_splits)]; the generator is
    rendered as the list of the pairs it yields.  The test indices
    come out of a Python [set], in no particular order: [elements]
    fixes one. *)
Fixpoint split_loop (rand_gen : G) (sample_indicators : list nat)
    (nrows k : nat) : list (list nat * list nat) :=
  match k with
  | O => []
  | S k' =>
      let '(train_idx, rand_gen') :=
        choice rand_gen sample_indicators nrows in
      let test_idx :=
        elements
          ((list_to_set sample_indicators : gset nat)
             ∖ list_to_set train_idx) in
      (train_idx, test_idx) :: split_loop rand_gen' sample_indicators nrows k'
  end.

(** [BootstrapOutOfBag.split(self, X, y)]; [X] is a matrix, given by
    its rows.  The generator is built afresh, from [self.random_state],
    at every call. *)
Definition split {A B} (self : BootstrapOutOfBag)
    (X : list (list A)) (y : B) (entropy : G)
    : list (list nat * list nat) :=
  let rand_gen := RandomState_new (random_state self) entropy in
  let nrows := length X in
  let sample_indicators := arange nrows in
  split_loop rand_gen sample_indicators nrows (n_splits self).
End Split.

(** *** Feature-indicator formatting *)

(** [check_support(support)]; the result [None] is Python's [None],
    returned when control falls off the end of the function. *)
Definition check_support (support : array_like) : option ndarray :=
  if (1 <? ndim (asarray support))%nat then
    Some (squeeze (asarray support))
  else if negb (is_ndarray support) then
    Some (asarray support)
  else
    None.

(** *** The .632+ estimator *)

(** [point632plus(train_score, test_score, r_marked, test_score_marked)] *)
Definition point632plus
    (train_score test_score r_marked test_score_marked : Q) : result Q :=
  let point632 := 0.368 * train_score + 0.632 * test_score in
  let! frac :=
    truediv (0.368 * 0.632 * r_marked) (1 - 0.368 * r_marked) in
  ok (point632 + (test_score_marked - train_score) * frac).

(** [relative_overfit_rate(train_score, test_score, gamma)] *)
Definition relative_overfit_rate (train_score test_score gamma : Q)
    : result Q :=
  if gt test_score train_score && gt gamma train_score
  then truediv (test_score - train_score) (gamma - train_score)
  else ok 0.

(** [np.sum(y)] of an integer label vector. *)
Definition np_sum (y : list Z) : Z := foldr Z.add 0%Z y.

(** [np.sum(y) / np.size(y)]: a numpy scalar division, which does not
    raise; on an empty vector it is 0/0, a NaN, rendered as [None]. *)
Definition np_mean (y : list Z) : option Q :=
  match y with
  | [] => None
  | _ => Some (inject_Z (np_sum y) / inject_Z (Z.of_nat (length y)))
  end.

(** [no_info_rate(y_true, y_pred)]; [None] is NaN, which numpy
    arithmetic propagates. *)
Definition no_info_rate (y_true y_pred : list Z) : option Q :=
  match np_mean y_true, np_mean y_pred with
  | Some p_one, Some q_one =>
      Some (p_one * (1 - q_one) + (1 - p_one) * q_one)
  | _, _ => None
  end.

(** [point632plus_score(y_true, y_pred, train_score, test_score)].
    When [gamma] is NaN every comparison with it is false: [min] keeps
    its first argument and [relative_overfit_rate] takes its [else]
    branch. *)
Definition point632plus_score
    (y_true y_pred : list Z) (train_score test_score : Q) : result Q :=
  match no_info_rate y_true y_pred with
  | Some gamma =>
      let test_score_marked := min test_score gamma in
      let! r_marked := relative_overfit_rate train_score test_score gamma in
      point632plus train_score test_score r_marked test_score_marked
  | None =>
      point632plus train_score test_score 0 test_score
  end.


(** *** Standardise, fit, predict, score *)

(** [sklearn.preprocessing.StandardScaler], by its interface: fitting
    on a matrix yields the fitted scaler and the transformed matrix. *)
Class StandardScaler (M S : Type) : Type := {
  fit_transform : M -> result (S * M);
  transform : S -> M -> result M
}.

(** A model with the scikit-learn estimator interface; [fit] returns
    the fitted model. *)
Class Estimator (E M : Type) : Type := {
  fit : E -> M -> list Z -> result E;
  predict : E -> M -> result (list Z)
}.

Section Evaluate.
Context {M S E : Type} `{StandardScaler M S} `{Estimator E M}.

(** [train_test_z_scores(X_train, X_test)] *)
Definition train_test_z_scores (X_train X_test : M) : result (M * M) :=
  let! (scaler, X_train_std) := fit_transform X_train in
  let! X_test_std := transform scaler X_test in
  ok (X_train_std, X_test_std).

(** The statements under [try:] in [scale_fit_predict632]. *)
Definition scale_fit_predict632_body (model : E)
    (X_train X_test : M) (y_train y_test : list Z)
    (score_func : list Z -> list Z -> result Q) : result (Q * Q) :=
  let! (X_train_std, X_test_std) := train_test_z_scores X_train X_test in
  let! model := fit model X_train_std y_train in
  let! y_train_pred := predict model X_train_std in
  let! train_score := score_func y_train y_train_pred in
  let! y_test_pred := predict model X_test_std in
  let! test_score := score_func y_test y_test_pred in
  let! train_632_score :=
    point632plus_score y_train y_train_pred train_score test_score in
  let! test_632_score :=
    point632plus_score y_test y_test_pred train_score test_score in
  ok (train_632_score, test_632_score).

(** [scale_fit_predict632(model, X_train, X_test, y_train, y_test,
    score_func)]: the body under a bare [except] returning
    [None, None]. *)
Definition scale_fit_predict632 (model : E)
    (X_train X_test : M) (y_train y_test : list Z)
    (score_func : list Z -> list Z -> result Q)
    : option Q * option Q :=
  try_except
    (let! (train_632_score, test_632_score) :=
       scale_fit_predict632_body model X_train X_test y_train y_test
         score_func in
     ok (Some train_632_score, Some test_632_score))
    (None, None).
End Evaluate.

End Utils.

(** ** backend/utils.py on binary64 numbers

    [point632plus] once more, this time on the floats of the source,
    IEEE 754 binary64 as specified in [SpecFloat], to settle what holds
    of it for all floats, the infinities, the NaN and overflow
    included. *)

Module Binary64.
Import Py SpecFloat.

(** The precision and the exponent bound of binary64. *)
Definition prec : Z := 53.
Definition emax : Z := 1024.

Definition add : spec_float -> spec_float -> spec_float := SFadd prec emax.
Definition sub : spec_float -> spec_float -> spec_float := SFsub prec emax.
Definition mul : spec_float -> spec_float -> spec_float := SFmul prec emax.
Definition div : spec_float -> spec_float -> spec_float := SFdiv prec emax.

(** [x == y]; false when either side is a NaN. *)
Definition eqb : spec_float -> spec_float -> bool := SFeqb.

Definition is_zero (x : spec_float) : bool :=
  match x with
  | S754_zero _ => true
  | _ => false
  end.

(** [math.isfinite(x)] *)
Definition isfinite (x : spec_float) : bool :=
  match x with
  | S754_zero _ | S754_finite _ _ _ => true
  | S754_infinity _ | S754_nan => false
  end.

(** The literals of the source, each the binary64 number nearest to the
    decimal: [0.368 = 0x1.78d4fdf3b645ap-2],
    [0.632 = 0x1.4395810624dd3p-1], and the integer [1] as a float. *)
Definition lit_0_368 : spec_float :=
  S754_finite false 6629298651489370 (-54).
Definition lit_0_632 : spec_float :=
  S754_finite false 5692549928996307 (-53).
Definition lit_1 : spec_float :=
  S754_finite false 4503599627370496 (-52).

(** [a / b]: a zero divisor raises. *)
Definition truediv (a b : spec_float) : result spec_float :=
  if is_zero b then raise ZeroDivisionError else ok (div a b).

(** [point632plus(train_score, test_score, r_marked, test_score_marked)]
    on binary64 numbers, rounding after every operation as CPython and
    numba do. *)
Definition point632plus
    (train_score test_score r_marked test_score_marked : spec_float)
    : result spec_float :=
  let point632 :=
    add (mul lit_0_368 train_score) (mul lit_0_632 test_score) in
  let! frac :=
    truediv (mul (mul lit_0_368 lit_0_632) r_marked)
      (sub lit_1 (mul lit_0_368 r_marked)) in
  ok (add point632 (mul (sub test_score_marked train_score) frac)).
End Binary64.

(** ** model_comparison/model_selection.py *)

Module ModelSelection.
Import Py Numpy.

(** *** The out-of-bag sampler *)

(** [OOBSampler]: unlike [Utils.BootstrapOutOfBag] it owns a generator,
    built once in [__init__] and advanced by every draw. *)
Record OOBSampler (G : Type) : Type := {
  n_splits : nat;
  rgen : G
}.
Arguments n_splits {G} _.
Arguments rgen {G} _.

Section Sampler.
Context {G : Type} `{RandomState G}.

(** [OOBSampler.__init__(self, n_splits, random_state)] *)
Definition OOBSampler_init (n_splits : nat) (random_state : option Z)
    (entropy : G) : OOBSampler G :=
  {| n_splits := n_splits;
     rgen := RandomState_new random_state entropy |}.

(** The body of [for _ in range(self.n_splits)], threading
    [self.rgen]. *)
Fixpoint split_loop (rgen : G) (sample_idxs : list nat) (nrows k : nat)
    : list (list nat * list nat) * G :=
  match k with
  | O => ([], rgen)
  | S k' =>
      let '(train_idx, rgen1) := choice rgen sample_idxs nrows in
      let test_idx :=
        elements
          ((list_to_set sample_idxs : gset nat) ∖ list_to_set train_idx) in
      let '(rest, rgen2) := split_loop rgen1 sample_idxs nrows k' in
      ((train_idx, test_idx) :: rest, rgen2)
  end.

(** [OOBSampler.split(self, X, **kwargs)]: the pairs yielded and the
    sampler afterwards. *)
Definition split {A} (self : OOBSampler G) (X : list (list A))
    : list (list nat * list nat) * OOBSampler G :=
  let nrows := length X in
  let sample_idxs := arange nrows in
  let '(pairs, rgen') :=
    split_loop (rgen self) sample_idxs nrows (n_splits self) in
  (pairs, {| n_splits := n_splits self; rgen := rgen' |}).

(** *** Bootstrap bias corrected cross-validation *)

(** [scores[idxs, :]]: the rows at the given positions. *)
Definition take_rows (scores : list (list Q)) (idxs : list nat)
    : result (list (list Q)) :=
  mapM (fun i => match scores !! i with
                 | Some row => ok row
                 | None => raise IndexError
                 end) idxs.

(** Position of the first minimum of [x :: l], [x] being at position
    [i - 1] and the best so far at [best_i]. *)
Fixpoint argmin_from (best : Q) (best_i i : nat) (l : list Q) : nat :=
  match l with
  | [] => best_i
  | x :: l' =>
      if lt x best then argmin_from x i (S i) l'
      else argmin_from best best_i (S i) l'
  end.

(** [np.argmin(a)] without [axis]: the position of the first minimum
    in the flattened array. *)
Definition np_argmin (a : list (list Q)) : result nat :=
  match concat a with
  | [] => raise ValueError
  | x :: l => ok (argmin_from x 0 1 l)
  end.

(** A name that is bound neither in the function, nor in the module,
    nor among the builtins: evaluating it raises [NameError]. *)
Definition unbound {A} (name : string) : result A := raise (NameError name).

(** The body of [for _ in range(n_iter)] (lines 51-58).  The rows are
    drawn from the module-level generator [np.random], whose state is
    [g]; the expression that closes the body (lines 56-58) reads
    [sample_indicators] and [train_idx], which nothing binds. *)
Fixpoint bbc_cv_loop (g : G) (scores : list (list Q)) (nrows k : nat)
    (loss_bbc : nat) : result nat * G :=
  match k with
  | O => (ok loss_bbc, g)
  | S k' =>
      let '(idxs, g1) := choice g (arange nrows) nrows in
      match (let! rows := take_rows scores idxs in
             let! best := np_argmin rows in
             let loss_bbc := (loss_bbc + best)%nat in
             let! sample_indicators := unbound "sample_indicators" in
             let! train_idx := unbound "train_idx" in
             let _ :=
               elements
                 ((list_to_set sample_indicators : gset nat)
                  ∖ list_to_set train_idx) in
             ok loss_bbc) with
      | inl e => (inl e, g1)
      | inr loss_bbc => bbc_cv_loop g1 scores nrows k' loss_bbc
      end
  end.

(** [bbc_cv(scores, n_iter, random_state)] on a two-dimensional
    [scores], given by its rows, so that line 45 unpacks its shape; the
    state [g] of the module-level generator is an explicit input and
    output, and so is the operating-system entropy that
    [RandomState(None)] would read.

    The function is unfinished in the source and the module does not
    compile as it stands: the [for] header of line 48 has neither colon
    nor body (and the header of [OOBSampler.split] misses a comma).  The
    embedding reads line 48 as a loop with an empty body, the smallest
    repair, and keeps every statement: line 46 builds the sampler from
    [n_splits], which nothing binds. *)
Definition bbc_cv (scores : list (list Q)) (n_iter : nat)
    (random_state : option Z) (entropy : G) (g : G) : result Q * G :=
  let nrows := length scores in
  match (let! n_splits := unbound "n_splits" in
         ok (OOBSampler_init n_splits random_state entropy)) with
  | inl e => (inl e, g)
  | inr sampler =>
      let '(_, _) := split sampler scores in
      match bbc_cv_loop g scores nrows n_iter 0 with
      | (inl e, g') => (inl e, g')
      | (inr loss_bbc, g') =>
          (match n_iter with
           | O => raise ZeroDivisionError
           | _ => ok (inject_Z (Z.of_nat loss_bbc)
                      / inject_Z (Z.of_nat n_iter))
           end, g')
      end
  end.
End Sampler.

(** The loss of configuration [j] on the whole matrix, reading the
    entries as per-sample losses: the mean of column [j]. *)
Definition column_loss (scores : list (list Q)) (j : nat) : Q :=
  foldr Qplus 0 (map (fun row => nth j row 0) scores)
  / inject_Z (Z.of_nat (length scores)).

End ModelSelection.

(** ** A concrete generator

    A linear congruential generator standing in for numpy's, to run the
    resamplers on actual draws. *)

Module Lcg.
Import Numpy.

Definition next (g : Z) : Z := ((1103515245 * g + 12345) mod 2147483648)%Z.

Definition draw (g : Z) (high : nat) : nat * Z :=
  (Z.to_nat (next g mod Z.of_nat high), next g).

#[export] Instance lcg : RandomState Z.
Proof.
  refine {| seed := fun s => (s mod 2147483648)%Z; randint := draw |}.
  intros g high Hpos. unfold draw. cbn [fst].
  pose proof (Z.mod_pos_bound (next g) (Z.of_nat high)). lia.
Defined.

End Lcg.

(** ** experiments/comparison_schemes.py *)

Module ComparisonSchemes.
Import Py.

(** *** Values, records and the outside world *)

(** The values stored in a result record or a configuration. *)
Inductive value : Type :=
| VNone
| VNaN
| VInt (z : Z)
| VStr (s : string)
| VNum (q : Q)
| VVotes (votes : list Z)
| VDuration (d : Q).

(** A [dict] with string keys: result records, configurations. *)
Abbreviation record := (gmap string value).

(** A directory entry; a regular file holds its bytes. *)
Inductive entry : Type :=
| File (content : string)
| Dir.

(** What the loop does to its environment, in order. *)
Inductive event : Type :=
| Print (line : string)
| ReadResult (path : string)
| WriteResult (path : string)
| SplitFolds
| Search (fold : nat)
| Fit (fold : nat)
| Score (fold : nat).

Record world : Type := {
  files : gmap string entry;
  trace : list event
}.

(** Computations that may raise and that act on the world; what was
    done before an exception stays done. *)
Definition io (A : Type) : Type := world -> result A * world.

Definition io_ret {A} (a : A) : io A := fun w => (ok a, w).

Definition io_bind {A B} (m : io A) (k : A -> io B) : io B :=
  fun w =>
    match m w with
    | (inl e, w') => (inl e, w')
    | (inr a, w') => k a w'
    end.

Definition lift {A} (r : result A) : io A := fun w => (r, w).

Definition emit (ev : event) : io unit :=
  fun w => (ok tt, {| files := files w; trace := trace w ++ [ev] |}).

Definition get_files : io (gmap string entry) := fun w => (ok (files w), w).

Definition put_files (fs : gmap string entry) : io unit :=
  fun w => (ok tt, {| files := fs; trace := trace w |}).

(** [os.path.isfile(path)] *)
Definition isfile (fs : gmap string entry) (path : string) : bool :=
  match fs !! path with
  | Some (File _) => true
  | _ => false
  end.

(** [os.path.isdir(path)] *)
Definition isdir (fs : gmap string entry) (path : string) : bool :=
  match fs !! path with
  | Some Dir => true
  | _ => false
  end.

Definition ends_with_slash (s : string) : bool :=
  match last (list_ascii_of_string s) with
  | Some c => Ascii.eqb c "/"%char
  | None => false
  end.

(** [os.path.join(a, b)] (posix): an absolute [b] replaces [a]. *)
Definition path_join (a b : string) : string :=
  if String.prefix "/" b then b
  else if (String.eqb a "" || ends_with_slash a)%bool then (a ++ b)%string
  else (a ++ "/" ++ b)%string.

(** [str(random_state)] inside an f-string. *)
Definition str_seed (random_state : option Z) : string :=
  match random_state with
  | Some s => NilZero.string_of_int (Z.to_int s)
  | None => "None"
  end.

(** [X[idx]]: the rows (or labels) at the given positions. *)
Definition take {A} (l : list A) (idx : list nat) : result (list A) :=
  mapM (fun i => match l !! i with
                 | Some x => ok x
                 | None => raise IndexError
                 end) idx.

Definition sumQ (l : list Q) : Q := foldr Qplus 0 l.

(** [np.mean(scores)]; NaN on an empty list. *)
Definition np_mean (scores : list Q) : value :=
  match scores with
  | [] => VNaN
  | _ => VNum (sumQ scores / inject_Z (Z.of_nat (length scores)))
  end.

(** [np.var(scores)]: the mean squared deviation from the mean. *)
Definition np_var (scores : list Q) : value :=
  match scores with
  | [] => VNaN
  | _ =>
      let n := inject_Z (Z.of_nat (length scores)) in
      let mu := sumQ scores / n in
      VNum (sumQ (map (fun x => (x - mu) * (x - mu)) scores) / n)
  end.

(** [feature_votes[support] += 1]: one vote for every distinct index of
    [support]; an index past the end raises. *)
Definition add_votes (feature_votes : list Z) (support : list nat)
    : result (list Z) :=
  if forallb (fun i => i <? length feature_votes)%nat support then
    ok (imap (fun i v => if bool_decide (i ∈ support) then (v + 1)%Z else v)
          feature_votes)
  else raise IndexError.

(** [dict.update]: the new items win. *)
Definition update (output new_items : record) : record :=
  new_items ∪ output.

(** The collaborators of the loop that live outside the repository's
    sources at hand: the persistence helpers of [utils.ioutil], the
    clock, scikit-learn's splitter and checker, SMAC, the pipeline of
    type [P] (copied by [deepcopy], which a pure model needs not spell
    out), and the operating system's [os.makedirs], which creates the
    missing parents along with the leaf and is given by its outcome and
    the directory tree it leaves, also when it fails. *)
Class Collaborators (P Space : Type) : Type := {
  os_makedirs :
    string -> gmap string entry -> result unit * gmap string entry;
  read_prelim_result : gmap string entry -> string -> result record;
  write_prelim_results :
    string -> record -> gmap string entry -> result (gmap string entry);
  datetime_now : nat -> Q;
  str_duration : Q -> string;
  stratified_kfold :
    nat -> bool -> option Z -> list (list Q) -> list Z ->
    result (list (list nat * list nat));
  check_X_y : list (list Q) -> list Z -> result (list (list Q) * list Z);
  smac_optimize :
    (record -> result (option Q)) -> Space -> nat -> option Z -> string ->
    result record;
  set_params : P -> record -> result P;
  pipeline_fit : P -> list (list Q) -> list Z -> result P;
  pipeline_predict : P -> list (list Q) -> result (list Z);
  pipeline_support : P -> result (list nat)
}.

(** *** The hyperparameter search *)

Record SMACSearchCV (P Space : Type) : Type := {
  cv : nat;
  experiment_id : string;
  workflow : P;
  hparam_space : Space;
  max_evals : nat;
  score_func : list Z -> list Z -> result Q;
  random_state : option Z;
  shuffle : bool;
  output_dir : option string;
  verbose : Z;
  best_config : option record
}.
Arguments cv {P Space} _.
Arguments experiment_id {P Space} _.
Arguments workflow {P Space} _.
Arguments hparam_space {P Space} _.
Arguments max_evals {P Space} _.
Arguments score_func {P Space} _.
Arguments random_state {P Space} _.
Arguments shuffle {P Space} _.
Arguments output_dir {P Space} _.
Arguments verbose {P Space} _.
Arguments best_config {P Space} _.

Section Loop.
Context {P Space : Type} `{Collaborators P Space}.

(** The loop of [cv_objective_fn] over the folds, collecting the test
    scores. *)
Fixpoint objective_folds (self : SMACSearchCV P Space) (hparams : record)
    (X : list (list Q)) (y : list Z)
    (folds : list (list nat * list nat)) : result (list Q) :=
  match folds with
  | [] => ok []
  | (train_idx, test_idx) :: folds' =>
      let! X_train := take X train_idx in
      let! X_test := take X test_idx in
      let! y_train := take y train_idx in
      let! y_test := take y test_idx in
      let! workflow := set_params (workflow self) hparams in
      let! workflow := pipeline_fit workflow X_train y_train in
      let! y_pred := pipeline_predict workflow X_test in
      let! score := score_func self y_test y_pred in
      let! rest := objective_folds self hparams X y folds' in
      ok (score :: rest)
  end.

(** [SMACSearchCV.cv_objective_fn(self, hparams)], on the data stored
    by [fit]; [None] is the NaN of an empty mean. *)
Definition cv_objective_fn (self : SMACSearchCV P Space)
    (X : list (list Q)) (y : list Z) (hparams : record)
    : result (option Q) :=
  let! folds :=
    stratified_kfold (cv self) (shuffle self) (random_state self) X y in
  let! test_scores := objective_folds self hparams X y folds in
  ok (match np_mean test_scores with
      | VNum m => Some (1 - m)
      | _ => None
      end).

(** [os.makedirs(path)], on the files of the world. *)
Definition makedirs (path : string) : io unit :=
  fun w =>
    let '(outcome, fs) := os_makedirs path (files w) in
    (outcome, {| files := fs; trace := trace w |}).

(** [SMACSearchCV.fit(self, X, y)]: the searcher with its best
    configuration set. *)
Definition SMACSearchCV_fit (self : SMACSearchCV P Space)
    (X : list (list Q)) (y : list Z) : io (SMACSearchCV P Space) :=
  io_bind (lift (check_X_y X y)) (fun '(X, y) =>
  io_bind (lift (match output_dir self with
                 | Some d =>
                     ok (path_join d
                           (experiment_id self ++ "_"
                            ++ str_seed (random_state self)))
                 | None => raise TypeError
                 end)) (fun search_metadata_dir =>
  io_bind get_files (fun fs =>
  io_bind (if isdir fs search_metadata_dir then io_ret tt
           else makedirs search_metadata_dir) (fun _ =>
  io_bind (lift (smac_optimize (cv_objective_fn self X y)
                   (hparam_space self) (max_evals self)
                   (random_state self) search_metadata_dir))
    (fun config =>
  io_ret
    {| cv := cv self; experiment_id := experiment_id self;
       workflow := workflow self; hparam_space := hparam_space self;
       max_evals := max_evals self; score_func := score_func self;
       random_state := random_state self; shuffle := shuffle self;
       output_dir := output_dir self; verbose := verbose self;
       best_config := Some config |}))))).

(** *** The nested cross-validation loop *)

(** What the outer loop carries from fold to fold. *)
Record accumulators : Type := {
  output : record;
  test_scores : list Q;
  train_scores : list Q;
  feature_votes : list Z
}.

(** The body of [for (train_idx, test_idx) in kfolds.split(X, y)]
    (lines 92-130), for the folds from number [i] on. *)
Fixpoint outer_folds (X : list (list Q)) (y : list Z)
    (experiment_id : string) (pipeline : P) (hparam_space : Space)
    (score_func : list Z -> list Z -> result Q) (cv : nat)
    (output_dir : option string) (max_evals : nat) (verbose : Z)
    (random_state : option Z)
    (folds : list (list nat * list nat)) (i : nat) (acc : accumulators)
    : io accumulators :=
  match folds with
  | [] => io_ret acc
  | (train_idx, test_idx) :: folds' =>
      io_bind (lift (take X train_idx)) (fun X_train =>
      io_bind (lift (take X test_idx)) (fun X_test =>
      io_bind (lift (take y train_idx)) (fun y_train =>
      io_bind (lift (take y test_idx)) (fun y_test =>
      let optimizer :=
        {| cv := cv; experiment_id := experiment_id;
           workflow := pipeline; hparam_space := hparam_space;
           max_evals := max_evals; score_func := score_func;
           random_state := random_state; shuffle := true;
           output_dir := output_dir; verbose := verbose;
           best_config := None |} in
      io_bind (emit (Search i)) (fun _ =>
      io_bind (SMACSearchCV_fit optimizer X_train y_train) (fun optimizer =>
      io_bind (lift (match best_config optimizer with
                     | Some c => ok c
                     | None => raise TypeError
                     end)) (fun config =>
      let output := update (output acc) config in
      io_bind (lift (set_params pipeline config)) (fun pipeline_outer =>
      io_bind (emit (Fit i)) (fun _ =>
      io_bind (lift (pipeline_fit pipeline_outer X_train y_train))
        (fun pipeline_outer =>
      io_bind (lift (let! support := pipeline_support pipeline_outer in
                     add_votes (feature_votes acc) support))
        (fun feature_votes =>
      io_bind (emit (Score i)) (fun _ =>
      io_bind (lift (let! y_pred := pipeline_predict pipeline_outer X_test in
                     score_func y_test y_pred)) (fun test_score =>
      io_bind (emit (Score i)) (fun _ =>
      io_bind (lift (let! y_pred := pipeline_predict pipeline_outer X_train in
                     score_func y_train y_pred)) (fun train_score =>
      outer_folds X y experiment_id pipeline hparam_space score_func cv
        output_dir max_evals verbose random_state folds' (S i)
        {| output := output;
           test_scores := test_scores acc ++ [test_score];
           train_scores := train_scores acc ++ [train_score];
           feature_votes := feature_votes |})))))))))))))))
  end.

(** [f'experiment_{random_state}_{experiment_id}'] under
    [path_tmp_results], or the empty path (lines 66-71). *)
Definition path_case_file (path_tmp_results : option string)
    (random_state : option Z) (experiment_id : string) : string :=
  match path_tmp_results with
  | None => ""
  | Some dir =>
      path_join dir
        ("experiment_" ++ str_seed random_state ++ "_" ++ experiment_id)
  end.

Definition seed_value (random_state : option Z) : value :=
  match random_state with
  | Some s => VInt s
  | None => VNone
  end.

(** [X.shape[1]] of a matrix given by its rows. *)
Definition ncols (X : list (list Q)) : nat :=
  match X with
  | [] => O
  | row :: _ => length row
  end.

(** [nested_cross_validation_smac(X, y, experiment_id, workflow,
    score_func, cv, output_dir, max_evals, verbose, random_state,
    path_tmp_results)] *)
Definition nested_cross_validation_smac
    (X : list (list Q)) (y : list Z) (experiment_id : string)
    (workflow : P * Space) (score_func : list Z -> list Z -> result Q)
    (cv : nat) (output_dir : option string) (max_evals : nat)
    (verbose : Z) (random_state : option Z)
    (path_tmp_results : option string) : io record :=
  let path_case_file :=
    path_case_file path_tmp_results random_state experiment_id in
  io_bind get_files (fun fs =>
  if isfile fs path_case_file then
    io_bind (emit (ReadResult path_case_file)) (fun _ =>
    io_bind (lift (read_prelim_result fs path_case_file)) (fun output =>
    io_bind (emit (Print ("Reloading results from: " ++ path_case_file)))
      (fun _ =>
    io_ret output)))
  else
    let output0 : record :=
      {[ "exp_id" := seed_value random_state;
         "experiment_id" := VStr experiment_id ]} in
    io_bind (if (0 <? verbose)%Z then
               emit (Print ("Running experiment " ++ str_seed random_state
                            ++ " with " ++ experiment_id))
             else io_ret tt) (fun _ =>
    let '(pipeline, hparam_space) := workflow in
    let votes := replicate (ncols X) 0%Z in
    io_bind (emit SplitFolds) (fun _ =>
    io_bind (lift (stratified_kfold cv true random_state X y)) (fun folds =>
    io_bind (outer_folds X y experiment_id pipeline hparam_space score_func
               cv output_dir max_evals verbose random_state folds O
               {| output := output0; test_scores := [];
                  train_scores := []; feature_votes := votes |})
      (fun acc =>
    let output :=
      update (output acc)
        (list_to_map
           [("test_score", np_mean (test_scores acc));
            ("train_score", np_mean (train_scores acc));
            ("test_score_variance", np_var (test_scores acc));
            ("train_score_variance", np_var (train_scores acc));
            ("feature_votes", VVotes (feature_votes acc))]) in
    match path_tmp_results with
    | None => io_ret output
    | Some _ =>
        io_bind (emit (Print "Writing temporary results.")) (fun _ =>
        io_bind (emit (WriteResult path_case_file)) (fun _ =>
        io_bind get_files (fun fs =>
        io_bind (lift (write_prelim_results path_case_file output fs))
          (fun fs' =>
        io_bind (put_files fs') (fun _ =>
        if (0 <? verbose)%Z then
          let duration := datetime_now 1 - datetime_now 0 in
          io_bind (emit (Print ("Experiment " ++ str_seed random_state
                                ++ " completed in " ++ str_duration duration)))
            (fun _ =>
          io_ret (<["exp_duration" := VDuration duration]> output))
        else io_ret output)))))
    end))))).
End Loop.

(** The events that belong to the execution of a fold. *)
Definition is_fold_event (ev : event) : bool :=
  match ev with
  | SplitFolds | Search _ | Fit _ | Score _ => true
  | _ => false
  end.

End ComparisonSchemes.

(** ** experiment/backend/feature_selection.py *)

Module FeatureSelection.
Import Py Numpy.

(** *** Arrays of numbers *)

(** An n-dimensional array of floats: its shape and its elements in
    row-major order. *)
Record array : Type := mk_array { dims : list nat; elems : list Q }.

(** [np.size]: the product of the shape. *)
Definition prod (shape : list nat) : nat := foldr Nat.mul 1%nat shape.

(** The elements fill the shape. *)
Definition well_formed (X : array) : Prop := length (elems X) = prod (dims X).

(** [np.squeeze(X)] *)
Definition squeeze_array (X : array) : array :=
  {| dims := filter (fun d => negb (d =? 1)%nat) (dims X);
     elems := elems X |}.

(** [X.reshape(-1, 1)] *)
Definition reshape_column (X : array) : array :=
  {| dims := [prod (dims X); 1%nat]; elems := elems X |}.

(** [n] consecutive pieces of length [k]. *)
Fixpoint chunks {A} (k n : nat) (l : list A) : list (list A) :=
  match n with
  | O => []
  | S n' => take k l :: chunks k n' (drop k l)
  end.

(** An index into an axis of length [n]: negative indices count from the
    end, anything outside [[-n, n)] raises. *)
Definition axis_index (n : nat) (i : Z) : result nat :=
  if ((0 <=? i) && (i <? Z.of_nat n))%Z then ok (Z.to_nat i)
  else if ((- Z.of_nat n <=? i) && (i <? 0))%Z then
    ok (Z.to_nat (i + Z.of_nat n))
  else raise IndexError.

(** [X[:, index]] for an integer index array: the second axis is replaced
    by the axes of [index]. *)
Definition take_axis1 (X : array) (index : ndarray) : result array :=
  match dims X with
  | d0 :: d1 :: rest =>
      let p := prod rest in
      let! cols := mapM (axis_index d1) (data index) in
      ok {| dims := d0 :: shape index ++ rest;
            elems :=
              concat
                (map (fun block =>
                        concat (map (fun j => nth j (chunks p d1 block) [])
                                  cols))
                   (chunks (d1 * p) d0 (elems X))) |}
  | _ => raise IndexError
  end.

(** [X[:, None]]: a new axis of length one in second place. *)
Definition new_axis1 (X : array) : result array :=
  match dims X with
  | d0 :: rest => ok {| dims := d0 :: 1%nat :: rest; elems := elems X |}
  | [] => raise IndexError
  end.

(** [X.shape[1]] *)
Definition shape1 (X : array) : result nat :=
  match dims X with
  | _ :: d1 :: _ => ok d1
  | _ => raise IndexError
  end.

(** [np.arange(n, dtype=int)] as an array. *)
Definition arange_array (n : nat) : ndarray :=
  {| shape := [n]; data := map Z.of_nat (seq 0 n) |}.

(** *** The base selector *)

Definition VALID_ERROR_MECHANISMS : list string :=
  ["return_all"; "return_NaN"]%string.

(** A selector: its error mechanism and its support, [None] until [fit]
    has run. *)
Record BaseSelector : Type := {
  error_handling : string;
  support : option ndarray
}.

(** [BaseSelector.__init__(self, error_handling)] *)
Definition BaseSelector_init (error_handling : string) : result BaseSelector :=
  if existsb (String.eqb error_handling) VALID_ERROR_MECHANISMS then
    ok {| error_handling := error_handling; support := None |}
  else raise ValueError.

(** [BaseSelector.check_subset(X)].  The message of the second
    [RuntimeError] mentions an unbound [X_train], so that building it
    raises [NameError]. *)
Definition check_subset (X : array) : result array :=
  let! X :=
    if (2 <? length (dims X))%nat then
      if (2 <? length (dims (squeeze_array X)))%nat then
        raise (Raised "RuntimeError")
      else ok (squeeze_array X)
    else ok X in
  let! X :=
    if (length (dims X) <? 2)%nat then
      if (length (dims (reshape_column X)) =? 2)%nat then
        ok (reshape_column X)
      else raise (NameError "X_train")
    else ok X in
  ok X.

(** A support while [check_support] formats it: an integer array, or the
    float [np.nan]. *)
Inductive indicators : Type :=
| Indices (a : ndarray)
| NaN.

(** [np.ndim] of either. *)
Definition indicators_ndim (s : indicators) : nat :=
  match s with
  | Indices a => ndim a
  | NaN => O
  end.

(** [BaseSelector.check_support(self, support, X)] *)
Definition check_support (self : BaseSelector) (support : array_like)
    (X : array) : result ndarray :=
  let support := asarray support in
  let! support :=
    if (prod (shape support) <? 1)%nat then
      if String.eqb (error_handling self) "return_all" then
        let! ncols := shape1 X in
        ok (Indices (arange_array ncols))
      else if String.eqb (error_handling self) "return_NaN" then
        ok NaN
      else raise (Raised "RuntimeError")
    else ok (Indices support) in
  let support :=
    match support with
    | Indices a => if (1 <? ndim a)%nat then Indices (squeeze a) else support
    | NaN => NaN
    end in
  let! support :=
    if (indicators_ndim support <? 1)%nat then
      match support with
      | Indices a => ok {| shape := [1%nat]; data := data a |}
      | NaN => raise TypeError
      end
    else
      match support with
      | Indices a => ok a
      | NaN => raise TypeError
      end in
  if String.eqb (error_handling self) "return_all" then
    if (ndim support =? 1)%nat then ok support
    else raise (Raised "AssertionError")
  else ok support.

(** [BaseSelector.transform(self, X)] *)
Definition transform (self : BaseSelector) (X : array) : result array :=
  let! subset :=
    match support self with
    | Some index => take_axis1 X index
    | None => new_axis1 X
    end in
  check_subset subset.

(** *** The selectors *)

(** The libraries behind the selectors: scikit-learn's input check and
    min-max scaler, scipy's Wilcoxon test (statistic and p-value) and the
    ReliefF ranking of the features for a number of neighbours. *)
Class Libraries : Type := {
  check_X_y : array -> list Z -> result (array * list Z);
  stats_wilcoxon : list Q -> list Z -> result (Q * Q);
  minmax_fit_transform : array -> result array;
  relieff_top_features : nat -> array -> list Z -> result (list Z)
}.

(** [X[:, num]] of a matrix. *)
Definition column (X : array) (num : nat) : list Q :=
  match dims X with
  | [r; c] => map (fun i => nth (i * c + num) (elems X) 0) (seq 0 r)
  | _ => []
  end.

(** [np.array(support, dtype=int)] of a list of positions. *)
Definition index_array (support : list nat) : ndarray :=
  {| shape := [length support]; data := map Z.of_nat support |}.

Record WilcoxonSelection : Type := {
  wilcoxon_base : BaseSelector;
  thresh : Q;
  bf_correction : bool
}.

Record ReliefFSelection : Type := {
  relieff_base : BaseSelector;
  num_neighbors : nat;
  num_features : Z
}.

(** [l[:k]]: the first [k] elements, or all but the last [-k]. *)
Definition slice_to {A} (k : Z) (l : list A) : list A :=
  if (0 <=? k)%Z then take (Z.to_nat k) l
  else take (length l - Z.to_nat (- k)) l.

Section Selectors.
Context `{Libraries}.

(** The body of [for num in range(ncols)] of [wilcoxon_signed_rank],
    with the bound of the branch taken: [self.thresh / ncols] under the
    Bonferroni correction, [self.thresh] without. *)
Fixpoint wilcoxon_loop (X : array) (y : list Z) (bound : result Q)
    (nums : list nat) (support : list nat) : result (list nat) :=
  match nums with
  | [] => ok support
  | num :: nums' =>
      let! (_, pval) := stats_wilcoxon (column X num) y in
      let! bound_now := bound in
      if negb (gt pval bound_now)
      then wilcoxon_loop X y bound nums' (support ++ [num])
      else wilcoxon_loop X y bound nums' support
  end.

(** [WilcoxonSelection.wilcoxon_signed_rank(self, X, y)] *)
Definition wilcoxon_signed_rank (self : WilcoxonSelection) (X : array)
    (y : list Z) : result ndarray :=
  match dims X with
  | [_; ncols] =>
      let bound :=
        if bf_correction self then
          truediv (thresh self) (inject_Z (Z.of_nat ncols))
        else ok (thresh self) in
      let! support := wilcoxon_loop X y bound (seq 0 ncols) [] in
      ok (index_array support)
  | _ => raise ValueError
  end.

(** [WilcoxonSelection.fit(self, X, y)]: the selector with its support
    set. *)
Definition wilcoxon_fit (self : WilcoxonSelection) (X : array) (y : list Z)
    : result WilcoxonSelection :=
  let! (X, y) := check_X_y X y in
  let! _support := wilcoxon_signed_rank self X y in
  let! support := check_support (wilcoxon_base self) (NdArray _support) X in
  ok {| wilcoxon_base :=
          {| error_handling := error_handling (wilcoxon_base self);
             support := Some support |};
        thresh := thresh self;
        bf_correction := bf_correction self |}.

(** [ReliefFSelection.fit(self, X, y)]; the input check of this selector
    also scales [X]. *)
Definition relieff_fit (self : ReliefFSelection) (X : array) (y : list Z)
    : result ReliefFSelection :=
  let! (X, y) := check_X_y X y in
  let! X := minmax_fit_transform X in
  let! top_features := relieff_top_features (num_neighbors self) X y in
  let _support := slice_to (num_features self) top_features in
  let! support :=
    check_support (relieff_base self)
      (NdArray {| shape := [length _support]; data := _support |}) X in
  ok {| relieff_base :=
          {| error_handling := error_handling (relieff_base self);
             support := Some support |};
        num_neighbors := num_neighbors self;
        num_features := num_features self |}.

End Selectors.

(** *** Permutation importance *)

(** [RandomState.shuffle]: a rearrangement of a sequence, in place. *)
Class Shuffler (G : Type) : Type := {
  shuffle : G -> list Q -> list Q * G;
  shuffle_length : forall g l, length (fst (shuffle g l)) = length l
}.

(** What [_feature_permutation_importance] works on: the matrix [X], by
    rows, which it changes in place, the generator and the importances. *)
Record permutation_state (G : Type) : Type := {
  X_now : list (list Q);
  rgen_now : G;
  importance : list Q
}.
Arguments X_now {G} _.
Arguments rgen_now {G} _.
Arguments importance {G} _.

Section Permutation.
Context {G E : Type} `{Shuffler G} `{Utils.Estimator E (list (list Q))}.
Variable score_func : list Z -> list Z -> result Q.

(** [X[:, col_idx]] of a matrix given by its rows. *)
Definition get_column (X : list (list Q)) (col_idx : nat) : list Q :=
  map (fun row => nth col_idx row 0) X.

(** [X[:, col_idx] = values] *)
Definition set_column (X : list (list Q)) (col_idx : nat) (values : list Q)
    : list (list Q) :=
  zip_with (fun row v => <[col_idx := v]> row) X values.

(** The body of [for col_idx in range(num_features)]. *)
Fixpoint permute_columns (model : E) (y : list Z) (baseline : Q)
    (cols : list nat) (st : permutation_state G)
    : result unit * permutation_state G :=
  match cols with
  | [] => (ok tt, st)
  | col_idx :: cols' =>
      let x_orig := get_column (X_now st) col_idx in
      let '(shuffled, rgen) := shuffle (rgen_now st) x_orig in
      let X1 := set_column (X_now st) col_idx shuffled in
      match (let! y_pred := Utils.predict model X1 in score_func y y_pred) with
      | inl e =>
          (inl e, {| X_now := X1; rgen_now := rgen;
                     importance := importance st |})
      | inr new_score =>
          let X2 := set_column X1 col_idx x_orig in
          permute_columns model y baseline cols'
            {| X_now := X2; rgen_now := rgen;
               importance :=
                 alter (fun v => v + (baseline - new_score)) col_idx
                   (importance st) |}
      end
  end.

(** The body of [for round_idx in range(self.num_rounds)]. *)
Fixpoint permute_rounds (model : E) (y : list Z) (baseline : Q)
    (num_features rounds : nat) (st : permutation_state G)
    : result unit * permutation_state G :=
  match rounds with
  | O => (ok tt, st)
  | S rounds' =>
      match permute_columns model y baseline (seq 0 num_features) st with
      | (inl e, st') => (inl e, st')
      | (inr _, st') =>
          permute_rounds model y baseline num_features rounds' st'
      end
  end.

(** [np.shape(X)[1]] of a matrix given by its rows. *)
Definition width (X : list (list Q)) : nat :=
  match X with
  | [] => O
  | row :: _ => length row
  end.

(** [PermutationSelection._feature_permutation_importance(self, X, y)]:
    the average importances, [None] standing for the NaN of a division by
    zero rounds, together with the matrix and the generator as the call
    leaves them. *)
Definition feature_permutation_importance (model : E) (num_rounds : nat)
    (rgen : G) (X : list (list Q)) (y : list Z)
    : result (list (option Q)) * list (list Q) * G :=
  match (let! y_pred := Utils.predict model X in score_func y y_pred) with
  | inl e => (inl e, X, rgen)
  | inr baseline =>
      let num_features := width X in
      let st := {| X_now := X; rgen_now := rgen;
                   importance := replicate num_features 0 |} in
      match permute_rounds model y baseline num_features num_rounds st with
      | (inl e, st') => (inl e, X_now st', rgen_now st')
      | (inr _, st') =>
          (ok (map (fun v =>
                      match num_rounds with
                      | O => None
                      | _ => Some (v / inject_Z (Z.of_nat num_rounds))
                      end) (importance st')),
           X_now st', rgen_now st')
      end
  end.

End Permutation.

(** *** Selection through [np.where] *)

(** The positions at which a condition holds. *)
Fixpoint positions_from (i : nat) (mask : list bool) : list nat :=
  match mask with
  | [] => []
  | b :: mask' =>
      if b then i :: positions_from (S i) mask'
      else positions_from (S i) mask'
  end.

(** [np.where(mask)] of a one-dimensional condition: a tuple holding one
    array of positions, which [np.array] turns into a matrix of one
    row. *)
Definition np_where (mask : list bool) : array_like :=
  let positions := positions_from 0 mask in
  Sequence {| shape := [1%nat; length positions];
              data := map Z.of_nat positions |}.

(** The mutual-information selector of the [mifs] package: its fitted
    mask [support_]. *)
Class MutualInformation : Type := {
  mifs_support : Z -> Z -> array -> list Z -> result (list bool)
}.

Record MRMRSelection : Type := {
  mrmr_base : BaseSelector;
  k : Z;
  mrmr_num_features : Z
}.

(** [MRMRSelection.fit(self, X, y)] *)
Definition mrmr_fit `{Libraries} `{MutualInformation}
    (self : MRMRSelection) (X : array) (y : list Z) : result MRMRSelection :=
  let! (X, y) := check_X_y X y in
  let! support_ := mifs_support (k self) (mrmr_num_features self) X y in
  let! support :=
    check_support (mrmr_base self)
      (np_where (map (fun b => Bool.eqb b true) support_)) X in
  ok {| mrmr_base :=
          {| error_handling := error_handling (mrmr_base self);
             support := Some support |};
        k := k self;
        mrmr_num_features := mrmr_num_features self |}.

(** scikit-learn's [train_test_split] on a checked matrix, giving the two
    parts by rows, and the construction of a seeded generator. *)
Class Splitting (G : Type) : Type := {
  train_test_split :
    array -> list Z -> option Q -> option Z ->
    result (list (list Q) * list (list Q) * list Z * list Z);
  new_rgen : option Z -> G
}.

Record PermutationSelection (G E : Type) : Type := {
  permutation_base : BaseSelector;
  permutation_model : E;
  test_size : option Q;
  num_rounds : nat;
  permutation_random_state : option Z;
  permutation_rgen : option G
}.
Arguments permutation_base {G E} _.
Arguments permutation_model {G E} _.
Arguments test_size {G E} _.
Arguments num_rounds {G E} _.
Arguments permutation_random_state {G E} _.
Arguments permutation_rgen {G E} _.

(** [avg_imp > 0], false on a NaN. *)
Definition positive (v : option Q) : bool :=
  match v with
  | Some q => gt q 0
  | None => false
  end.

(** [PermutationSelection.fit(self, X, y)]; the generator is built at
    the first fit and kept. *)
Definition permutation_fit {G E : Type} `{Libraries} `{Splitting G}
    `{Shuffler G} `{Utils.Estimator E (list (list Q))}
    (score_func : list Z -> list Z -> result Q)
    (self : PermutationSelection G E) (X : array) (y : list Z)
    : result (PermutationSelection G E) :=
  let! (X, y) := check_X_y X y in
  let rgen :=
    match permutation_rgen self with
    | Some g => g
    | None => new_rgen (permutation_random_state self)
    end in
  let! (X_train, X_test, y_train, y_test) :=
    train_test_split X y (test_size self) (permutation_random_state self) in
  let! model := Utils.fit (permutation_model self) X_train y_train in
  let '(avg_imp, _, rgen) :=
    feature_permutation_importance score_func model (num_rounds self) rgen
      X_test y_test in
  let! avg_imp := avg_imp in
  let! support :=
    check_support (permutation_base self) (np_where (map positive avg_imp))
      X in
  ok {| permutation_base :=
          {| error_handling := error_handling (permutation_base self);
             support := Some support |};
        permutation_model := model;
        test_size := test_size self;
        num_rounds := num_rounds self;
        permutation_random_state := permutation_random_state self;
        permutation_rgen := Some rgen |}.

End FeatureSelection.

(** ** Stand-ins for the collaborators

    Small concrete implementations of the external interfaces, on which
    the embedded functions can be run. *)

Module Stub.
Import Py ComparisonSchemes.

(** A scaler that leaves the matrix as it is. *)
#[export] Instance scaler : Utils.StandardScaler (list (list Q)) unit :=
  {| Utils.fit_transform := fun X => ok (tt, X);
     Utils.transform := fun _ X => ok X |}.

(** A model that predicts the label 1 for every sample, and whose [fit]
    refuses an empty training set. *)
#[export] Instance majority : Utils.Estimator unit (list (list Q)) :=
  {| Utils.fit := fun model X _ =>
       match X with
       | [] => raise ValueError
       | _ => ok model
       end;
     Utils.predict := fun _ X => ok (map (fun _ => 1%Z) X) |}.

(** The accuracy: the share of positions where the labels agree. *)
Definition accuracy (y_true y_pred : list Z) : result Q :=
  if negb (length y_true =? length y_pred)%nat then raise ValueError
  else
    let hits :=
      length (filter (fun p => (fst p =? snd p)%Z) (combine y_true y_pred)) in
    ok (inject_Z (Z.of_nat hits) / inject_Z (Z.of_nat (length y_true))).

(** An [os.makedirs] that knows the leaf only, persistence in which a
    file holds one string, two folds without shuffling, a search that
    returns a fixed configuration and a pipeline that selects the first
    feature. *)
#[export] Instance collaborators : Collaborators unit unit :=
  {| os_makedirs := fun path fs =>
       match fs !! path with
       | Some _ => (raise (Raised "FileExistsError"), fs)
       | None => (ok tt, <[path := Dir]> fs)
       end;
     read_prelim_result := fun fs path =>
       match fs !! path with
       | Some (File content) => ok {[ "content" := VStr content ]}
       | _ => raise (Raised "FileNotFoundError")
       end;
     write_prelim_results := fun path _ fs => ok (<[path := File "saved"]> fs);
     datetime_now := fun n => inject_Z (Z.of_nat n);
     str_duration := fun _ => "0:00:01";
     stratified_kfold := fun _ _ _ X _ =>
       ok [ ([0; 1], [2; 3]); ([2; 3], [0; 1]) ]%nat;
     check_X_y := fun X y => ok (X, y);
     smac_optimize := fun _ _ _ _ _ => ok {[ "C" := VInt 1 ]};
     set_params := fun p _ => ok p;
     pipeline_fit := fun p _ _ => ok p;
     pipeline_predict := fun _ X => ok (map (fun _ => 1%Z) X);
     pipeline_support := fun _ => ok [0%nat] |}.

(** A four-sample data set with two features. *)
Definition X4 : list (list Q) := [[0; 1]; [1; 0]; [1; 1]; [0; 0]].
Definition y4 : list Z := [0; 1; 1; 0]%Z.

(** A store that already holds the result of experiment ["x"] under
    seed 7. *)
Definition resumed : world :=
  {| files := {[ "tmp/experiment_7_x" := File "persisted" ]};
     trace := [] |}.

Definition fresh : world := {| files := ∅; trace := [] |}.

(** Libraries in which the check and the scaler change nothing, the
    p-value of a column is its first entry and the ranking of three
    features is fixed. *)
#[export] Instance libraries : FeatureSelection.Libraries :=
  {| FeatureSelection.check_X_y := fun X y => ok (X, y);
     FeatureSelection.stats_wilcoxon := fun column _ => ok (0, hd 0 column);
     FeatureSelection.minmax_fit_transform := fun X => ok X;
     FeatureSelection.relieff_top_features := fun _ _ _ => ok [2; 0; 1]%Z |}.

(** One row holding the p-values of three columns. *)
Definition pvalues : FeatureSelection.array :=
  {| FeatureSelection.dims := [1; 3]%nat;
     FeatureSelection.elems := [0.01; 0.03; 0.5] |}.

(** A generator whose shuffle reverses the sequence. *)
#[export] Instance reversing : FeatureSelection.Shuffler unit.
Proof.
  refine {| FeatureSelection.shuffle := fun g l => (rev l, g) |}.
  intros g l. apply length_rev.
Defined.

(** A model, of type [bool], that predicts 1 throughout but refuses a
    matrix whose first entry is 1. *)
#[export] Instance picky : Utils.Estimator bool (list (list Q)) :=
  {| Utils.fit := fun model _ _ => ok model;
     Utils.predict := fun _ X =>
       match X with
       | (x :: _) :: _ =>
           if Qeq_bool x 1 then raise ValueError
           else ok (map (fun _ => 1%Z) X)
       | _ => ok (map (fun _ => 1%Z) X)
       end |}.

(** A Wilcoxon selector at the threshold 0.001 and a ReliefF selector
    asked for no feature, both falling back on all features. *)
Definition strict_wilcoxon : FeatureSelection.WilcoxonSelection :=
  {| FeatureSelection.wilcoxon_base :=
       {| FeatureSelection.error_handling := "return_all";
          FeatureSelection.support := None |};
     FeatureSelection.thresh := 0.001;
     FeatureSelection.bf_correction := true |}.

Definition empty_relieff : FeatureSelection.ReliefFSelection :=
  {| FeatureSelection.relieff_base :=
       {| FeatureSelection.error_handling := "return_all";
          FeatureSelection.support := None |};
     FeatureSelection.num_neighbors := 10;
     FeatureSelection.num_features := 0 |}.

(** A splitter that uses every row of a matrix for both parts, with the
    only generator of type [unit]. *)
#[export] Instance splitting : FeatureSelection.Splitting unit :=
  {| FeatureSelection.train_test_split := fun X y _ _ =>
       match FeatureSelection.dims X with
       | [r; c] =>
           let rows :=
             FeatureSelection.chunks c r (FeatureSelection.elems X) in
           ok (rows, rows, y, y)
       | _ => raise ValueError
       end;
     FeatureSelection.new_rgen := fun _ => tt |}.

(** A mutual-information selector whose mask holds the first
    [n_features] columns. *)
#[export] Instance first_features : FeatureSelection.MutualInformation :=
  {| FeatureSelection.mifs_support := fun _ n X _ =>
       match FeatureSelection.dims X with
       | [_; c] => ok (map (fun j => (Z.of_nat j <? n)%Z) (seq 0 c))
       | _ => raise ValueError
       end |}.

(** An MRMR selector asked for no feature, and a permutation selector
    that runs no round. *)
Definition empty_mrmr : FeatureSelection.MRMRSelection :=
  {| FeatureSelection.mrmr_base :=
       {| FeatureSelection.error_handling := "return_all";
          FeatureSelection.support := None |};
     FeatureSelection.k := 1;
     FeatureSelection.mrmr_num_features := 0 |}.

Definition idle_permutation
    : FeatureSelection.PermutationSelection unit unit :=
  {| FeatureSelection.permutation_base :=
       {| FeatureSelection.error_handling := "return_all";
          FeatureSelection.support := None |};
     FeatureSelection.permutation_model := tt;
     FeatureSelection.test_size := None;
     FeatureSelection.num_rounds := 0;
     FeatureSelection.permutation_random_state := None;
     FeatureSelection.permutation_rgen := None |}.

End Stub.

(** ** Vocabulary of the properties *)

Module Spec.

(** The arithmetic mean of a label vector. *)
Definition mean (y : list Z) : Q :=
  inject_Z (foldr Z.add 0%Z y) / inject_Z (Z.of_nat (length y)).

(** A vector is binary when all its labels are 0 or 1. *)
Definition binary (y : list Z) : Prop := Forall (fun v => v = 0%Z \/ v = 1%Z) y.

(** The number of labels equal to 1. *)
Definition ones (y : list Z) : nat := length (filter (fun v => v = 1%Z) y).

(** The set of the sample indices [{0, ..., n-1}]. *)
Definition all_indices (n : nat) : gset nat := list_to_set (seq 0 n).

(** [(train, test)] is a bootstrap out-of-bag partition of [n] samples:
    [n] training indices below [n], repetitions allowed, and as test
    indices, each once, exactly the indices that were not drawn. *)
Definition oob_partition (n : nat) (train test : list nat) : Prop :=
  length train = n
  /\ Forall (fun i => (i < n)%nat) train
  /\ list_to_set test = all_indices n ∖ list_to_set train
  /\ (forall i, i ∈ test -> i ∉ train)
  /\ NoDup test
  /\ (test = [] <-> forall i, (i < n)%nat -> i ∈ train).

(** Two outcomes agree: the same exception, or equal numbers. *)
Definition same_outcome (r1 r2 : Py.result Q) : Prop :=
  match r1, r2 with
  | inl e1, inl e2 => e1 = e2
  | inr v1, inr v2 => v1 == v2
  | _, _ => False
  end.

(** No character of the string is an underscore. *)
Fixpoint underscore_free (s : string) : bool :=
  match s with
  | EmptyString => true
  | String c s' => negb (Ascii.eqb c "_") && underscore_free s'
  end.

(** The two scores of an outer fold of the nested loop: the pipeline is
    configured with the configuration that a search on the training part
    of the fold has returned and fitted on that part; the first score is
    that of its predictions on the test part, the second that of its
    predictions on the training part. *)
Definition fold_scored {P Space : Type}
    `{ComparisonSchemes.Collaborators P Space}
    (X : list (list Q)) (y : list Z) (experiment_id : string)
    (pipeline : P) (hparam_space : Space)
    (score_func : list Z -> list Z -> Py.result Q) (cv : nat)
    (output_dir : option string) (max_evals : nat) (verbose : Z)
    (random_state : option Z) (fold : list nat * list nat)
    (test_score train_score : Q) : Prop :=
  exists X_train X_test y_train y_test searcher w w' config configured
         fitted y_test_pred y_train_pred,
    ComparisonSchemes.take X (fst fold) = inr X_train
    /\ ComparisonSchemes.take X (snd fold) = inr X_test
    /\ ComparisonSchemes.take y (fst fold) = inr y_train
    /\ ComparisonSchemes.take y (snd fold) = inr y_test
    /\ ComparisonSchemes.SMACSearchCV_fit
         {| ComparisonSchemes.cv := cv;
            ComparisonSchemes.experiment_id := experiment_id;
            ComparisonSchemes.workflow := pipeline;
            ComparisonSchemes.hparam_space := hparam_space;
            ComparisonSchemes.max_evals := max_evals;
            ComparisonSchemes.score_func := score_func;
            ComparisonSchemes.random_state := random_state;
            ComparisonSchemes.shuffle := true;
            ComparisonSchemes.output_dir := output_dir;
            ComparisonSchemes.verbose := verbose;
            ComparisonSchemes.best_config := None |} X_train y_train w
       = (inr searcher, w')
    /\ ComparisonSchemes.best_config searcher = Some config
    /\ ComparisonSchemes.set_params pipeline config = inr configured
    /\ ComparisonSchemes.pipeline_fit configured X_train y_train = inr fitted
    /\ ComparisonSchemes.pipeline_predict fitted X_test = inr y_test_pred
    /\ score_func y_test y_test_pred = inr test_score
    /\ ComparisonSchemes.pipeline_predict fitted X_train = inr y_train_pred
    /\ score_func y_train y_train_pred = inr train_score.

End Spec.

(** * Properties *)

#[local] Existing Instances
  Stub.scaler Stub.majority Stub.collaborators Lcg.lcg.

(** ** The Python runtime *)

Lemma gt_true (x y : Q) : Py.gt x y = true <-> y < x.
Proof.
  unfold Py.gt. destruct (Qlt_le_dec y x) as [Hlt | Hle]; split; auto.
  - discriminate.
  - intros Hlt. exfalso. exact (Qlt_not_le _ _ Hlt Hle).
Qed.

Lemma gt_false (x y : Q) : Py.gt x y = false <-> x <= y.
Proof.
  unfold Py.gt. destruct (Qlt_le_dec y x) as [Hlt | Hle]; split; auto.
  - discriminate.
  - intros Hle. exfalso. exact (Qlt_not_le _ _ Hlt Hle).
Qed.

Lemma truediv_ok (a b : Q) : ~ b == 0 -> Py.truediv a b = Py.ok (a / b).
Proof.
  intros Hb. unfold Py.truediv.
  destruct (Qeq_bool b 0) eqn:E; [| reflexivity].
  apply Qeq_bool_iff in E. contradiction.
Qed.

Lemma truediv_zero (a b : Q) :
  b == 0 -> Py.truediv a b = Py.raise Py.ZeroDivisionError.
Proof.
  intros Hb. unfold Py.truediv.
  apply Qeq_bool_iff in Hb. now rewrite Hb.
Qed.

Lemma bind_ok {A B} (m : Py.result A) (k : A -> Py.result B) (b : B) :
  Py.bind m k = inr b -> exists a, m = inr a /\ k a = inr b.
Proof. destruct m as [e | a]; cbn; [discriminate | eauto]. Qed.

(** ** The .632+ estimator *)

(** C5. [relative_overfit_rate(train, test, gamma)] is
    [(test - train) / (gamma - train)] when [test > train] and
    [gamma > train], the division being by a positive number; it is exactly
    0 when [test <= train] or [gamma <= train]; and it never raises
    [ZeroDivisionError]. *)
Theorem relative_overfit_rate_guarded (train test gamma : Q) :
  (train < test /\ train < gamma ->
     0 < gamma - train /\
     Utils.relative_overfit_rate train test gamma
     = Py.ok ((test - train) / (gamma - train)))
  /\ (test <= train \/ gamma <= train ->
        Utils.relative_overfit_rate train test gamma = Py.ok 0)
  /\ (exists r, Utils.relative_overfit_rate train test gamma = Py.ok r).
Proof.
  unfold Utils.relative_overfit_rate.
  assert (Hpos : train < gamma -> 0 < gamma - train).
  { intros Hg. apply (Qplus_lt_l _ _ train). ring_simplify. exact Hg. }
  split; [| split].
  - intros [Ht Hg]. split; [auto |].
    apply gt_true in Ht as ->. apply gt_true in Hg as Hg'. rewrite Hg'. cbn.
    apply truediv_ok. intros Hz. specialize (Hpos Hg).
    rewrite Hz in Hpos. exact (Qlt_irrefl _ Hpos).
  - intros [Ht | Hg].
    + apply gt_false in Ht as ->. reflexivity.
    + apply gt_false in Hg as ->. now rewrite andb_false_r.
  - destruct (Py.gt test train) eqn:Et, (Py.gt gamma train) eqn:Eg; cbn;
      try (eexists; reflexivity).
    apply gt_true in Eg. eexists. apply truediv_ok.
    intros Hz. specialize (Hpos Eg). rewrite Hz in Hpos.
    exact (Qlt_irrefl _ Hpos).
Qed.

(** With a rate of zero, of either sign, the weight of the correction is
    that zero. *)
Lemma frac_at_zero (s : bool) :
  Binary64.truediv
    (Binary64.mul (Binary64.mul Binary64.lit_0_368 Binary64.lit_0_632)
       (SpecFloat.S754_zero s))
    (Binary64.sub Binary64.lit_1
       (Binary64.mul Binary64.lit_0_368 (SpecFloat.S754_zero s)))
  = Py.ok (SpecFloat.S754_zero s).
Proof. destruct s; vm_compute; reflexivity. Qed.

(** C7 (amended). On binary64 numbers, with an overfit rate of zero:
    when the difference [test_score_marked - train_score] is finite,
    [point632plus] returns the float [0.368 * train_score + 0.632 *
    test_score] itself, or a zero where that blend is a zero; when the
    difference is infinite or a NaN, as after an overflow, it returns a
    NaN. *)
Theorem point632plus_zero_rate
    (train_score test_score test_score_marked : SpecFloat.spec_float)
    (s : bool) :
  let blend :=
    Binary64.add (Binary64.mul Binary64.lit_0_368 train_score)
      (Binary64.mul Binary64.lit_0_632 test_score) in
  let spread := Binary64.sub test_score_marked train_score in
  exists v,
    Binary64.point632plus train_score test_score (SpecFloat.S754_zero s)
      test_score_marked = Py.ok v
    /\ (Binary64.isfinite spread = true ->
        v = blend
        \/ (Binary64.is_zero v = true /\ Binary64.is_zero blend = true))
    /\ (Binary64.isfinite spread = false -> v = SpecFloat.S754_nan).
Proof.
  intros blend spread. unfold Binary64.point632plus.
  rewrite frac_at_zero. cbn [Py.bind Py.ok]. fold blend spread.
  eexists. split; [reflexivity |]. split.
  - intros Hfin.
    destruct spread as [sd | sd | | sd md ed]; try discriminate Hfin;
      destruct blend as [sb | sb | | sb mb eb]; cbn; auto;
      destruct sb, sd, s; cbn; auto.
  - intros Hinf.
    destruct spread as [sd | sd | | sd md ed]; try discriminate Hinf;
      destruct blend as [sb | sb | | sb mb eb]; reflexivity.
Qed.

(** Train score 1, test score 0.632 and marked score 0.368: the
    difference is finite and the value returned is the blend. *)
Lemma point632plus_zero_rate_witness :
  exists v,
    Binary64.point632plus Binary64.lit_1 Binary64.lit_0_632
      (SpecFloat.S754_zero false) Binary64.lit_0_368 = Py.ok v
    /\ (v = Binary64.add (Binary64.mul Binary64.lit_0_368 Binary64.lit_1)
              (Binary64.mul Binary64.lit_0_632 Binary64.lit_0_632)
        \/ (Binary64.is_zero v = true
            /\ Binary64.is_zero
                 (Binary64.add
                    (Binary64.mul Binary64.lit_0_368 Binary64.lit_1)
                    (Binary64.mul Binary64.lit_0_632 Binary64.lit_0_632))
               = true)).
Proof.
  destruct (point632plus_zero_rate Binary64.lit_1 Binary64.lit_0_632
              Binary64.lit_0_368 false) as (v & Hv & Hfinite & _).
  exists v. split; [exact Hv |]. apply Hfinite. reflexivity.
Defined.

(** C7 (counterexample). [point632plus(-1e308, 0.0, 0.0, 1e308)]: the
    difference [1e308 - (-1e308)] overflows to infinity, its product with
    the zero weight is a NaN, and so is the value returned, while the
    blend [0.368 * (-1e308) + 0.632 * 0.0] is the number [-3.68e307]. *)
Lemma point632plus_zero_rate_overflow :
  Binary64.point632plus (SpecFloat.S754_finite true 5010420900022432 971)
    (SpecFloat.S754_zero false) (SpecFloat.S754_zero false)
    (SpecFloat.S754_finite false 5010420900022432 971)
  = Py.ok SpecFloat.S754_nan
  /\ Binary64.add
       (Binary64.mul Binary64.lit_0_368
          (SpecFloat.S754_finite true 5010420900022432 971))
       (Binary64.mul Binary64.lit_0_632 (SpecFloat.S754_zero false))
     = SpecFloat.S754_finite true 7375339564833020 969
  /\ Binary64.eqb SpecFloat.S754_nan
       (SpecFloat.S754_finite true 7375339564833020 969) = false.
Proof. split; [| split]; vm_compute; reflexivity. Qed.

Lemma sum_binary (y : list Z) :
  Spec.binary y -> foldr Z.add 0%Z y = Z.of_nat (Spec.ones y).
Proof.
  unfold Spec.binary, Spec.ones.
  induction 1 as [| v y Hv _ IH]; [reflexivity |].
  cbn [foldr]. rewrite IH, filter_cons.
  destruct Hv as [-> | ->]; case_decide; try congruence; cbn [length]; lia.
Qed.

Lemma np_mean_nonempty (y : list Z) :
  (0 < length y)%nat -> Utils.np_mean y = Some (Spec.mean y).
Proof. destruct y; cbn [length]; [lia | reflexivity]. Qed.

(** C6. On binary vectors of equal positive length, [no_info_rate] is
    [p * (1 - q) + (1 - p) * q], with [p] and [q] the means of [y_true] and
    of [y_pred], that is, their shares of ones; on [y_pred = y_true] this is
    [2 * p * (1 - p)]. *)
Theorem no_info_rate_binary (y_true y_pred : list Z) :
  Spec.binary y_true -> Spec.binary y_pred ->
  length y_true = length y_pred -> (0 < length y_true)%nat ->
  exists gamma,
    Utils.no_info_rate y_true y_pred = Some gamma
    /\ gamma == Spec.mean y_true * (1 - Spec.mean y_pred)
                + (1 - Spec.mean y_true) * Spec.mean y_pred
    /\ Spec.mean y_true
       == inject_Z (Z.of_nat (Spec.ones y_true))
          / inject_Z (Z.of_nat (length y_true))
    /\ Spec.mean y_pred
       == inject_Z (Z.of_nat (Spec.ones y_pred))
          / inject_Z (Z.of_nat (length y_pred))
    /\ (y_pred = y_true ->
        gamma == 2 * Spec.mean y_true * (1 - Spec.mean y_true)).
Proof.
  intros Hbt Hbp Hlen Hpos.
  unfold Utils.no_info_rate.
  rewrite (np_mean_nonempty y_true) by exact Hpos.
  rewrite (np_mean_nonempty y_pred) by (rewrite <- Hlen; exact Hpos).
  eexists. split; [reflexivity |]. split; [reflexivity |].
  split; [| split].
  - unfold Spec.mean. now rewrite (sum_binary y_true Hbt).
  - unfold Spec.mean. now rewrite (sum_binary y_pred Hbp).
  - intros ->. ring.
Qed.

(** The hand-computed value of the specification: for [y = [0, 0, 1, 1]]
    the share of ones is 1/2 and the no-information rate is 1/2. *)
Lemma no_info_rate_binary_witness :
  exists gamma,
    Utils.no_info_rate [0; 0; 1; 1]%Z [0; 0; 1; 1]%Z = Some gamma
    /\ gamma == 1 # 2.
Proof.
  assert (Hb : Spec.binary [0; 0; 1; 1]%Z) by (repeat constructor; auto).
  assert (Hpos : (0 < length [0; 0; 1; 1]%Z)%nat) by (cbn; lia).
  destruct (no_info_rate_binary [0; 0; 1; 1]%Z [0; 0; 1; 1]%Z
              Hb Hb eq_refl Hpos)
    as (gamma & Hgamma & _ & _ & _ & Hself).
  exists gamma. split; [exact Hgamma |].
  rewrite (Hself eq_refl). reflexivity.
Defined.

(** ** Feature-indicator formatting *)

(** C10. On a one-dimensional [np.ndarray], [check_support] returns
    [None]: it returns a value exactly when its argument has more than one
    dimension (the squeezed array) or is not an [np.ndarray] (the converted
    array). *)
Theorem check_support_1d_none :
  (forall a : Numpy.ndarray,
      Numpy.ndim a = 1%nat -> Utils.check_support (Numpy.NdArray a) = None)
  /\ (forall support : Numpy.array_like,
        Utils.check_support support <> None
        <-> (1 < Numpy.ndim (Numpy.asarray support))%nat
            \/ Numpy.is_ndarray support = false)
  /\ (forall support : Numpy.array_like,
        (1 < Numpy.ndim (Numpy.asarray support))%nat ->
        Utils.check_support support
        = Some (Numpy.squeeze (Numpy.asarray support)))
  /\ (forall a : Numpy.ndarray,
        (Numpy.ndim a <= 1)%nat ->
        Utils.check_support (Numpy.Sequence a) = Some a).
Proof.
  unfold Utils.check_support. repeat split.
  - intros a Ha. cbn. now rewrite Ha.
  - intros Hsome.
    destruct (1 <? Numpy.ndim (Numpy.asarray support))%nat eqn:E.
    + left. now apply Nat.ltb_lt.
    + right. destruct support; cbn in *; [congruence | reflexivity].
  - intros [Hdim | Hnot].
    + apply Nat.ltb_lt in Hdim. now rewrite Hdim.
    + rewrite Hnot.
      destruct (1 <? Numpy.ndim (Numpy.asarray support))%nat; cbn; congruence.
  - intros support Hdim. apply Nat.ltb_lt in Hdim. now rewrite Hdim.
  - intros a Ha. cbn [Numpy.asarray Numpy.is_ndarray negb].
    destruct (1 <? Numpy.ndim a)%nat eqn:E; [| reflexivity].
    apply Nat.ltb_lt in E. lia.
Qed.

(** A three-element index array comes back as [None]. *)
Lemma check_support_1d_none_witness :
  Utils.check_support
    (Numpy.NdArray {| Numpy.shape := [3%nat]; Numpy.data := [0; 2; 5]%Z |})
  = None.
Proof.
  apply (proj1 check_support_1d_none). reflexivity.
Defined.

(** ** The estimator sees the labels through the no-information rate *)

Lemma gt_proper (x x' y y' : Q) : x == x' -> y == y' -> Py.gt x y = Py.gt x' y'.
Proof.
  intros Hx Hy.
  destruct (Py.gt x y) eqn:E1, (Py.gt x' y') eqn:E2; try reflexivity.
  - apply gt_true in E1. apply gt_false in E2.
    rewrite Hx, Hy in E1. exfalso. exact (Qlt_not_le _ _ E1 E2).
  - apply gt_false in E1. apply gt_true in E2.
    rewrite Hx, Hy in E1. exfalso. exact (Qlt_not_le _ _ E2 E1).
Qed.

Lemma min_proper (a a' b b' : Q) :
  a == a' -> b == b' -> Py.min a b == Py.min a' b'.
Proof.
  intros Ha Hb. unfold Py.min, Py.lt.
  rewrite (gt_proper a a' b b' Ha Hb).
  now destruct (Py.gt a' b').
Qed.

Lemma truediv_proper (a a' b b' : Q) :
  a == a' -> b == b' ->
  Spec.same_outcome (Py.truediv a b) (Py.truediv a' b').
Proof.
  intros Ha Hb. unfold Py.truediv.
  rewrite (Qeqb_comp b b' Hb 0 0 (Qeq_refl 0)).
  destruct (Qeq_bool b' 0); cbn; [reflexivity |].
  now rewrite Ha, Hb.
Qed.

Lemma relative_overfit_rate_proper (train test gamma gamma' : Q) :
  gamma == gamma' ->
  Spec.same_outcome (Utils.relative_overfit_rate train test gamma)
    (Utils.relative_overfit_rate train test gamma').
Proof.
  intros Hg. unfold Utils.relative_overfit_rate.
  rewrite (gt_proper gamma gamma' train train Hg (Qeq_refl train)).
  destruct (_ && _)%bool; [| cbn; reflexivity].
  apply truediv_proper; [reflexivity | now rewrite Hg].
Qed.

Lemma point632plus_proper (train test r r' m m' : Q) :
  r == r' -> m == m' ->
  Spec.same_outcome (Utils.point632plus train test r m)
    (Utils.point632plus train test r' m').
Proof.
  intros Hr Hm. unfold Utils.point632plus.
  pose proof (truediv_proper (0.368 * 0.632 * r) (0.368 * 0.632 * r')
                (1 - 0.368 * r) (1 - 0.368 * r')) as Hdiv.
  destruct (Py.truediv (0.368 * 0.632 * r) (1 - 0.368 * r)) as [e | f],
           (Py.truediv (0.368 * 0.632 * r') (1 - 0.368 * r')) as [e' | f'];
    cbn in *; try (apply Hdiv; now rewrite Hr).
  assert (Hf : f == f') by (apply Hdiv; now rewrite Hr).
  now rewrite Hf, Hm.
Qed.

(** [point632plus_score] depends on its label arguments only through
    their no-information rate. *)
Lemma point632plus_score_gamma (y1 p1 y2 p2 : list Z) (g1 g2 train test : Q) :
  Utils.no_info_rate y1 p1 = Some g1 ->
  Utils.no_info_rate y2 p2 = Some g2 ->
  g1 == g2 ->
  Spec.same_outcome (Utils.point632plus_score y1 p1 train test)
    (Utils.point632plus_score y2 p2 train test).
Proof.
  intros H1 H2 Hg. unfold Utils.point632plus_score. rewrite H1, H2.
  pose proof (relative_overfit_rate_proper train test g1 g2 Hg) as Hr.
  destruct (Utils.relative_overfit_rate train test g1) as [e | r],
           (Utils.relative_overfit_rate train test g2) as [e' | r'];
    cbn in *; try exact Hr; try contradiction.
  apply point632plus_proper; [exact Hr |].
  apply min_proper; [reflexivity | exact Hg].
Qed.

(** ** Standardise, fit, predict, score *)

Section EvaluateProperties.
Context {M S E : Type} `{Utils.StandardScaler M S} `{Utils.Estimator E M}.
Variables (model : E) (X_train X_test : M) (y_train y_test : list Z).
Variable score_func : list Z -> list Z -> Py.result Q.

Local Abbreviation body :=
  (Utils.scale_fit_predict632_body model X_train X_test y_train y_test
     score_func).
Local Abbreviation call :=
  (Utils.scale_fit_predict632 model X_train X_test y_train y_test score_func).

Lemma call_of_body :
  call = match body with
         | inl _ => (None, None)
         | inr (a, b) => (Some a, Some b)
         end.
Proof.
  unfold Utils.scale_fit_predict632.
  destruct body as [e | [a b]]; reflexivity.
Qed.

(** What a successful run of the statements under [try:] has gone
    through. *)
Lemma body_ok (a b : Q) :
  body = inr (a, b) ->
  exists scaler X_train_std X_test_std fitted y_train_pred y_test_pred
         train_score test_score,
    Utils.fit_transform X_train = inr (scaler, X_train_std)
    /\ Utils.transform scaler X_test = inr X_test_std
    /\ Utils.fit model X_train_std y_train = inr fitted
    /\ Utils.predict fitted X_train_std = inr y_train_pred
    /\ score_func y_train y_train_pred = inr train_score
    /\ Utils.predict fitted X_test_std = inr y_test_pred
    /\ score_func y_test y_test_pred = inr test_score
    /\ Utils.point632plus_score y_train y_train_pred train_score test_score
       = inr a
    /\ Utils.point632plus_score y_test y_test_pred train_score test_score
       = inr b.
Proof.
  unfold Utils.scale_fit_predict632_body, Utils.train_test_z_scores.
  intros Hbody.
  apply bind_ok in Hbody as ([Xtr Xte] & Hz & Hbody).
  apply bind_ok in Hz as ([scaler Xtr'] & Hft & Hz).
  apply bind_ok in Hz as (Xte' & Htr & Hz).
  injection Hz as -> ->.
  apply bind_ok in Hbody as (fitted & Hfit & Hbody).
  apply bind_ok in Hbody as (ytp & Hp1 & Hbody).
  apply bind_ok in Hbody as (ts & Hs1 & Hbody).
  apply bind_ok in Hbody as (ytep & Hp2 & Hbody).
  apply bind_ok in Hbody as (tes & Hs2 & Hbody).
  apply bind_ok in Hbody as (a' & Ha & Hbody).
  apply bind_ok in Hbody as (b' & Hb & Hbody).
  injection Hbody as -> ->.
  exists scaler, Xtr, Xte, fitted, ytp, ytep, ts, tes. auto 10.
Qed.

(** What the statements under [try:] return when every step succeeds. *)
Lemma body_chain (scaler : S) (X_train_std X_test_std : M) (fitted : E)
    (y_train_pred y_test_pred : list Z) (train_score test_score : Q)
    (r_train r_test : Py.result Q) :
  Utils.fit_transform X_train = inr (scaler, X_train_std) ->
  Utils.transform scaler X_test = inr X_test_std ->
  Utils.fit model X_train_std y_train = inr fitted ->
  Utils.predict fitted X_train_std = inr y_train_pred ->
  score_func y_train y_train_pred = inr train_score ->
  Utils.predict fitted X_test_std = inr y_test_pred ->
  score_func y_test y_test_pred = inr test_score ->
  Utils.point632plus_score y_train y_train_pred train_score test_score
  = r_train ->
  Utils.point632plus_score y_test y_test_pred train_score test_score
  = r_test ->
  body = match r_train, r_test with
         | inr a, inr b => inr (a, b)
         | inl e, _ => inl e
         | inr _, inl e => inl e
         end.
Proof.
  intros Hft Htr Hfit Hp1 Hs1 Hp2 Hs2 Ha Hb.
  unfold Utils.scale_fit_predict632_body, Utils.train_test_z_scores.
  rewrite Hft. cbn [Py.bind]. rewrite Htr. cbn [Py.bind Py.ok].
  rewrite Hfit. cbn [Py.bind]. rewrite Hp1. cbn [Py.bind].
  rewrite Hs1. cbn [Py.bind]. rewrite Hp2. cbn [Py.bind].
  rewrite Hs2. cbn [Py.bind]. rewrite Ha, Hb.
  destruct r_train as [e | a]; [reflexivity |].
  destruct r_test as [e | b]; reflexivity.
Qed.

(** C3. [scale_fit_predict632] never propagates an exception.  When the
    standardisation, the fit, a prediction, a scoring or a correction
    raises, it returns [(None, None)].  When none of them raises, that is
    when the scaler is fitted and applied, the model is fitted, both
    predictions and both scorings succeed and both corrections return
    numbers, it returns exactly the pair of these two .632+ corrected
    scores. *)
Theorem scale_fit_predict632_best_effort :
  (forall e, body = inl e -> call = (None, None))
  /\ (forall a b, body = inr (a, b) -> call = (Some a, Some b))
  /\ (call = (None, None) \/ exists a b, call = (Some a, Some b))
  /\ (forall e,
        Utils.train_test_z_scores X_train X_test = inl e ->
        call = (None, None))
  /\ (forall X_train_std X_test_std e,
        Utils.train_test_z_scores X_train X_test
        = inr (X_train_std, X_test_std) ->
        Utils.fit model X_train_std y_train = inl e ->
        call = (None, None))
  /\ (forall X_train_std X_test_std fitted,
        Utils.train_test_z_scores X_train X_test
        = inr (X_train_std, X_test_std) ->
        Utils.fit model X_train_std y_train = inr fitted ->
        (exists e, Utils.predict fitted X_train_std = inl e)
        \/ (exists e, Utils.predict fitted X_test_std = inl e)
        \/ (exists p e, Utils.predict fitted X_train_std = inr p
                        /\ score_func y_train p = inl e)
        \/ (exists p e, Utils.predict fitted X_test_std = inr p
                        /\ score_func y_test p = inl e) ->
        call = (None, None))
  /\ (forall scaler X_train_std X_test_std fitted y_train_pred y_test_pred
             train_score test_score,
        Utils.fit_transform X_train = inr (scaler, X_train_std) ->
        Utils.transform scaler X_test = inr X_test_std ->
        Utils.fit model X_train_std y_train = inr fitted ->
        Utils.predict fitted X_train_std = inr y_train_pred ->
        score_func y_train y_train_pred = inr train_score ->
        Utils.predict fitted X_test_std = inr y_test_pred ->
        score_func y_test y_test_pred = inr test_score ->
        call
        = match
            Utils.point632plus_score y_train y_train_pred train_score
              test_score,
            Utils.point632plus_score y_test y_test_pred train_score
              test_score
          with
          | inr train_632_score, inr test_632_score =>
              (Some train_632_score, Some test_632_score)
          | _, _ => (None, None)
          end).
Proof.
  split; [| split; [| split; [| split; [| split; [| split]]]]].
  - rewrite call_of_body. intros e ->. reflexivity.
  - rewrite call_of_body. intros a b ->. reflexivity.
  - rewrite call_of_body.
    destruct body as [e | [a b]]; [left | right; exists a, b]; reflexivity.
  - rewrite call_of_body. unfold Utils.scale_fit_predict632_body.
    intros e ->. reflexivity.
  - rewrite call_of_body. unfold Utils.scale_fit_predict632_body.
    intros Xs Xt e -> Hfit. cbn. rewrite Hfit. reflexivity.
  - rewrite call_of_body. unfold Utils.scale_fit_predict632_body.
    intros Xs Xt fitted -> Hfit Hfail. cbn. rewrite Hfit. cbn.
    destruct Hfail as [[e He] | [[e He] | [(p & e & Hp & He)
                                         | (p & e & Hp & He)]]].
    + rewrite He. reflexivity.
    + destruct (Utils.predict fitted Xs) as [e1 | p1]; [reflexivity |]. cbn.
      destruct (score_func y_train p1) as [e2 | s1]; [reflexivity |]. cbn.
      rewrite He. reflexivity.
    + rewrite Hp. cbn. rewrite He. reflexivity.
    + destruct (Utils.predict fitted Xs) as [e1 | p1]; [reflexivity |]. cbn.
      destruct (score_func y_train p1) as [e2 | s1]; [reflexivity |]. cbn.
      rewrite Hp. cbn. rewrite He. reflexivity.
  - intros scaler Xs Xt fitted ytp ytep ts tes Hft Htr Hfit Hp1 Hs1 Hp2 Hs2.
    rewrite call_of_body.
    rewrite (body_chain scaler Xs Xt fitted ytp ytep ts tes _ _
               Hft Htr Hfit Hp1 Hs1 Hp2 Hs2 eq_refl eq_refl).
    destruct (Utils.point632plus_score y_train ytp ts tes) as [e | a];
      [reflexivity |].
    destruct (Utils.point632plus_score y_test ytep ts tes) as [e | b];
      reflexivity.
Qed.

(** C4. In a successful call the two corrected scores come from two
    calls of [point632plus_score] on the same raw train and test scores,
    one on [(y_train, y_train_pred)], one on [(y_test, y_test_pred)];
    the label pair enters through the no-information rate only, so that
    equal rates give equal corrected scores. *)
Theorem scale_fit_predict632_shared_scores (a b : Q) :
  call = (Some a, Some b) ->
  exists scaler X_train_std X_test_std fitted y_train_pred y_test_pred
         train_score test_score,
    Utils.fit_transform X_train = inr (scaler, X_train_std)
    /\ Utils.transform scaler X_test = inr X_test_std
    /\ Utils.fit model X_train_std y_train = inr fitted
    /\ Utils.predict fitted X_train_std = inr y_train_pred
    /\ score_func y_train y_train_pred = inr train_score
    /\ Utils.predict fitted X_test_std = inr y_test_pred
    /\ score_func y_test y_test_pred = inr test_score
    /\ Utils.point632plus_score y_train y_train_pred train_score test_score
       = inr a
    /\ Utils.point632plus_score y_test y_test_pred train_score test_score
       = inr b
    /\ (forall g_train g_test,
          Utils.no_info_rate y_train y_train_pred = Some g_train ->
          Utils.no_info_rate y_test y_test_pred = Some g_test ->
          g_train == g_test -> a == b).
Proof.
  rewrite call_of_body. intros Hcall.
  destruct body as [e | [a' b']] eqn:Hbody; [discriminate |].
  injection Hcall as -> ->.
  destruct (body_ok a b Hbody)
    as (scaler & Xs & Xt & fitted & ytp & ytep & ts & tes
        & H1 & H2 & H3 & H4 & H5 & H6 & H7 & Ha & Hb).
  exists scaler, Xs, Xt, fitted, ytp, ytep, ts, tes.
  repeat (split; [assumption |]).
  intros g1 g2 Hg1 Hg2 Hg.
  pose proof (point632plus_score_gamma y_train ytp y_test ytep g1 g2 ts tes
                Hg1 Hg2 Hg) as Hsame.
  rewrite Ha, Hb in Hsame. exact Hsame.
Qed.

End EvaluateProperties.

(** With the stand-in model, which refuses an empty training set, the
    failed fit is turned into [(None, None)]; on two training samples and
    one test sample every step succeeds and the call returns the two
    corrected scores. *)
Lemma scale_fit_predict632_best_effort_witness :
  Utils.scale_fit_predict632 tt [] [[1]] [0; 1]%Z [1]%Z Stub.accuracy
  = (None, None)
  /\ Utils.scale_fit_predict632 tt [[0]; [1]] [[1]] [0; 1]%Z [1]%Z
       Stub.accuracy
     = (Some (52224000000000000 # 64000000000000000),
        Some (3264000000000000 # 4000000000000000)).
Proof.
  split.
  - apply (proj1 (proj2 (proj2 (proj2 (proj2
             (scale_fit_predict632_best_effort tt [] [[1]] [0; 1]%Z [1]%Z
                Stub.accuracy))))) [] [[1]] Py.ValueError);
      reflexivity.
  - apply (proj2 (proj2 (proj2 (proj2 (proj2 (proj2
             (scale_fit_predict632_best_effort tt [[0]; [1]] [[1]]
                [0; 1]%Z [1]%Z Stub.accuracy))))))
             tt [[0]; [1]] [[1]] tt [1; 1]%Z [1]%Z (1 # 2) 1);
      reflexivity.
Defined.

(** With the stand-in model on two training samples and one test sample,
    both corrected scores are computed from the raw scores 1/2 and 1. *)
Lemma scale_fit_predict632_shared_scores_witness :
  exists y_train_pred y_test_pred train_score test_score,
    Stub.accuracy [0; 1]%Z y_train_pred = inr train_score
    /\ Stub.accuracy [1]%Z y_test_pred = inr test_score
    /\ Utils.point632plus_score [0; 1]%Z y_train_pred train_score test_score
       = inr (52224000000000000 # 64000000000000000)
    /\ Utils.point632plus_score [1]%Z y_test_pred train_score test_score
       = inr (3264000000000000 # 4000000000000000).
Proof.
  assert (Hcall :
            Utils.scale_fit_predict632 tt [[0]; [1]] [[1]] [0; 1]%Z [1]%Z
              Stub.accuracy
            = (Some (52224000000000000 # 64000000000000000),
               Some (3264000000000000 # 4000000000000000)))
    by (vm_compute; reflexivity).
  destruct (scale_fit_predict632_shared_scores tt [[0]; [1]] [[1]]
              [0; 1]%Z [1]%Z Stub.accuracy _ _ Hcall)
    as (scaler & Xs & Xt & fitted & ytp & ytep & ts & tes
        & _ & _ & _ & _ & Hs1 & _ & Hs2 & Ha & Hb & _).
  exists ytp, ytep, ts, tes. auto.
Defined.

(** ** The out-of-bag resamplers *)

Section ResamplerProperties.
Context {G : Type} `{Numpy.RandomState G}.

Lemma randints_length (g : G) (high size : nat) :
  length (fst (Numpy.randints g high size)) = size.
Proof.
  revert g. induction size as [| size IH]; intros g; cbn; [reflexivity |].
  destruct (Numpy.randint g high) as [i g1].
  specialize (IH g1). destruct (Numpy.randints g1 high size) as [l g2].
  cbn in *. now rewrite IH.
Qed.

Lemma randints_lt (g : G) (high size : nat) :
  (0 < high)%nat ->
  Forall (fun i => (i < high)%nat) (fst (Numpy.randints g high size)).
Proof.
  intros Hpos. revert g.
  induction size as [| size IH]; intros g; cbn; [constructor |].
  pose proof (Numpy.randint_lt g high Hpos) as Hi.
  destruct (Numpy.randint g high) as [i g1].
  specialize (IH g1). destruct (Numpy.randints g1 high size) as [l g2].
  cbn in *. now constructor.
Qed.

(** Drawing [size] elements of [arange n] gives [size] indices below
    [n]. *)
Lemma choice_arange (g : G) (n size : nat) :
  (0 < n)%nat ->
  length (fst (Numpy.choice g (Numpy.arange n) size)) = size
  /\ Forall (fun i => (i < n)%nat) (fst (Numpy.choice g (Numpy.arange n) size)).
Proof.
  intros Hpos. unfold Numpy.choice, Numpy.arange.
  rewrite length_seq.
  pose proof (randints_length g n size) as Hlen.
  pose proof (randints_lt g n size Hpos) as Hlt.
  destruct (Numpy.randints g n size) as [idx g']. cbn in *.
  split; [now rewrite length_map |].
  apply Forall_map. eapply Forall_impl; [exact Hlt |].
  intros i Hi. cbn. now rewrite seq_nth.
Qed.

(** The indices that were not drawn, listed from a set. *)
Lemma out_of_bag (n : nat) (train : list nat) :
  length train = n ->
  Forall (fun i => (i < n)%nat) train ->
  Spec.oob_partition n train
    (elements ((list_to_set (Numpy.arange n) : gset nat) ∖ list_to_set train)).
Proof.
  intros Hlen Hlt. unfold Spec.oob_partition, Spec.all_indices, Numpy.arange.
  repeat split; try assumption.
  - apply list_to_set_elements_L.
  - intros i Hi. apply elem_of_elements in Hi.
    apply elem_of_difference in Hi as [_ Hi].
    now rewrite elem_of_list_to_set in Hi.
  - apply NoDup_elements.
  - intros Hnil i Hi. apply elements_empty_iff in Hnil.
    destruct (decide (i ∈ train)) as [Hin | Hout]; [exact Hin |].
    exfalso. apply (not_elem_of_empty (C:=gset nat) i). rewrite <- Hnil.
    apply elem_of_difference. rewrite !elem_of_list_to_set.
    split; [| exact Hout]. apply elem_of_seq. lia.
  - intros Hall. apply elements_empty_iff. apply set_equiv. intros i.
    rewrite elem_of_difference, !elem_of_list_to_set, elem_of_seq.
    split; [| intros Hi; now apply not_elem_of_empty in Hi].
    intros [Hi Hout]. exfalso. apply Hout, Hall. lia.
Qed.

Lemma utils_split_loop_spec (g : G) (n k : nat) :
  (0 < n)%nat ->
  length (Utils.split_loop g (Numpy.arange n) n k) = k
  /\ Forall (fun p => Spec.oob_partition n (fst p) (snd p))
       (Utils.split_loop g (Numpy.arange n) n k).
Proof.
  intros Hpos. revert g.
  induction k as [| k IH]; intros g; cbn; [split; [reflexivity | constructor] |].
  destruct (choice_arange g n n Hpos) as [Hlen Hlt].
  destruct (Numpy.choice g (Numpy.arange n) n) as [train g'].
  destruct (IH g') as [IHlen IHall]. cbn in *.
  split; [now rewrite IHlen |].
  constructor; [| exact IHall]. cbn. now apply out_of_bag.
Qed.

Lemma sampler_split_loop_spec (g : G) (n k : nat) :
  (0 < n)%nat ->
  length (fst (ModelSelection.split_loop g (Numpy.arange n) n k)) = k
  /\ Forall (fun p => Spec.oob_partition n (fst p) (snd p))
       (fst (ModelSelection.split_loop g (Numpy.arange n) n k)).
Proof.
  intros Hpos. revert g.
  induction k as [| k IH]; intros g; cbn; [split; [reflexivity | constructor] |].
  destruct (choice_arange g n n Hpos) as [Hlen Hlt].
  destruct (Numpy.choice g (Numpy.arange n) n) as [train g1].
  destruct (IH g1) as [IHlen IHall].
  destruct (ModelSelection.split_loop g1 (Numpy.arange n) n k) as [rest g2].
  cbn in *. split; [now rewrite IHlen |].
  constructor; [| exact IHall]. cbn. now apply out_of_bag.
Qed.

(** C2. Over [n >= 1] samples both resamplers yield [n_splits] pairs, and
    in every pair the training indices are [n] draws from [[0, n)] while
    the test indices are the set [{0, ..., n-1}] minus the set of the
    training indices: disjoint from them, and empty exactly when every
    index was drawn. *)
Theorem split_out_of_bag {A B} (self : Utils.BootstrapOutOfBag)
    (sampler : ModelSelection.OOBSampler G)
    (X : list (list A)) (y : B) (entropy : G) :
  (1 <= length X)%nat ->
  length (Utils.split self X y entropy) = Utils.n_splits self
  /\ length (fst (ModelSelection.split sampler X))
     = ModelSelection.n_splits sampler
  /\ (forall train test,
        (train, test) ∈ Utils.split self X y entropy
        \/ (train, test) ∈ fst (ModelSelection.split sampler X) ->
        Spec.oob_partition (length X) train test).
Proof.
  intros Hn.
  destruct (utils_split_loop_spec
              (Numpy.RandomState_new (Utils.random_state self) entropy)
              (length X) (Utils.n_splits self)) as [Hlen1 Hall1]; [lia |].
  destruct (sampler_split_loop_spec (ModelSelection.rgen sampler)
              (length X) (ModelSelection.n_splits sampler))
    as [Hlen2 Hall2]; [lia |].
  unfold Utils.split, ModelSelection.split.
  destruct (ModelSelection.split_loop _ _ _ _) as [pairs g'].
  cbn in *. split; [assumption | split; [assumption |]].
  intros train test [Hin | Hin].
  - rewrite Forall_forall in Hall1. exact (Hall1 _ Hin).
  - rewrite Forall_forall in Hall2. exact (Hall2 _ Hin).
Qed.

End ResamplerProperties.

(** Five samples under the stand-in generator seeded with 7: the first
    pair drawn. *)
Lemma split_out_of_bag_witness :
  Spec.oob_partition 5 [1; 3; 3; 1; 0]%nat [4; 2]%nat.
Proof.
  apply (proj2 (proj2
           (split_out_of_bag
              {| Utils.n_splits := 3; Utils.random_state := Some 7%Z |}
              (ModelSelection.OOBSampler_init 3 (Some 7%Z) 0%Z)
              [[1]; [2]; [3]; [4]; [5]]%nat tt 0%Z
              ltac:(cbn; lia)))).
  left. vm_compute. left.
Defined.

(** ** Bootstrap bias corrected cross-validation *)

Section BbcCvProperties.
Context {G : Type} `{Numpy.RandomState G}.

(** Line 46 stops every call before anything is drawn or computed. *)
Lemma bbc_cv_unbound (scores : list (list Q)) (n_iter : nat)
    (random_state : option Z) (entropy g : G) :
  ModelSelection.bbc_cv scores n_iter random_state entropy g
  = (Py.raise (Py.NameError "n_splits"), g).
Proof. reflexivity. Qed.

(** C1 (failing input). On the matrix [[5, 1], [6, 2]], whose second
    column is strictly lower on every row and has the loss 3/2, [bbc_cv]
    raises [NameError] for the unbound [n_splits] of line 46, whatever the
    seed and the generators; and so it does on every input: no call
    returns a value, let alone the loss of the selected configuration. *)
Theorem bbc_cv_never_returns (random_state : option Z) (entropy g : G) :
  (forall row, row ∈ [[5; 1]; [6; 2]] -> nth 1 row 0 < nth 0 row 0)
  /\ ModelSelection.column_loss [[5; 1]; [6; 2]] 1 == 3 # 2
  /\ fst (ModelSelection.bbc_cv [[5; 1]; [6; 2]] 1 random_state entropy g)
     = Py.raise (Py.NameError "n_splits")
  /\ (forall scores n_iter v,
        fst (ModelSelection.bbc_cv scores n_iter random_state entropy g)
        <> Py.ok v).
Proof.
  split; [| split; [| split]].
  - intros row Hrow.
    apply elem_of_cons in Hrow as [-> | Hrow]; [reflexivity |].
    apply elem_of_cons in Hrow as [-> | Hrow]; [reflexivity |].
    now apply elem_of_nil in Hrow.
  - reflexivity.
  - now rewrite bbc_cv_unbound.
  - intros scores n_iter v. rewrite bbc_cv_unbound. discriminate.
Qed.




End BbcCvProperties.


(** ** The nested cross-validation loop *)

Section LoopProperties.
Context {P Space : Type} `{ComparisonSchemes.Collaborators P Space}.
Variables (X : list (list Q)) (y : list Z) (experiment_id : string).
Variables (workflow : P * Space) (score_func : list Z -> list Z -> Py.result Q).
Variables (cv : nat) (output_dir : option string) (max_evals : nat).
Variables (verbose : Z) (random_state : option Z).

Local Abbreviation run path_tmp_results w :=
  (ComparisonSchemes.nested_cross_validation_smac X y experiment_id workflow
     score_func cv output_dir max_evals verbose random_state
     path_tmp_results w).

Local Abbreviation case_file path_tmp_results :=
  (ComparisonSchemes.path_case_file path_tmp_results random_state
     experiment_id).

(** What the loop does when the case file exists. *)
Lemma run_resumed (path_tmp_results : option string)
    (w : ComparisonSchemes.world) :
  ComparisonSchemes.isfile (ComparisonSchemes.files w)
    (case_file path_tmp_results) = true ->
  run path_tmp_results w
  = match ComparisonSchemes.read_prelim_result (ComparisonSchemes.files w)
            (case_file path_tmp_results) with
    | inl e =>
        (inl e,
         {| ComparisonSchemes.files := ComparisonSchemes.files w;
            ComparisonSchemes.trace :=
              ComparisonSchemes.trace w
              ++ [ComparisonSchemes.ReadResult (case_file path_tmp_results)] |})
    | inr output =>
        (inr output,
         {| ComparisonSchemes.files := ComparisonSchemes.files w;
            ComparisonSchemes.trace :=
              (ComparisonSchemes.trace w
               ++ [ComparisonSchemes.ReadResult (case_file path_tmp_results)])
              ++ [ComparisonSchemes.Print
                    ("Reloading results from: "
                     ++ case_file path_tmp_results)] |})
    end.
Proof.
  intros Hfile. unfold ComparisonSchemes.nested_cross_validation_smac.
  unfold ComparisonSchemes.io_bind at 1. cbn [ComparisonSchemes.get_files Py.ok].
  rewrite Hfile.
  unfold ComparisonSchemes.io_bind, ComparisonSchemes.emit,
    ComparisonSchemes.lift, ComparisonSchemes.io_ret.
  cbn [ComparisonSchemes.files ComparisonSchemes.trace Py.ok].
  destruct (ComparisonSchemes.read_prelim_result _ _); reflexivity.
Qed.

(** C9. When the result file of the key exists, the loop returns what
    the persistence helper reads from it, leaves the files as they are
    and does nothing but read and report; so an event of a fold (splitting,
    search, fit, scoring) can only occur when the file does not exist. *)
Theorem resume_skips_folds (path_tmp_results : option string)
    (w : ComparisonSchemes.world) :
  (ComparisonSchemes.isfile (ComparisonSchemes.files w)
     (case_file path_tmp_results) = true ->
   fst (run path_tmp_results w)
   = ComparisonSchemes.read_prelim_result (ComparisonSchemes.files w)
       (case_file path_tmp_results)
   /\ ComparisonSchemes.files (snd (run path_tmp_results w))
      = ComparisonSchemes.files w
   /\ exists report,
        ComparisonSchemes.trace (snd (run path_tmp_results w))
        = ComparisonSchemes.trace w
          ++ ComparisonSchemes.ReadResult (case_file path_tmp_results)
             :: report
        /\ (report = []
            \/ report = [ComparisonSchemes.Print
                           ("Reloading results from: "
                            ++ case_file path_tmp_results)]))
  /\ ((exists ev,
         ev ∈ drop (length (ComparisonSchemes.trace w))
                (ComparisonSchemes.trace (snd (run path_tmp_results w)))
         /\ ComparisonSchemes.is_fold_event ev = true) ->
      ComparisonSchemes.isfile (ComparisonSchemes.files w)
        (case_file path_tmp_results) = false).
Proof.
  split.
  - intros Hfile. rewrite (run_resumed _ _ Hfile).
    destruct (ComparisonSchemes.read_prelim_result _ _) as [e | output];
      cbn [fst snd ComparisonSchemes.files ComparisonSchemes.trace].
    + repeat split. exists []. split; [reflexivity | now left].
    + repeat split. eexists. rewrite <- app_assoc. cbn [app].
      split; [reflexivity | now right].
  - intros (ev & Hin & Hfold).
    destruct (ComparisonSchemes.isfile _ _) eqn:Hfile; [| reflexivity].
    exfalso. rewrite (run_resumed _ _ Hfile) in Hin.
    destruct (ComparisonSchemes.read_prelim_result _ _) as [e | output];
      cbn [snd ComparisonSchemes.trace] in Hin.
    + rewrite drop_app_length in Hin.
      apply list_elem_of_singleton in Hin as ->. discriminate Hfold.
    + rewrite <- app_assoc, drop_app_length in Hin. cbn [app] in Hin.
      apply elem_of_cons in Hin as [-> | Hin]; [discriminate Hfold |].
      apply list_elem_of_singleton in Hin as ->. discriminate Hfold.
Qed.

End LoopProperties.

(** The resume scenario of the specification: with a result file for seed
    7 and experiment ["x"] the call returns what is read from the file and
    runs no fold. *)
Lemma resume_skips_folds_witness :
  fst (ComparisonSchemes.nested_cross_validation_smac Stub.X4 Stub.y4 "x"
         (tt, tt) Stub.accuracy 2 (Some "out"%string) 10 1 (Some 7%Z)
         (Some "tmp"%string) Stub.resumed)
  = ComparisonSchemes.read_prelim_result
      (ComparisonSchemes.files Stub.resumed) "tmp/experiment_7_x".
Proof.
  apply (proj1 (resume_skips_folds Stub.X4 Stub.y4 "x" (tt, tt) Stub.accuracy
                  2 (Some "out"%string) 10 1 (Some 7%Z)
                  (Some "tmp"%string) Stub.resumed)).
  vm_compute. reflexivity.
Defined.

(** Without the file the same call goes through both folds and writes
    the result. *)
Lemma fresh_run_executes_folds :
  ComparisonSchemes.trace
    (snd (ComparisonSchemes.nested_cross_validation_smac Stub.X4 Stub.y4 "x"
            (tt, tt) Stub.accuracy 2 (Some "out"%string) 10 1 (Some 7%Z)
            (Some "tmp"%string) Stub.fresh))
  = [ComparisonSchemes.Print "Running experiment 7 with x";
     ComparisonSchemes.SplitFolds;
     ComparisonSchemes.Search 0; ComparisonSchemes.Fit 0;
     ComparisonSchemes.Score 0; ComparisonSchemes.Score 0;
     ComparisonSchemes.Search 1; ComparisonSchemes.Fit 1;
     ComparisonSchemes.Score 1; ComparisonSchemes.Score 1;
     ComparisonSchemes.Print "Writing temporary results.";
     ComparisonSchemes.WriteResult "tmp/experiment_7_x";
     ComparisonSchemes.Print "Experiment 7 completed in 0:00:01"].
Proof. vm_compute. reflexivity. Qed.

(** * Further properties of the code *)

(** ** The out-of-bag resamplers, continued *)

Lemma size_all_indices (n : nat) : size (Spec.all_indices n) = n.
Proof.
  unfold Spec.all_indices.
  rewrite size_list_to_set by apply NoDup_seq. apply length_seq.
Qed.

Lemma train_within (n : nat) (train : list nat) :
  Forall (fun i => (i < n)%nat) train ->
  (list_to_set train : gset nat) ⊆ Spec.all_indices n.
Proof.
  intros Hlt i Hi. apply elem_of_list_to_set in Hi.
  rewrite Forall_forall in Hlt. specialize (Hlt i Hi).
  unfold Spec.all_indices. apply elem_of_list_to_set, elem_of_seq. lia.
Qed.

(** What an out-of-bag partition of at least one sample amounts to in
    numbers. *)
Lemma oob_partition_count (n : nat) (train test : list nat) :
  (1 <= n)%nat ->
  Spec.oob_partition n train test ->
  (list_to_set train : gset nat) ∪ list_to_set test = Spec.all_indices n
  /\ (length test + size (list_to_set train : gset nat) = n)%nat
  /\ (length test < n)%nat.
Proof.
  intros Hn (Hlen & Hlt & Hset & _ & Hnodup & _).
  pose proof (train_within n train Hlt) as Hsub.
  assert (Hsize : (length test + size (list_to_set train : gset nat) = n)%nat).
  { rewrite <- (size_list_to_set (C:=gset nat) test Hnodup), Hset.
    rewrite size_difference by exact Hsub.
    rewrite size_all_indices.
    apply subseteq_size in Hsub. rewrite size_all_indices in Hsub. lia. }
  split; [| split]; [| exact Hsize |].
  - rewrite Hset. symmetry. now apply union_difference_L.
  - assert (Hne : size (list_to_set train : gset nat) <> 0%nat).
    { intros Hz. apply size_empty_inv in Hz.
      destruct train as [| i train]; [cbn in Hlen; lia |].
      apply (not_elem_of_empty (C:=gset nat) i). rewrite <- Hz.
      apply elem_of_list_to_set. left. }
    lia.
Qed.

Section ResamplerMore.
Context {G : Type} `{Numpy.RandomState G}.

(** X4. Over [n >= 1] samples every pair of either resampler covers all
    the samples between its training and its test indices, the test
    indices number [n] minus the distinct training indices, and the test
    set never holds all the samples. *)
Theorem split_covers_samples {A B} (self : Utils.BootstrapOutOfBag)
    (sampler : ModelSelection.OOBSampler G)
    (X : list (list A)) (y : B) (entropy : G) (train test : list nat) :
  (1 <= length X)%nat ->
  (train, test) ∈ Utils.split self X y entropy
  \/ (train, test) ∈ fst (ModelSelection.split sampler X) ->
  (list_to_set train : gset nat) ∪ list_to_set test
  = Spec.all_indices (length X)
  /\ (length test + size (list_to_set train : gset nat) = length X)%nat
  /\ (length test < length X)%nat.
Proof.
  intros Hn Hin. apply oob_partition_count; [exact Hn |].
  destruct (utils_split_loop_spec
              (Numpy.RandomState_new (Utils.random_state self) entropy)
              (length X) (Utils.n_splits self)) as [_ Hall1]; [lia |].
  destruct (sampler_split_loop_spec (ModelSelection.rgen sampler)
              (length X) (ModelSelection.n_splits sampler))
    as [_ Hall2]; [lia |].
  unfold Utils.split, ModelSelection.split in Hin.
  destruct (ModelSelection.split_loop _ _ _ _) as [pairs g'].
  cbn in *. destruct Hin as [Hin | Hin].
  - rewrite Forall_forall in Hall1. exact (Hall1 _ Hin).
  - rewrite Forall_forall in Hall2. exact (Hall2 _ Hin).
Qed.

(** X5. On a single sample every pair is [([0], [])]: the one sample is
    always drawn and the test set is always empty. *)
Theorem split_single_sample {A B} (self : Utils.BootstrapOutOfBag)
    (sampler : ModelSelection.OOBSampler G)
    (X : list (list A)) (y : B) (entropy : G) (train test : list nat) :
  length X = 1%nat ->
  (train, test) ∈ Utils.split self X y entropy
  \/ (train, test) ∈ fst (ModelSelection.split sampler X) ->
  train = [0%nat] /\ test = [].
Proof.
  intros Hn Hin.
  assert (Hpart : Spec.oob_partition 1 train test).
  { destruct (utils_split_loop_spec
                (Numpy.RandomState_new (Utils.random_state self) entropy)
                1 (Utils.n_splits self)) as [_ Hall1]; [lia |].
    destruct (sampler_split_loop_spec (ModelSelection.rgen sampler)
                1 (ModelSelection.n_splits sampler)) as [_ Hall2]; [lia |].
    unfold Utils.split, ModelSelection.split in Hin. rewrite Hn in Hin.
    destruct (ModelSelection.split_loop _ _ _ _) as [pairs g'].
    cbn in *. destruct Hin as [Hin | Hin].
    - rewrite Forall_forall in Hall1. exact (Hall1 _ Hin).
    - rewrite Forall_forall in Hall2. exact (Hall2 _ Hin). }
  destruct Hpart as (Hlen & Hlt & _ & _ & _ & Hempty).
  destruct train as [| i [| j train]]; try discriminate Hlen.
  inversion Hlt as [| ? ? Hi _]; subst.
  assert (i = 0%nat) as -> by lia.
  split; [reflexivity |]. apply Hempty.
  intros k Hk. assert (k = 0%nat) as -> by lia. left.
Qed.

Lemma sampler_loop_pairs (g : G) (a : list nat) (n k : nat) :
  fst (ModelSelection.split_loop g a n k) = Utils.split_loop g a n k.
Proof.
  revert g. induction k as [| k IH]; intros g; cbn; [reflexivity |].
  destruct (Numpy.choice g a n) as [train g1].
  specialize (IH g1).
  destruct (ModelSelection.split_loop g1 a n k) as [rest g2].
  cbn in *. now rewrite IH.
Qed.

(** X6. Built with one and the same integer seed, a fresh [OOBSampler]
    yields at its first [split] the pairs that [BootstrapOutOfBag.split]
    yields for the same number of splits: both start from
    [RandomState(seed)], whatever the operating-system entropy at either
    construction. *)
Theorem sampler_agrees_with_bootstrap {A B} (n_splits : nat) (seed : Z)
    (X : list (list A)) (y : B) (entropy1 entropy2 : G) :
  fst (ModelSelection.split
         (ModelSelection.OOBSampler_init n_splits (Some seed) entropy1) X)
  = Utils.split
      {| Utils.n_splits := n_splits; Utils.random_state := Some seed |}
      X y entropy2.
Proof.
  unfold ModelSelection.split, Utils.split, ModelSelection.OOBSampler_init.
  cbn [ModelSelection.rgen ModelSelection.n_splits Utils.random_state
       Utils.n_splits Numpy.RandomState_new].
  rewrite <- sampler_loop_pairs.
  now destruct (ModelSelection.split_loop _ _ _ _).
Qed.

Lemma sampler_loop_app (g : G) (a : list nat) (n k1 k2 : nat) :
  ModelSelection.split_loop g a n (k1 + k2)
  = (fst (ModelSelection.split_loop g a n k1)
     ++ fst (ModelSelection.split_loop
               (snd (ModelSelection.split_loop g a n k1)) a n k2),
     snd (ModelSelection.split_loop
            (snd (ModelSelection.split_loop g a n k1)) a n k2)).
Proof.
  revert g. induction k1 as [| k1 IH]; intros g; cbn.
  - now destruct (ModelSelection.split_loop g a n k2).
  - destruct (Numpy.choice g a n) as [train g1].
    rewrite (IH g1).
    destruct (ModelSelection.split_loop g1 a n k1) as [rest g2]. cbn.
    reflexivity.
Qed.

(** X7. An [OOBSampler] keeps its generator between calls: a second
    [split] continues the stream of the first, so that the pairs of two
    successive calls are those of one call with twice the number of
    splits. *)
Theorem sampler_split_continues {A} (sampler : ModelSelection.OOBSampler G)
    (X : list (list A)) :
  fst (ModelSelection.split sampler X)
  ++ fst (ModelSelection.split (snd (ModelSelection.split sampler X)) X)
  = fst (ModelSelection.split
           {| ModelSelection.n_splits :=
                ModelSelection.n_splits sampler
                + ModelSelection.n_splits sampler;
              ModelSelection.rgen := ModelSelection.rgen sampler |} X).
Proof.
  unfold ModelSelection.split.
  cbn [ModelSelection.rgen ModelSelection.n_splits].
  rewrite sampler_loop_app.
  destruct (ModelSelection.split_loop (ModelSelection.rgen sampler) _ _ _)
    as [p1 g1]. cbn.
  now destruct (ModelSelection.split_loop g1 _ _ _).
Qed.

End ResamplerMore.

(** Five samples under the stand-in generator: the first pair drawn
    covers them, with two test indices for three distinct training
    indices. *)
Lemma split_covers_samples_witness :
  (length [4; 2]%nat + size (list_to_set [1; 3; 3; 1; 0]%nat : gset nat)
   = 5)%nat.
Proof.
  apply (split_covers_samples
           {| Utils.n_splits := 3; Utils.random_state := Some 7%Z |}
           (ModelSelection.OOBSampler_init 3 (Some 7%Z) 0%Z)
           [[1]; [2]; [3]; [4]; [5]]%nat tt 0%Z
           [1; 3; 3; 1; 0]%nat [4; 2]%nat).
  - cbn; lia.
  - left. vm_compute. left.
Defined.

(** One sample, three splits, seed 7: the first pair. *)
Lemma split_single_sample_witness :
  fst (hd ([], [])
         (Utils.split
            {| Utils.n_splits := 3; Utils.random_state := Some 7%Z |}
            [[1%nat]] tt 0%Z)) = [0%nat]
  /\ snd (hd ([], [])
            (Utils.split
               {| Utils.n_splits := 3; Utils.random_state := Some 7%Z |}
               [[1%nat]] tt 0%Z)) = [].
Proof.
  apply (split_single_sample
           {| Utils.n_splits := 3; Utils.random_state := Some 7%Z |}
           (ModelSelection.OOBSampler_init 3 (Some 7%Z) 0%Z)
           [[1%nat]] tt 0%Z).
  - reflexivity.
  - left. vm_compute. left.
Defined.

(** ** Directory listing *)

Lemma substring_nothing (s : string) (n : nat) : substring n 0 s = ""%string.
Proof.
  revert s. induction n as [| n IH]; intros [| c s]; cbn; auto.
Qed.

Lemma endswith_empty (s : string) : Py.endswith s "" = true.
Proof.
  unfold Py.endswith. cbn [String.length Nat.leb andb].
  now rewrite substring_nothing.
Qed.

Lemma listdir_loop_spec (names : list string) (skip_tail skip_head : string)
    (labels : list string) :
  exists kept,
    Utils.listdir_loop names skip_tail skip_head labels = labels ++ kept
    /\ sublist kept names
    /\ (forall label,
          label ∈ kept
          <-> label ∈ names
              /\ Py.endswith label skip_tail = false
              /\ Py.startswith label skip_head = false).
Proof.
  revert labels. induction names as [| name names IH]; intros labels; cbn.
  - exists []. split; [now rewrite app_nil_r |]. split; [constructor |].
    intros label. rewrite !elem_of_nil. tauto.
  - destruct (Py.endswith name skip_tail) eqn:Et;
      [| destruct (Py.startswith name skip_head) eqn:Eh]; cbn [negb andb].
    + destruct (IH labels) as (kept & -> & Hsub & Hiff).
      exists kept. split; [reflexivity |]. split; [now constructor |].
      intros label. rewrite Hiff, elem_of_cons.
      split; [tauto |]. intros [[-> | Hin] [Ht Hh]]; [congruence | tauto].
    + destruct (IH labels) as (kept & -> & Hsub & Hiff).
      exists kept. split; [reflexivity |]. split; [now constructor |].
      intros label. rewrite Hiff, elem_of_cons.
      split; [tauto |]. intros [[-> | Hin] [Ht Hh]]; [congruence | tauto].
    + destruct (IH (labels ++ [name])) as (kept & -> & Hsub & Hiff).
      exists (name :: kept). split; [now rewrite <- app_assoc |].
      split; [now constructor |].
      intros label. rewrite !elem_of_cons, Hiff.
      split; [intros [-> | ?]; tauto | tauto].
Qed.

(** X10. [listdir] passes on the failure of [os.listdir]; otherwise it
    returns, in the order of the directory, exactly the names that neither
    end with [skip_tail] nor start with [skip_head].  An empty [skip_tail]
    or [skip_head] therefore filters out every name. *)
Theorem listdir_keeps (os_listdir : string -> Py.result (list string))
    (path_to_dir skip_tail skip_head : string) :
  match os_listdir path_to_dir with
  | inl e =>
      Utils.listdir os_listdir path_to_dir skip_tail skip_head = inl e
  | inr names =>
      exists labels,
        Utils.listdir os_listdir path_to_dir skip_tail skip_head
        = Py.ok labels
        /\ sublist labels names
        /\ (forall label,
              label ∈ labels
              <-> label ∈ names
                  /\ Py.endswith label skip_tail = false
                  /\ Py.startswith label skip_head = false)
        /\ (skip_tail = ""%string \/ skip_head = ""%string -> labels = [])
  end.
Proof.
  unfold Utils.listdir.
  destruct (os_listdir path_to_dir) as [e | names]; cbn; [reflexivity |].
  destruct (listdir_loop_spec names skip_tail skip_head [])
    as (kept & -> & Hsub & Hiff).
  exists kept. cbn [app].
  split; [reflexivity |]. split; [exact Hsub |]. split; [exact Hiff |].
  intros Hempty. apply elem_of_nil_inv. intros label Hin.
    apply Hiff in Hin as (_ & Ht & Hh).
  destruct Hempty as [-> | ->].
  - rewrite endswith_empty in Ht. discriminate.
  - unfold Py.startswith in Hh. destruct label; discriminate.
Qed.

(** A directory with a hidden file, a table and two scans, under the
    default filters. *)
Lemma listdir_keeps_witness :
  exists labels,
    Utils.listdir
      (fun _ => Py.ok [".git"; "scan1"; "labels.csv"; "scan2"]%string)
      "data" ".csv" "." = Py.ok labels
    /\ ("scan1"%string ∈ labels)
    /\ (".git"%string ∉ labels)
    /\ ("labels.csv"%string ∉ labels).
Proof.
  pose proof (listdir_keeps
                (fun _ => Py.ok [".git"; "scan1"; "labels.csv"; "scan2"]%string)
                "data" ".csv" ".") as Hspec.
  cbn beta iota in Hspec. destruct Hspec as (labels & Hlabels & _ & Hiff & _).
  exists labels. split; [exact Hlabels |]. rewrite !Hiff.
  split; [| split].
  - split; [| split; reflexivity]. right. left.
  - intros (_ & _ & Hhead). discriminate Hhead.
  - intros (_ & Htail & _). discriminate Htail.
Defined.

(** ** The hyperparameter search *)

Lemma io_bind_inr {A B} (m : ComparisonSchemes.io A)
    (k : A -> ComparisonSchemes.io B) (w w' : ComparisonSchemes.world) (b : B) :
  ComparisonSchemes.io_bind m k w = (inr b, w') ->
  exists a w1, m w = (inr a, w1) /\ k a w1 = (inr b, w').
Proof.
  unfold ComparisonSchemes.io_bind.
  destruct (m w) as [[e | a] w1]; [discriminate | eauto].
Qed.

Lemma lift_inr {A} (r : Py.result A) (w w' : ComparisonSchemes.world) (a : A) :
  ComparisonSchemes.lift r w = (inr a, w') -> r = inr a /\ w' = w.
Proof.
  unfold ComparisonSchemes.lift. intros Heq. injection Heq as -> ->. auto.
Qed.

Section SearchProperties.
Context {P Space : Type} `{ComparisonSchemes.Collaborators P Space}.

(** Without an output directory [SMACSearchCV.fit] stops before it
    creates or searches anything: [os.path.join(None, ...)] raises
    [TypeError] once the data are checked. *)
Lemma fit_without_output_dir (self : ComparisonSchemes.SMACSearchCV P Space)
    (X : list (list Q)) (y : list Z) (w : ComparisonSchemes.world) :
  ComparisonSchemes.output_dir self = None ->
  exists e,
    ComparisonSchemes.SMACSearchCV_fit self X y w = (inl e, w)
    /\ (forall checked,
          ComparisonSchemes.check_X_y X y = inr checked ->
          e = Py.TypeError).
Proof.
  intros Hdir. unfold ComparisonSchemes.SMACSearchCV_fit.
  unfold ComparisonSchemes.io_bind at 1. unfold ComparisonSchemes.lift at 1.
  destruct (ComparisonSchemes.check_X_y X y) as [e | [X' y']].
  - exists e. split; [reflexivity | discriminate].
  - rewrite Hdir. exists Py.TypeError. split; reflexivity.
Qed.

Variables (X : list (list Q)) (y : list Z) (experiment_id : string).
Variables (pipeline : P) (hparam_space : Space).
Variable score_func : list Z -> list Z -> Py.result Q.
Variables (cv : nat) (max_evals : nat).
Variables (verbose : Z) (random_state : option Z).

(** X11. With [output_dir = None], the default, a run that finds no
    result file and gets at least one fold from the splitter never
    returns a record: it stops in the first fold, before any fit or
    scoring and with the files as they were, at the latest with the
    [TypeError] that [SMACSearchCV.fit] raises when it joins [None] to
    the name of its metadata directory. *)
Theorem nested_cv_needs_output_dir (path_tmp_results : option string)
    (w : ComparisonSchemes.world) (fold : list nat * list nat)
    (folds : list (list nat * list nat)) :
  ComparisonSchemes.isfile (ComparisonSchemes.files w)
    (ComparisonSchemes.path_case_file path_tmp_results random_state
       experiment_id) = false ->
  ComparisonSchemes.stratified_kfold cv true random_state X y
  = inr (fold :: folds) ->
  let run :=
    ComparisonSchemes.nested_cross_validation_smac X y experiment_id
      (pipeline, hparam_space) score_func cv None max_evals verbose
      random_state path_tmp_results w in
  exists e report,
    fst run = inl e
    /\ (forall X_train X_test y_train y_test checked,
          ComparisonSchemes.take X (fst fold) = inr X_train ->
          ComparisonSchemes.take X (snd fold) = inr X_test ->
          ComparisonSchemes.take y (fst fold) = inr y_train ->
          ComparisonSchemes.take y (snd fold) = inr y_test ->
          ComparisonSchemes.check_X_y X_train y_train = inr checked ->
          e = Py.TypeError)
    /\ ComparisonSchemes.files (snd run) = ComparisonSchemes.files w
    /\ ComparisonSchemes.trace (snd run)
       = ComparisonSchemes.trace w ++ report
    /\ (forall i,
          (ComparisonSchemes.Fit i ∉ report)
          /\ (ComparisonSchemes.Score i ∉ report)).
Proof.
  intros Hfile Hfolds run.
  assert (Hrun : exists e report,
             run
             = (inl e,
                {| ComparisonSchemes.files := ComparisonSchemes.files w;
                   ComparisonSchemes.trace :=
                     ComparisonSchemes.trace w ++ report |})
             /\ (forall X_train X_test y_train y_test checked,
                   ComparisonSchemes.take X (fst fold) = inr X_train ->
                   ComparisonSchemes.take X (snd fold) = inr X_test ->
                   ComparisonSchemes.take y (fst fold) = inr y_train ->
                   ComparisonSchemes.take y (snd fold) = inr y_test ->
                   ComparisonSchemes.check_X_y X_train y_train
                   = inr checked ->
                   e = Py.TypeError)
             /\ (forall i,
                   (ComparisonSchemes.Fit i ∉ report)
                   /\ (ComparisonSchemes.Score i ∉ report)));
    [| destruct Hrun as (e & report & -> & Htype & Hquiet);
       exists e, report; cbn [fst snd ComparisonSchemes.files
                              ComparisonSchemes.trace]; auto].
  subst run.
  unfold ComparisonSchemes.nested_cross_validation_smac.
  unfold ComparisonSchemes.io_bind at 1.
  cbn [ComparisonSchemes.get_files Py.ok]. rewrite Hfile.
  set (announce := if (0 <? verbose)%Z then _ else _).
  assert (Hannounce : exists said,
             announce w
             = (inr tt,
                {| ComparisonSchemes.files := ComparisonSchemes.files w;
                   ComparisonSchemes.trace :=
                     ComparisonSchemes.trace w ++ said |})
             /\ forall i, (ComparisonSchemes.Fit i ∉ said)
                          /\ (ComparisonSchemes.Score i ∉ said)).
  { subst announce. destruct (0 <? verbose)%Z.
    - eexists [_]. split; [reflexivity |].
      intros i. split; intros Hin;
        apply list_elem_of_singleton in Hin; discriminate Hin.
    - exists []. rewrite app_nil_r. destruct w. split; [reflexivity |].
      intros i. split; apply not_elem_of_nil. }
  destruct Hannounce as (said & Hsaid & Hquiet).
  unfold ComparisonSchemes.io_bind at 1. rewrite Hsaid.
  unfold ComparisonSchemes.io_bind at 1.
  cbn [ComparisonSchemes.emit Py.ok ComparisonSchemes.files
       ComparisonSchemes.trace].
  unfold ComparisonSchemes.io_bind at 1. unfold ComparisonSchemes.lift at 1.
  rewrite Hfolds.
  unfold ComparisonSchemes.io_bind at 1.
  destruct fold as [train_idx test_idx].
  cbn [ComparisonSchemes.outer_folds fst snd].
  set (w1 := {| ComparisonSchemes.files := ComparisonSchemes.files w;
                ComparisonSchemes.trace := _ |}).
  assert (Hsplit : forall i,
             (ComparisonSchemes.Fit i
              ∉ said ++ [ComparisonSchemes.SplitFolds])
             /\ (ComparisonSchemes.Score i
                 ∉ said ++ [ComparisonSchemes.SplitFolds])).
  { intros i. destruct (Hquiet i) as [Hfit Hscore].
    split; intros Hin; apply elem_of_app in Hin as [Hin | Hin];
      try contradiction;
      apply list_elem_of_singleton in Hin; discriminate Hin. }
  unfold ComparisonSchemes.io_bind at 1. unfold ComparisonSchemes.lift at 1.
  destruct (ComparisonSchemes.take X train_idx) as [e | X_train].
  { exists e, (said ++ [ComparisonSchemes.SplitFolds]). subst w1.
    rewrite app_assoc.
    split; [reflexivity |]. split; [intros; discriminate | exact Hsplit]. }
  unfold ComparisonSchemes.io_bind at 1. unfold ComparisonSchemes.lift at 1.
  destruct (ComparisonSchemes.take X test_idx) as [e | X_test].
  { exists e, (said ++ [ComparisonSchemes.SplitFolds]). subst w1.
    rewrite app_assoc.
    split; [reflexivity |]. split; [intros; discriminate | exact Hsplit]. }
  unfold ComparisonSchemes.io_bind at 1. unfold ComparisonSchemes.lift at 1.
  destruct (ComparisonSchemes.take y train_idx) as [e | y_train].
  { exists e, (said ++ [ComparisonSchemes.SplitFolds]). subst w1.
    rewrite app_assoc.
    split; [reflexivity |]. split; [intros; discriminate | exact Hsplit]. }
  unfold ComparisonSchemes.io_bind at 1. unfold ComparisonSchemes.lift at 1.
  destruct (ComparisonSchemes.take y test_idx) as [e | y_test].
  { exists e, (said ++ [ComparisonSchemes.SplitFolds]). subst w1.
    rewrite app_assoc.
    split; [reflexivity |]. split; [intros; discriminate | exact Hsplit]. }
  unfold ComparisonSchemes.io_bind at 1.
  cbn [ComparisonSchemes.emit Py.ok].
  unfold ComparisonSchemes.io_bind at 1.
  match goal with
  | |- context [ComparisonSchemes.SMACSearchCV_fit ?self ?a ?b ?w2] =>
      destruct (fit_without_output_dir self a b w2 eq_refl)
        as (e & -> & Htype)
  end.
  exists e,
    (said ++ [ComparisonSchemes.SplitFolds; ComparisonSchemes.Search 0]).
  subst w1. cbn [ComparisonSchemes.files ComparisonSchemes.trace].
  split.
  { f_equal. f_equal. now rewrite <- !app_assoc. }
  split.
  { intros ? ? ? ? checked Hx _ Hy _ Hcheck.
    injection Hx as <-. injection Hy as <-. eapply Htype, Hcheck. }
  intros i. destruct (Hquiet i) as [Hfit Hscore].
  split; intros Hin; apply elem_of_app in Hin as [Hin | Hin];
    try contradiction;
    apply elem_of_cons in Hin as [Hin | Hin]; try discriminate Hin;
    apply list_elem_of_singleton in Hin; discriminate Hin.
Qed.

End SearchProperties.

(** The stand-in run without an output directory stops with
    [TypeError]. *)
Lemma nested_cv_needs_output_dir_witness :
  fst (ComparisonSchemes.nested_cross_validation_smac Stub.X4 Stub.y4 "x"
         (tt, tt) Stub.accuracy 2 None 10 1 (Some 7%Z) (Some "tmp"%string)
         Stub.fresh)
  = Py.raise Py.TypeError.
Proof.
  destruct (@nested_cv_needs_output_dir unit unit Stub.collaborators
              Stub.X4 Stub.y4 "x" tt tt Stub.accuracy
              2 10 1%Z (Some 7%Z) (Some "tmp"%string) Stub.fresh
              ([0; 1], [2; 3])%nat [([2; 3], [0; 1])%nat] eq_refl eq_refl)
    as (e & report & Hrun & Htype & _).
  rewrite Hrun. f_equal.
  apply (Htype [[0; 1]; [1; 0]] [[1; 1]; [0; 0]] [0; 1]%Z [1; 0]%Z
           ([[0; 1]; [1; 0]], [0; 1]%Z)); reflexivity.
Defined.

(** ** The feature votes of the nested loop *)

Lemma add_votes_step (feature_votes votes' : list Z) (support : list nat) :
  ComparisonSchemes.add_votes feature_votes support = inr votes' ->
  length votes' = length feature_votes
  /\ (forall i b v,
        feature_votes !! i = Some b -> votes' !! i = Some v ->
        (b <= v <= b + 1)%Z).
Proof.
  unfold ComparisonSchemes.add_votes.
  destruct (forallb _ support); [| discriminate].
  intros Hv. injection Hv as <-. split; [apply length_imap |].
  intros i b v Hb Hv. rewrite list_lookup_imap, Hb in Hv. cbn in Hv.
  injection Hv as <-. case_bool_decide; lia.
Qed.

Section VoteProperties.
Context {P Space : Type} `{ComparisonSchemes.Collaborators P Space}.
Variables (X : list (list Q)) (y : list Z) (experiment_id : string).
Variables (pipeline : P) (hparam_space : Space).
Variable score_func : list Z -> list Z -> Py.result Q.
Variables (cv : nat) (output_dir : option string) (max_evals : nat).
Variables (verbose : Z) (random_state : option Z).

Lemma outer_folds_votes (folds : list (list nat * list nat)) (i : nat)
    (acc acc' : ComparisonSchemes.accumulators)
    (w w' : ComparisonSchemes.world) :
  ComparisonSchemes.outer_folds X y experiment_id pipeline hparam_space
    score_func cv output_dir max_evals verbose random_state folds i acc w
  = (inr acc', w') ->
  length (ComparisonSchemes.feature_votes acc')
  = length (ComparisonSchemes.feature_votes acc)
  /\ (forall j b v,
        ComparisonSchemes.feature_votes acc !! j = Some b ->
        ComparisonSchemes.feature_votes acc' !! j = Some v ->
        (b <= v <= b + Z.of_nat (length folds))%Z)
  /\ length (ComparisonSchemes.test_scores acc')
     = (length (ComparisonSchemes.test_scores acc) + length folds)%nat
  /\ length (ComparisonSchemes.train_scores acc')
     = (length (ComparisonSchemes.train_scores acc) + length folds)%nat.
Proof.
  revert i acc w.
  induction folds as [| [train_idx test_idx] folds IH]; intros i acc w Hrun.
  - cbn in Hrun. injection Hrun as <- _.
    split; [reflexivity |]. split; [| cbn; lia].
    intros j b v Hb Hv. rewrite Hb in Hv. injection Hv as <-. cbn. lia.
  - cbn [ComparisonSchemes.outer_folds] in Hrun.
    do 10 (apply io_bind_inr in Hrun as (? & ? & _ & Hrun)).
    apply io_bind_inr in Hrun as (votes1 & ? & Hvotes & Hrun).
    do 4 (apply io_bind_inr in Hrun as (? & ? & _ & Hrun)).
    apply IH in Hrun as (Hlen & Hrange & Htest & Htrain).
    cbn [ComparisonSchemes.feature_votes ComparisonSchemes.test_scores
         ComparisonSchemes.train_scores] in *.
    unfold ComparisonSchemes.lift in Hvotes.
    injection Hvotes as Hvotes _.
    apply bind_ok in Hvotes as (support & _ & Hvotes).
    apply add_votes_step in Hvotes as [Hlen1 Hstep].
    rewrite length_app in Htest, Htrain. cbn [length] in *.
    split; [lia |]. split; [| lia].
    intros j b v Hb Hv.
    destruct (lookup_lt_is_Some_2 votes1 j) as [v1 Hv1].
    { rewrite Hlen1. eapply lookup_lt_Some, Hb. }
    specialize (Hstep j b v1 Hb Hv1).
    specialize (Hrange j v1 v Hv1 Hv). lia.
Qed.

Lemma outer_folds_scores (folds : list (list nat * list nat)) (i : nat)
    (acc acc' : ComparisonSchemes.accumulators)
    (w w' : ComparisonSchemes.world) :
  ComparisonSchemes.outer_folds X y experiment_id pipeline hparam_space
    score_func cv output_dir max_evals verbose random_state folds i acc w
  = (inr acc', w') ->
  exists scores,
    ComparisonSchemes.test_scores acc'
    = ComparisonSchemes.test_scores acc ++ map fst scores
    /\ ComparisonSchemes.train_scores acc'
       = ComparisonSchemes.train_scores acc ++ map snd scores
    /\ Forall2
         (fun fold s =>
            Spec.fold_scored X y experiment_id pipeline hparam_space
              score_func cv output_dir max_evals verbose random_state fold
              (fst s) (snd s))
         folds scores.
Proof.
  revert i acc w.
  induction folds as [| [train_idx test_idx] folds IH]; intros i acc w Hrun.
  - cbn in Hrun. injection Hrun as <- _. exists [].
    cbn. rewrite !app_nil_r. repeat split. constructor.
  - cbn [ComparisonSchemes.outer_folds] in Hrun.
    apply io_bind_inr in Hrun as (X_train & ? & Hxtr & Hrun).
    apply lift_inr in Hxtr as [Hxtr ->].
    apply io_bind_inr in Hrun as (X_test & ? & Hxte & Hrun).
    apply lift_inr in Hxte as [Hxte ->].
    apply io_bind_inr in Hrun as (y_train & ? & Hytr & Hrun).
    apply lift_inr in Hytr as [Hytr ->].
    apply io_bind_inr in Hrun as (y_test & ? & Hyte & Hrun).
    apply lift_inr in Hyte as [Hyte ->].
    apply io_bind_inr in Hrun as ([] & w1 & _ & Hrun).
    apply io_bind_inr in Hrun as (searcher & w2 & Hsearch & Hrun).
    apply io_bind_inr in Hrun as (config & ? & Hconfig & Hrun).
    apply lift_inr in Hconfig as [Hconfig ->].
    apply io_bind_inr in Hrun as (configured & ? & Hset & Hrun).
    apply lift_inr in Hset as [Hset ->].
    apply io_bind_inr in Hrun as ([] & w3 & _ & Hrun).
    apply io_bind_inr in Hrun as (fitted & ? & Hfit & Hrun).
    apply lift_inr in Hfit as [Hfit ->].
    apply io_bind_inr in Hrun as (votes1 & ? & _ & Hrun).
    apply io_bind_inr in Hrun as ([] & w4 & _ & Hrun).
    apply io_bind_inr in Hrun as (test_score & ? & Hte & Hrun).
    apply lift_inr in Hte as [Hte ->].
    apply io_bind_inr in Hrun as ([] & w5 & _ & Hrun).
    apply io_bind_inr in Hrun as (train_score & ? & Htr & Hrun).
    apply lift_inr in Htr as [Htr ->].
    apply IH in Hrun as (scores & Htest & Htrain & Hall).
    cbn [ComparisonSchemes.test_scores ComparisonSchemes.train_scores]
      in Htest, Htrain.
    apply bind_ok in Hte as (y_test_pred & Hp1 & Hs1).
    apply bind_ok in Htr as (y_train_pred & Hp2 & Hs2).
    assert (Hbest : ComparisonSchemes.best_config searcher = Some config).
    { destruct (ComparisonSchemes.best_config searcher);
        [injection Hconfig as -> | discriminate Hconfig]. reflexivity. }
    exists ((test_score, train_score) :: scores).
    cbn [map fst snd]. rewrite Htest, Htrain, <- !app_assoc.
    split; [reflexivity |]. split; [reflexivity |].
    constructor; [| exact Hall].
    exists X_train, X_test, y_train, y_test, searcher, w1, w2, config,
      configured, fitted, y_test_pred, y_train_pred.
    cbn [fst snd]. auto 20.
Qed.

Lemma final_update_lookup (output : gmap string ComparisonSchemes.value)
    (test_scores train_scores : list Q) (feature_votes : list Z) :
  let output' :=
    ComparisonSchemes.update output
      (list_to_map
         [("test_score"%string, ComparisonSchemes.np_mean test_scores);
          ("train_score"%string, ComparisonSchemes.np_mean train_scores);
          ("test_score_variance"%string, ComparisonSchemes.np_var test_scores);
          ("train_score_variance"%string,
           ComparisonSchemes.np_var train_scores);
          ("feature_votes"%string, ComparisonSchemes.VVotes feature_votes)])
  in
  output' !! "feature_votes"%string
  = Some (ComparisonSchemes.VVotes feature_votes)
  /\ output' !! "test_score"%string
     = Some (ComparisonSchemes.np_mean test_scores)
  /\ output' !! "train_score"%string
     = Some (ComparisonSchemes.np_mean train_scores).
Proof.
  cbv zeta. unfold ComparisonSchemes.update. cbn [list_to_map foldr uncurry].
  repeat split; apply lookup_union_Some_l.
  - do 4 (rewrite lookup_insert_ne by done). apply lookup_insert_eq.
  - apply lookup_insert_eq.
  - rewrite lookup_insert_ne by done. apply lookup_insert_eq.
Qed.

(** X13. A run that finds no result file and completes returns a record
    whose feature votes have one entry per column of [X], each between 0
    and the number of outer folds, and whose test and train scores are the
    means over one pair of scores per fold, in the order of the folds:
    the scores, on the test part and on the training part of the fold, of
    the pipeline configured by the search on the training part and fitted
    on it. *)
Theorem nested_cv_feature_votes (path_tmp_results : option string)
    (w w' : ComparisonSchemes.world)
    (output : gmap string ComparisonSchemes.value) :
  ComparisonSchemes.isfile (ComparisonSchemes.files w)
    (ComparisonSchemes.path_case_file path_tmp_results random_state
       experiment_id) = false ->
  ComparisonSchemes.nested_cross_validation_smac X y experiment_id
    (pipeline, hparam_space) score_func cv output_dir max_evals verbose
    random_state path_tmp_results w = (inr output, w') ->
  exists folds votes scores,
    ComparisonSchemes.stratified_kfold cv true random_state X y = inr folds
    /\ output !! "feature_votes"%string
       = Some (ComparisonSchemes.VVotes votes)
    /\ length votes = ComparisonSchemes.ncols X
    /\ Forall (fun v => (0 <= v <= Z.of_nat (length folds))%Z) votes
    /\ Forall2
         (fun fold s =>
            Spec.fold_scored X y experiment_id pipeline hparam_space
              score_func cv output_dir max_evals verbose random_state fold
              (fst s) (snd s))
         folds scores
    /\ output !! "test_score"%string
       = Some (ComparisonSchemes.np_mean (map fst scores))
    /\ output !! "train_score"%string
       = Some (ComparisonSchemes.np_mean (map snd scores)).
Proof.
  intros Hfile Hrun.
  unfold ComparisonSchemes.nested_cross_validation_smac in Hrun.
  apply io_bind_inr in Hrun as (fs & w0 & Hget & Hrun).
  unfold ComparisonSchemes.get_files in Hget. injection Hget as <- <-.
  rewrite Hfile in Hrun.
  apply io_bind_inr in Hrun as (? & ? & _ & Hrun).
  apply io_bind_inr in Hrun as (? & ? & _ & Hrun).
  apply io_bind_inr in Hrun as (folds & ? & Hfolds & Hrun).
  apply io_bind_inr in Hrun as (acc & ? & Hloop & Hrun).
  unfold ComparisonSchemes.lift in Hfolds. injection Hfolds as Hfolds _.
  pose proof (outer_folds_scores _ _ _ _ _ _ Hloop)
    as (scores & Htest & Htrain & Hscored).
  apply outer_folds_votes in Hloop as (Hlen & Hrange & _ & _).
  cbn [ComparisonSchemes.feature_votes ComparisonSchemes.test_scores
       ComparisonSchemes.train_scores length app] in *.
  rewrite length_replicate in Hlen.
  destruct (final_update_lookup (ComparisonSchemes.output acc)
              (ComparisonSchemes.test_scores acc)
              (ComparisonSchemes.train_scores acc)
              (ComparisonSchemes.feature_votes acc)) as (Hv & Hte & Htr).
  exists folds, (ComparisonSchemes.feature_votes acc), scores.
  assert (Hbounds :
            Forall (fun v => (0 <= v <= Z.of_nat (length folds))%Z)
              (ComparisonSchemes.feature_votes acc)).
  { apply Forall_lookup_2. intros j v Hj.
    assert (Hlt : (j < ComparisonSchemes.ncols X)%nat).
    { rewrite <- Hlen. eapply lookup_lt_Some, Hj. }
    specialize (Hrange j 0%Z v (lookup_replicate_2 _ _ _ Hlt) Hj). lia. }
  assert (Hout :
            output !! "feature_votes"%string
            = Some (ComparisonSchemes.VVotes
                      (ComparisonSchemes.feature_votes acc))
            /\ output !! "test_score"%string
               = Some (ComparisonSchemes.np_mean
                         (ComparisonSchemes.test_scores acc))
            /\ output !! "train_score"%string
               = Some (ComparisonSchemes.np_mean
                         (ComparisonSchemes.train_scores acc))).
  { destruct path_tmp_results as [dir |].
    - do 5 (apply io_bind_inr in Hrun as (? & ? & _ & Hrun)).
      destruct (0 <? verbose)%Z.
      + apply io_bind_inr in Hrun as (? & ? & _ & Hrun).
        unfold ComparisonSchemes.io_ret in Hrun. injection Hrun as <- _.
        rewrite !lookup_insert_ne by done. auto.
      + unfold ComparisonSchemes.io_ret in Hrun. injection Hrun as <- _.
        auto.
    - unfold ComparisonSchemes.io_ret in Hrun. injection Hrun as <- _.
      auto. }
  destruct Hout as (Hout1 & Hout2 & Hout3).
  rewrite Htest in Hout2. rewrite Htrain in Hout3.
  split; [exact Hfolds |]. split; [exact Hout1 |]. split; [exact Hlen |].
  split; [exact Hbounds |]. split; [exact Hscored |].
  split; [exact Hout2 | exact Hout3].
Qed.

End VoteProperties.

(** The stand-in run on four samples with two features: two folds, the
    first feature voted twice, the second never. *)
Lemma nested_cv_feature_votes_witness :
  exists output votes,
    fst (ComparisonSchemes.nested_cross_validation_smac Stub.X4 Stub.y4 "x"
           (tt, tt) Stub.accuracy 2 (Some "out"%string) 10 1 (Some 7%Z)
           (Some "tmp"%string) Stub.fresh) = inr output
    /\ output !! "feature_votes"%string
       = Some (ComparisonSchemes.VVotes votes)
    /\ length votes = 2%nat
    /\ Forall (fun v => (0 <= v <= 2)%Z) votes.
Proof.
  destruct (ComparisonSchemes.nested_cross_validation_smac Stub.X4 Stub.y4
              "x" (tt, tt) Stub.accuracy 2 (Some "out"%string) 10 1
              (Some 7%Z) (Some "tmp"%string) Stub.fresh)
    as [[e | output] w'] eqn:Hrun.
  { exfalso. apply (f_equal fst) in Hrun. vm_compute in Hrun.
    discriminate Hrun. }
  destruct (nested_cv_feature_votes Stub.X4 Stub.y4 "x" tt tt Stub.accuracy
              2 (Some "out"%string) 10 1%Z (Some 7%Z) (Some "tmp"%string)
              Stub.fresh w' output eq_refl Hrun)
    as (folds & votes & scores & Hfolds & Hvotes & Hlen & Hall & _).
  injection Hfolds as <-.
  exists output, votes. cbn [fst]. auto.
Defined.

(** ** Feature selectors: subsets and supports *)

Lemma length_chunks {A} (k n : nat) (l : list A) :
  length (FeatureSelection.chunks k n l) = n.
Proof.
  revert l. induction n as [| n IH]; intros l; cbn; [reflexivity |].
  now rewrite IH.
Qed.

Lemma concat_chunks {A} (k n : nat) (l : list A) :
  length l = (n * k)%nat -> concat (FeatureSelection.chunks k n l) = l.
Proof.
  revert l. induction n as [| n IH]; intros l Hlen; cbn.
  - now destruct l.
  - rewrite IH; [apply take_drop |]. rewrite length_drop. lia.
Qed.

Lemma map_nth_seq {A} (l : list A) (d : A) :
  map (fun j => nth j l d) (seq 0 (length l)) = l.
Proof.
  apply nth_ext with (d := d) (d' := d).
  - now rewrite length_map, length_seq.
  - intros i Hi. rewrite length_map, length_seq in Hi.
    rewrite (nth_indep _ d (nth 0 l d)) by (rewrite length_map, length_seq; lia).
    rewrite (map_nth (fun j => nth j l d)), seq_nth by lia. reflexivity.
Qed.

Lemma axis_index_seq (n : nat) (js : list nat) :
  Forall (fun j => (j < n)%nat) js ->
  Py.mapM (FeatureSelection.axis_index n) (map Z.of_nat js) = Py.ok js.
Proof.
  induction 1 as [| j js Hj _ IH]; cbn; [reflexivity |].
  unfold FeatureSelection.axis_index at 1.
  assert ((0 <=? Z.of_nat j)%Z && (Z.of_nat j <? Z.of_nat n)%Z = true) as ->.
  { apply andb_true_intro. split; [apply Z.leb_le | apply Z.ltb_lt]; lia. }
  cbn. rewrite IH. cbn. now rewrite Nat2Z.id.
Qed.

Lemma prod_squeeze (shape : list nat) :
  FeatureSelection.prod (filter (fun d => negb (d =? 1)%nat) shape)
  = FeatureSelection.prod shape.
Proof.
  induction shape as [| d shape IH]; [reflexivity |].
  rewrite filter_cons.
  change (FeatureSelection.prod (d :: shape))
    with (d * FeatureSelection.prod shape)%nat.
  case_decide as Hd.
  - change (FeatureSelection.prod (d :: ?l))
      with (d * FeatureSelection.prod l)%nat.
    cbn [FeatureSelection.prod foldr]. fold (FeatureSelection.prod shape).
    unfold FeatureSelection.prod in IH |- *. now rewrite IH.
  - destruct (Nat.eqb_spec d 1) as [-> | Hne]; [lia |].
    exfalso. apply Hd. exact I.
Qed.

(** X14. [check_subset] returns a two-dimensional array holding the
    elements of its argument, or raises [RuntimeError]: it fails exactly
    on an array of more than two dimensions that keeps more than two after
    squeezing, leaves a two-dimensional array as it is, and turns a
    one-dimensional array of [n] elements into an [n]-by-1 column. *)
Theorem check_subset_two_dimensional (X : FeatureSelection.array) :
  (if (2 <? length (FeatureSelection.dims X))%nat
      && (2 <? length (FeatureSelection.dims
                         (FeatureSelection.squeeze_array X)))%nat
   then FeatureSelection.check_subset X = Py.raise (Py.Raised "RuntimeError")
   else exists X',
       FeatureSelection.check_subset X = Py.ok X'
       /\ length (FeatureSelection.dims X') = 2%nat
       /\ FeatureSelection.elems X' = FeatureSelection.elems X
       /\ (FeatureSelection.well_formed X -> FeatureSelection.well_formed X'))
  /\ (length (FeatureSelection.dims X) = 2%nat ->
      FeatureSelection.check_subset X = Py.ok X)
  /\ (forall n,
        FeatureSelection.dims X = [n] ->
        FeatureSelection.check_subset X
        = Py.ok {| FeatureSelection.dims := [n; 1%nat];
                   FeatureSelection.elems := FeatureSelection.elems X |}).
Proof.
  split; [| split].
  - unfold FeatureSelection.check_subset.
    destruct (2 <? length (FeatureSelection.dims X))%nat eqn:Hbig; cbn [andb].
    + destruct (2 <? length (FeatureSelection.dims
                               (FeatureSelection.squeeze_array X)))%nat
        eqn:Hsqueezed; [reflexivity |].
      cbn [Py.bind Py.ok].
      apply Nat.ltb_ge in Hsqueezed.
      destruct (length (FeatureSelection.dims
                          (FeatureSelection.squeeze_array X)) <? 2)%nat
        eqn:Hsmall; cbn [Py.bind Py.ok].
      * exists (FeatureSelection.reshape_column
                  (FeatureSelection.squeeze_array X)).
        split; [reflexivity |]. split; [reflexivity |].
        split; [reflexivity |].
        unfold FeatureSelection.well_formed. cbn. intros ->.
        rewrite prod_squeeze. lia.
      * apply Nat.ltb_ge in Hsmall.
        exists (FeatureSelection.squeeze_array X).
        split; [reflexivity |]. split; [lia |].
        split; [reflexivity |].
        unfold FeatureSelection.well_formed. cbn. intros ->.
        now rewrite prod_squeeze.
    + cbn [Py.bind Py.ok]. apply Nat.ltb_ge in Hbig.
      destruct (length (FeatureSelection.dims X) <? 2)%nat eqn:Hsmall;
        cbn [Py.bind Py.ok].
      * exists (FeatureSelection.reshape_column X).
        split; [reflexivity |]. split; [reflexivity |].
        split; [reflexivity |].
        unfold FeatureSelection.well_formed. cbn. intros ->. lia.
      * apply Nat.ltb_ge in Hsmall.
        exists X. split; [reflexivity |]. split; [lia |]. auto.
  - intros Hdim. unfold FeatureSelection.check_subset.
    rewrite Hdim. cbn. rewrite Hdim. reflexivity.
  - intros n Hdim. unfold FeatureSelection.check_subset. rewrite Hdim. cbn.
    unfold FeatureSelection.reshape_column. rewrite Hdim. cbn.
    now rewrite Nat.mul_1_r.
Qed.

(** X15. An empty candidate support is replaced according to the error
    mechanism: with ["return_all"] by the indices of all the columns of
    [X] (an [IndexError] if [X] has fewer than two dimensions); with
    ["return_NaN"] the replacement [np.nan] cannot take a new axis and the
    call raises [TypeError], so that no NaN support is ever returned; with
    any other mechanism the call raises [RuntimeError]. *)
Theorem check_support_empty (self : FeatureSelection.BaseSelector)
    (support : Numpy.array_like) (X : FeatureSelection.array) :
  FeatureSelection.prod (Numpy.shape (Numpy.asarray support)) = 0%nat ->
  FeatureSelection.check_support self support X
  = if String.eqb (FeatureSelection.error_handling self) "return_all" then
      match FeatureSelection.dims X with
      | _ :: d1 :: _ => Py.ok (FeatureSelection.arange_array d1)
      | _ => Py.raise Py.IndexError
      end
    else if String.eqb (FeatureSelection.error_handling self) "return_NaN"
    then Py.raise Py.TypeError
    else Py.raise (Py.Raised "RuntimeError").
Proof.
  intros Hempty. unfold FeatureSelection.check_support.
  rewrite Hempty. cbn [Nat.ltb Nat.leb].
  destruct (String.eqb (FeatureSelection.error_handling self) "return_all")
    eqn:Hall.
  - unfold FeatureSelection.shape1.
    destruct (FeatureSelection.dims X) as [| d0 [| d1 rest]];
      cbn; rewrite ?Hall; reflexivity.
  - destruct (String.eqb (FeatureSelection.error_handling self) "return_NaN");
      reflexivity.
Qed.

(** No feature passes the selection on a matrix of three rows and two
    columns: all columns are returned. *)
Lemma check_support_empty_witness :
  FeatureSelection.check_support
    {| FeatureSelection.error_handling := "return_all";
       FeatureSelection.support := None |}
    (Numpy.Sequence {| Numpy.shape := [1; 0]%nat; Numpy.data := [] |})
    {| FeatureSelection.dims := [3; 2]%nat;
       FeatureSelection.elems := [1; 2; 3; 4; 5; 6] |}
  = Py.ok {| Numpy.shape := [2%nat]; Numpy.data := [0; 1]%Z |}.
Proof.
  apply (check_support_empty
           {| FeatureSelection.error_handling := "return_all";
              FeatureSelection.support := None |}
           (Numpy.Sequence {| Numpy.shape := [1; 0]%nat; Numpy.data := [] |})
           {| FeatureSelection.dims := [3; 2]%nat;
              FeatureSelection.elems := [1; 2; 3; 4; 5; 6] |}).
  reflexivity.
Defined.

(** X16. A non-empty candidate support keeps its elements and loses its
    axes of length one: the result is the one-dimensional array of the
    same elements when at most one axis is longer than one; when several
    are, ["return_all"] fails its assertion and any other mechanism
    returns the squeezed array of more than one dimension. *)
Theorem check_support_nonempty (self : FeatureSelection.BaseSelector)
    (support : Numpy.array_like) (X : FeatureSelection.array) :
  (1 <= FeatureSelection.prod (Numpy.shape (Numpy.asarray support)))%nat ->
  FeatureSelection.check_support self support X
  = match Numpy.shape (Numpy.squeeze (Numpy.asarray support)) with
    | [] =>
        Py.ok {| Numpy.shape := [1%nat];
                 Numpy.data := Numpy.data (Numpy.asarray support) |}
    | [n] =>
        Py.ok {| Numpy.shape := [n];
                 Numpy.data := Numpy.data (Numpy.asarray support) |}
    | long =>
        if String.eqb (FeatureSelection.error_handling self) "return_all"
        then Py.raise (Py.Raised "AssertionError")
        else Py.ok {| Numpy.shape := long;
                      Numpy.data := Numpy.data (Numpy.asarray support) |}
    end.
Proof.
  intros Hsize. unfold FeatureSelection.check_support.
  assert ((FeatureSelection.prod (Numpy.shape (Numpy.asarray support)) <? 1)%nat
          = false) as -> by (apply Nat.ltb_ge; exact Hsize).
  cbn [Py.bind Py.ok].
  destruct (Numpy.asarray support) as [shape data]. clear Hsize.
  unfold Numpy.ndim, Numpy.squeeze. cbn [Numpy.shape Numpy.data].
  destruct shape as [| d0 [| d1 shape]].
  - cbn. destruct (String.eqb _ "return_all"); reflexivity.
  - cbn [length Nat.ltb Nat.leb FeatureSelection.indicators_ndim Numpy.ndim
         Numpy.shape Numpy.data].
    rewrite filter_cons, filter_nil.
    case_decide as Hd.
    + destruct (String.eqb _ "return_all"); reflexivity.
    + destruct (Nat.eqb_spec d0 1) as [-> | Hne];
        [| exfalso; apply Hd; exact I].
      destruct (String.eqb _ "return_all"); reflexivity.
  - cbn [length Nat.ltb Nat.leb].
    set (long := filter _ (d0 :: d1 :: shape)).
    cbn [FeatureSelection.indicators_ndim Numpy.ndim Numpy.shape Numpy.data].
    destruct long as [| n [| m long]]; cbn;
      destruct (String.eqb _ "return_all"); reflexivity.
Qed.

(** The positions found by [np.where] in a vector, a tuple of one array
    of two positions, become a one-dimensional support. *)
Lemma check_support_nonempty_witness :
  FeatureSelection.check_support
    {| FeatureSelection.error_handling := "return_all";
       FeatureSelection.support := None |}
    (Numpy.Sequence {| Numpy.shape := [1; 2]%nat; Numpy.data := [0; 3]%Z |})
    {| FeatureSelection.dims := [1; 4]%nat;
       FeatureSelection.elems := [1; 2; 3; 4] |}
  = Py.ok {| Numpy.shape := [2%nat]; Numpy.data := [0; 3]%Z |}.
Proof.
  apply (check_support_nonempty
           {| FeatureSelection.error_handling := "return_all";
              FeatureSelection.support := None |}
           (Numpy.Sequence
              {| Numpy.shape := [1; 2]%nat; Numpy.data := [0; 3]%Z |})
           {| FeatureSelection.dims := [1; 4]%nat;
              FeatureSelection.elems := [1; 2; 3; 4] |}).
  cbn. lia.
Defined.

Lemma chunks_lengths {A} (k n : nat) (l : list A) :
  length l = (n * k)%nat ->
  Forall (fun block => length block = k) (FeatureSelection.chunks k n l).
Proof.
  revert l. induction n as [| n IH]; intros l Hlen; cbn; constructor.
  - rewrite length_take. lia.
  - apply IH. rewrite length_drop. lia.
Qed.

(** Selecting every column in order gives the matrix back. *)
Lemma take_all_columns (X : FeatureSelection.array) (r c : nat) :
  FeatureSelection.dims X = [r; c] ->
  FeatureSelection.well_formed X ->
  FeatureSelection.take_axis1 X (FeatureSelection.arange_array c) = Py.ok X.
Proof.
  intros Hdims Hwf. unfold FeatureSelection.take_axis1. rewrite Hdims.
  cbn [FeatureSelection.arange_array Numpy.data Numpy.shape
       FeatureSelection.prod foldr].
  rewrite axis_index_seq
    by (apply Forall_forall; intros j Hj; apply elem_of_seq in Hj; lia).
  cbn [Py.bind Py.ok].
  unfold FeatureSelection.well_formed in Hwf. rewrite Hdims in Hwf.
  cbn [FeatureSelection.prod foldr] in Hwf.
  assert (Hblocks :
            map (fun block =>
                   concat (map (fun j =>
                                  nth j (FeatureSelection.chunks 1 c block) [])
                             (seq 0 c)))
              (FeatureSelection.chunks (c * 1) r (FeatureSelection.elems X))
            = FeatureSelection.chunks (c * 1) r (FeatureSelection.elems X)).
  { rewrite <- (map_id (FeatureSelection.chunks (c * 1) r _)) at 2.
    apply map_ext_Forall.
    eapply Forall_impl; [apply chunks_lengths; lia |].
    intros block Hblock. cbn beta in Hblock |- *.
    replace (seq 0 c)
      with (seq 0 (length (FeatureSelection.chunks 1 c block)))
      by (now rewrite length_chunks).
    rewrite map_nth_seq. apply concat_chunks. lia. }
  rewrite Hblocks, concat_chunks by lia.
  destruct X as [dims elems]. cbn in *. now subst dims.
Qed.

(** X17. When the selection comes out empty under ["return_all"], the
    support that [check_support] substitutes makes [transform] return a
    matrix [X] unchanged. *)
Theorem transform_fallback_identity (self : FeatureSelection.BaseSelector)
    (support : Numpy.array_like) (X : FeatureSelection.array) (r c : nat) :
  FeatureSelection.error_handling self = "return_all"%string ->
  FeatureSelection.dims X = [r; c] ->
  FeatureSelection.well_formed X ->
  FeatureSelection.prod (Numpy.shape (Numpy.asarray support)) = 0%nat ->
  exists indices,
    FeatureSelection.check_support self support X = Py.ok indices
    /\ FeatureSelection.transform
         {| FeatureSelection.error_handling :=
              FeatureSelection.error_handling self;
            FeatureSelection.support := Some indices |} X
       = Py.ok X.
Proof.
  intros Hmode Hdims Hwf Hempty.
  exists (FeatureSelection.arange_array c). split.
  - unfold FeatureSelection.check_support. rewrite Hempty, Hmode.
    unfold FeatureSelection.shape1. rewrite Hdims. reflexivity.
  - unfold FeatureSelection.transform. cbn [FeatureSelection.support].
    rewrite (take_all_columns X r c Hdims Hwf). cbn [Py.bind Py.ok].
    unfold FeatureSelection.check_subset. rewrite Hdims. cbn.
    rewrite Hdims. reflexivity.
Qed.

(** A matrix of two rows and three columns with an empty selection. *)
Lemma transform_fallback_identity_witness :
  FeatureSelection.transform
    {| FeatureSelection.error_handling := "return_all";
       FeatureSelection.support :=
         Some {| Numpy.shape := [3%nat]; Numpy.data := [0; 1; 2]%Z |} |}
    {| FeatureSelection.dims := [2; 3]%nat;
       FeatureSelection.elems := [1; 2; 3; 4; 5; 6] |}
  = Py.ok {| FeatureSelection.dims := [2; 3]%nat;
             FeatureSelection.elems := [1; 2; 3; 4; 5; 6] |}.
Proof.
  destruct (transform_fallback_identity
              {| FeatureSelection.error_handling := "return_all";
                 FeatureSelection.support := None |}
              (Numpy.Sequence {| Numpy.shape := [0%nat]; Numpy.data := [] |})
              {| FeatureSelection.dims := [2; 3]%nat;
                 FeatureSelection.elems := [1; 2; 3; 4; 5; 6] |}
              2 3 eq_refl eq_refl eq_refl eq_refl)
    as (indices & Hindices & Htransform).
  vm_compute in Hindices. injection Hindices as <-.
  exact Htransform.
Defined.

Lemma filter_unit_axis (d : nat) (shape : list nat) :
  filter (fun d => negb (d =? 1)%nat) (d :: shape)
  = if (d =? 1)%nat then filter (fun d => negb (d =? 1)%nat) shape
    else d :: filter (fun d => negb (d =? 1)%nat) shape.
Proof.
  rewrite filter_cons.
  destruct (Nat.eqb_spec d 1) as [-> | Hd]; case_decide as Hkeep;
    try reflexivity; exfalso; cbn in Hkeep; tauto.
Qed.

(** X18. A selector that was never fitted has the support [None], which
    as an index adds an axis instead of selecting columns: [transform]
    then returns a matrix with several rows and several columns as it
    is, and a matrix with a single row or a single column as one column
    of all its elements. *)
Theorem transform_unfitted (self : FeatureSelection.BaseSelector)
    (X : FeatureSelection.array) (r c : nat) :
  FeatureSelection.support self = None ->
  FeatureSelection.dims X = [r; c] ->
  exists X',
    FeatureSelection.transform self X = Py.ok X'
    /\ FeatureSelection.elems X' = FeatureSelection.elems X
    /\ (r <> 1%nat -> c <> 1%nat -> X' = X)
    /\ (r = 1%nat \/ c = 1%nat ->
        FeatureSelection.dims X' = [(r * c)%nat; 1%nat]).
Proof.
  intros Hnone Hdims. unfold FeatureSelection.transform.
  rewrite Hnone. unfold FeatureSelection.new_axis1. rewrite Hdims.
  cbn [Py.bind Py.ok].
  destruct X as [dims elems]. cbn in Hdims. subst dims.
  unfold FeatureSelection.check_subset, FeatureSelection.squeeze_array,
    FeatureSelection.reshape_column.
  cbn [FeatureSelection.dims FeatureSelection.elems length Nat.ltb Nat.leb].
  rewrite !filter_unit_axis, filter_nil. cbn [Nat.eqb].
  destruct (Nat.eqb_spec r 1) as [-> | Hr], (Nat.eqb_spec c 1) as [-> | Hc];
    cbn; eexists; (split; [reflexivity |]); cbn;
    (split; [reflexivity |]); split;
    try (intros; congruence); try reflexivity;
    try (intros [Hone | Hone]; congruence);
    intros _; f_equal; lia.
Qed.

(** A fresh selector on a matrix of two rows and three columns. *)
Lemma transform_unfitted_witness :
  FeatureSelection.transform
    {| FeatureSelection.error_handling := "return_all";
       FeatureSelection.support := None |}
    {| FeatureSelection.dims := [2; 3]%nat;
       FeatureSelection.elems := [1; 2; 3; 4; 5; 6] |}
  = Py.ok {| FeatureSelection.dims := [2; 3]%nat;
             FeatureSelection.elems := [1; 2; 3; 4; 5; 6] |}.
Proof.
  destruct (transform_unfitted
              {| FeatureSelection.error_handling := "return_all";
                 FeatureSelection.support := None |}
              {| FeatureSelection.dims := [2; 3]%nat;
                 FeatureSelection.elems := [1; 2; 3; 4; 5; 6] |}
              2 3 eq_refl eq_refl)
    as (X' & -> & _ & Hsame & _).
  rewrite Hsame by lia. reflexivity.
Defined.

(** ** Feature selectors: Wilcoxon and ReliefF *)

Lemma le_of_gt_false (x y : Q) : negb (Py.gt x y) = true <-> x <= y.
Proof. rewrite negb_true_iff. apply gt_false. Qed.

(** A one-dimensional candidate support with at least one element comes
    back as it is, under every error mechanism. *)
Lemma check_support_vector (self : FeatureSelection.BaseSelector)
    (X : FeatureSelection.array) (n : nat) (indices : list Z) :
  FeatureSelection.check_support self
    (Numpy.NdArray {| Numpy.shape := [S n]; Numpy.data := indices |}) X
  = Py.ok {| Numpy.shape := [S n]; Numpy.data := indices |}.
Proof.
  unfold FeatureSelection.check_support.
  cbn [Numpy.asarray Numpy.shape FeatureSelection.prod foldr].
  assert ((S n * 1 <? 1)%nat = false) as -> by (apply Nat.ltb_ge; lia).
  cbn. destruct (String.eqb _ "return_all"); reflexivity.
Qed.

(** An empty one-dimensional candidate under ["return_all"]. *)
Lemma check_support_none_selected (self : FeatureSelection.BaseSelector)
    (X : FeatureSelection.array) (indices : Numpy.ndarray) :
  FeatureSelection.error_handling self = "return_all"%string ->
  FeatureSelection.check_support self
    (Numpy.NdArray {| Numpy.shape := [0%nat]; Numpy.data := [] |}) X
  = Py.ok indices ->
  exists d0 d1 rest,
    FeatureSelection.dims X = d0 :: d1 :: rest
    /\ indices = FeatureSelection.arange_array d1.
Proof.
  intros Hmode. unfold FeatureSelection.check_support.
  cbn [Numpy.asarray Numpy.shape FeatureSelection.prod foldr Nat.mul
       Nat.ltb Nat.leb].
  rewrite Hmode. unfold FeatureSelection.shape1.
  destruct (FeatureSelection.dims X) as [| d0 [| d1 rest]];
    try discriminate.
  cbn. intros Hok. injection Hok as <-. eauto.
Qed.

Section SelectorProperties.
Context `{FeatureSelection.Libraries}.

Lemma wilcoxon_loops_nested (X : FeatureSelection.array) (y : list Z)
    (bound1 bound2 : Py.result Q) (nums acc1 acc2 s1 s2 : list nat) :
  (forall b1 b2, bound1 = inr b1 -> bound2 = inr b2 -> b1 <= b2) ->
  FeatureSelection.wilcoxon_loop X y bound1 nums acc1 = inr s1 ->
  FeatureSelection.wilcoxon_loop X y bound2 nums acc2 = inr s2 ->
  exists kept1 kept2,
    s1 = acc1 ++ kept1 /\ s2 = acc2 ++ kept2
    /\ sublist kept1 kept2 /\ sublist kept2 nums.
Proof.
  intros Hbound. revert acc1 acc2.
  induction nums as [| num nums IH]; intros acc1 acc2 H1 H2.
  - cbn in H1, H2. injection H1 as <-. injection H2 as <-.
    exists [], []. rewrite !app_nil_r. repeat split; constructor.
  - cbn [FeatureSelection.wilcoxon_loop] in H1, H2.
    apply bind_ok in H1 as ([stat pval] & Hw & H1).
    rewrite Hw in H2. cbn [Py.bind] in H2.
    apply bind_ok in H1 as (b1 & Hb1 & H1).
    apply bind_ok in H2 as (b2 & Hb2 & H2).
    specialize (Hbound b1 b2 Hb1 Hb2).
    destruct (negb (Py.gt pval b1)) eqn:E1.
    + assert (E2 : negb (Py.gt pval b2) = true).
      { apply le_of_gt_false. apply le_of_gt_false in E1.
        eapply Qle_trans; eassumption. }
      rewrite E2 in H2.
      destruct (IH _ _ H1 H2) as (k1 & k2 & -> & -> & Hsub & Hnums).
      exists (num :: k1), (num :: k2). rewrite <- !app_assoc.
      repeat split; now constructor.
    + destruct (negb (Py.gt pval b2)) eqn:E2.
      * destruct (IH _ _ H1 H2) as (k1 & k2 & -> & -> & Hsub & Hnums).
        exists k1, (num :: k2). rewrite <- !app_assoc.
        repeat split; now constructor.
      * destruct (IH _ _ H1 H2) as (k1 & k2 & -> & -> & Hsub & Hnums).
        exists k1, k2. repeat split; [assumption | now constructor].
Qed.

(** X19. For a threshold that is not negative, the columns selected by
    [wilcoxon_signed_rank] under the Bonferroni correction are, in the
    same order, among those selected without it, and both selections list
    column numbers of [X] in increasing order without repetition. *)
Theorem wilcoxon_bonferroni_nested (base : FeatureSelection.BaseSelector)
    (thresh : Q) (X : FeatureSelection.array) (y : list Z)
    (corrected plain : Numpy.ndarray) :
  0 <= thresh ->
  FeatureSelection.wilcoxon_signed_rank
    {| FeatureSelection.wilcoxon_base := base;
       FeatureSelection.thresh := thresh;
       FeatureSelection.bf_correction := true |} X y = inr corrected ->
  FeatureSelection.wilcoxon_signed_rank
    {| FeatureSelection.wilcoxon_base := base;
       FeatureSelection.thresh := thresh;
       FeatureSelection.bf_correction := false |} X y = inr plain ->
  exists nrows ncols kept_corrected kept_plain,
    FeatureSelection.dims X = [nrows; ncols]
    /\ corrected = FeatureSelection.index_array kept_corrected
    /\ plain = FeatureSelection.index_array kept_plain
    /\ sublist kept_corrected kept_plain
    /\ sublist kept_plain (seq 0 ncols).
Proof.
  intros Hthresh. unfold FeatureSelection.wilcoxon_signed_rank.
  cbn [FeatureSelection.bf_correction FeatureSelection.thresh].
  destruct (FeatureSelection.dims X) as [| nrows [| ncols [| ? ?]]];
    try discriminate.
  intros H1 H2.
  apply bind_ok in H1 as (s1 & H1 & Hc). injection Hc as <-.
  apply bind_ok in H2 as (s2 & H2 & Hp). injection Hp as <-.
  assert (Hbound : forall b1 b2,
             Py.truediv thresh (inject_Z (Z.of_nat ncols)) = inr b1 ->
             Py.ok thresh = inr b2 -> b1 <= b2).
  { intros b1 b2 Hb1 Hb2. injection Hb2 as <-.
    unfold Py.truediv in Hb1.
    destruct (Qeq_bool (inject_Z (Z.of_nat ncols)) 0) eqn:Hz;
      [discriminate |].
    injection Hb1 as <-.
    assert (Hn : 1 <= inject_Z (Z.of_nat ncols)).
    { apply Qeq_bool_neq in Hz. change 1 with (inject_Z 1).
      rewrite <- Zle_Qle.
      assert (Z.of_nat ncols <> 0%Z); [| lia].
      intros Hzero. apply Hz. now rewrite Hzero. }
    apply Qle_shift_div_r; [lra |].
    rewrite <- (Qmult_1_r thresh) at 1.
    rewrite !(Qmult_comm thresh). apply Qmult_le_compat_r; assumption. }
  destruct (wilcoxon_loops_nested X y _ _ _ [] [] s1 s2 Hbound H1 H2)
    as (k1 & k2 & -> & -> & Hsub & Hnums).
  exists nrows, ncols, k1, k2. cbn [app]. auto.
Qed.

(** X20. A successful [WilcoxonSelection.fit] under ["return_all"] sets
    the support to the columns that pass the test, or to all the columns
    of the checked matrix when none passes; the support is one-dimensional
    in both cases. *)
Theorem wilcoxon_fit_support (self self' : FeatureSelection.WilcoxonSelection)
    (X : FeatureSelection.array) (y : list Z) :
  FeatureSelection.error_handling (FeatureSelection.wilcoxon_base self)
  = "return_all"%string ->
  FeatureSelection.wilcoxon_fit self X y = inr self' ->
  exists X1 y1 selected,
    FeatureSelection.check_X_y X y = inr (X1, y1)
    /\ FeatureSelection.wilcoxon_signed_rank self X1 y1
       = inr (FeatureSelection.index_array selected)
    /\ FeatureSelection.thresh self' = FeatureSelection.thresh self
    /\ match selected with
       | [] =>
           exists nrows ncols,
             FeatureSelection.dims X1 = [nrows; ncols]
             /\ FeatureSelection.support
                  (FeatureSelection.wilcoxon_base self')
                = Some (FeatureSelection.arange_array ncols)
       | _ =>
           FeatureSelection.support (FeatureSelection.wilcoxon_base self')
           = Some (FeatureSelection.index_array selected)
       end.
Proof.
  intros Hmode Hfit. unfold FeatureSelection.wilcoxon_fit in Hfit.
  apply bind_ok in Hfit as ([X1 y1] & Hcheck & Hfit).
  apply bind_ok in Hfit as (candidate & Hrank & Hfit).
  apply bind_ok in Hfit as (indices & Hsupport & Hfit).
  injection Hfit as <-.
  assert (Hcand : exists nrows ncols selected,
             FeatureSelection.dims X1 = [nrows; ncols]
             /\ candidate = FeatureSelection.index_array selected).
  { unfold FeatureSelection.wilcoxon_signed_rank in Hrank.
    destruct (FeatureSelection.dims X1) as [| nrows [| ncols [| ? ?]]];
      try discriminate.
    apply bind_ok in Hrank as (selected & _ & Hrank).
    injection Hrank as <-. eauto. }
  destruct Hcand as (nrows & ncols & selected & Hdims & ->).
  exists X1, y1, selected.
  split; [exact Hcheck |]. split; [exact Hrank |]. split; [reflexivity |].
  cbn [FeatureSelection.wilcoxon_base FeatureSelection.support].
  unfold FeatureSelection.index_array in Hsupport.
  destruct selected as [| num selected]; cbn [length map] in Hsupport.
  - destruct (check_support_none_selected _ _ _ Hmode Hsupport)
      as (d0 & d1 & rest & Hdims' & ->).
    rewrite Hdims in Hdims'. injection Hdims' as <- <- <-.
    exists nrows, ncols. auto.
  - rewrite check_support_vector in Hsupport. injection Hsupport as <-.
    reflexivity.
Qed.

(** X21. A successful [ReliefFSelection.fit] under ["return_all"] sets
    the support to the first [num_features] features of the ranking (all
    but the last [-num_features] for a negative number), or, when that
    slice is empty, as it is for [num_features = 0], to all the columns of
    the scaled matrix. *)
Theorem relieff_fit_support (self self' : FeatureSelection.ReliefFSelection)
    (X : FeatureSelection.array) (y : list Z) :
  FeatureSelection.error_handling (FeatureSelection.relieff_base self)
  = "return_all"%string ->
  FeatureSelection.relieff_fit self X y = inr self' ->
  exists X1 y1 X2 top_features,
    FeatureSelection.check_X_y X y = inr (X1, y1)
    /\ FeatureSelection.minmax_fit_transform X1 = inr X2
    /\ FeatureSelection.relieff_top_features
         (FeatureSelection.num_neighbors self) X2 y1 = inr top_features
    /\ match FeatureSelection.slice_to (FeatureSelection.num_features self)
               top_features with
       | [] =>
           exists d0 d1 rest,
             FeatureSelection.dims X2 = d0 :: d1 :: rest
             /\ FeatureSelection.support
                  (FeatureSelection.relieff_base self')
                = Some (FeatureSelection.arange_array d1)
       | chosen =>
           FeatureSelection.support (FeatureSelection.relieff_base self')
           = Some {| Numpy.shape := [length chosen];
                     Numpy.data := chosen |}
       end
    /\ (FeatureSelection.num_features self = 0%Z ->
        FeatureSelection.slice_to (FeatureSelection.num_features self)
          top_features = []).
Proof.
  intros Hmode Hfit. unfold FeatureSelection.relieff_fit in Hfit.
  apply bind_ok in Hfit as ([X1 y1] & Hcheck & Hfit).
  apply bind_ok in Hfit as (X2 & Hscale & Hfit).
  apply bind_ok in Hfit as (top & Htop & Hfit).
  apply bind_ok in Hfit as (indices & Hsupport & Hfit).
  injection Hfit as <-.
  exists X1, y1, X2, top.
  split; [exact Hcheck |]. split; [exact Hscale |]. split; [exact Htop |].
  cbn [FeatureSelection.relieff_base FeatureSelection.support].
  split.
  - destruct (FeatureSelection.slice_to _ top) as [| i chosen];
      cbn [length] in Hsupport.
    + destruct (check_support_none_selected _ _ _ Hmode Hsupport)
        as (d0 & d1 & rest & Hdims & ->).
      eauto.
    + rewrite check_support_vector in Hsupport. injection Hsupport as <-.
      reflexivity.
  - intros ->. reflexivity.
Qed.

End SelectorProperties.

(** ** Feature selectors: permutation importance *)

Lemma set_column_restore (X : list (list Q)) (j : nat) (values : list Q) :
  Forall (fun row => (j < length row)%nat) X ->
  length values = length X ->
  FeatureSelection.set_column (FeatureSelection.set_column X j values) j
    (FeatureSelection.get_column X j) = X.
Proof.
  unfold FeatureSelection.set_column, FeatureSelection.get_column.
  intros Hrows. revert values.
  induction Hrows as [| row X Hrow _ IH]; intros values Hlen.
  - now destruct values.
  - destruct values as [| v values]; [discriminate |].
    cbn. rewrite list_insert_insert_eq, IH by (cbn in Hlen; lia).
    f_equal. apply list_insert_id.
    destruct (nth_lookup_or_length row j 0) as [Hj | Hj]; [exact Hj | lia].
Qed.

Section PermutationProperties.
Context {G E : Type} `{FeatureSelection.Shuffler G}
  `{Utils.Estimator E (list (list Q))}.
Variable score_func : list Z -> list Z -> Py.result Q.
Variables (model : E) (y : list Z).

(** One pass over the columns either ends with the matrix as it found it,
    or stops with one column shuffled. *)
Lemma permute_columns_outcome (baseline : Q) (c : nat) (cols : list nat)
    (st st' : FeatureSelection.permutation_state G) (r : Py.result unit) :
  Forall (fun row => length row = c) (FeatureSelection.X_now st) ->
  Forall (fun col => (col < c)%nat) cols ->
  FeatureSelection.permute_columns score_func model y baseline cols st
  = (r, st') ->
  length (FeatureSelection.importance st')
  = length (FeatureSelection.importance st)
  /\ match r with
     | inr _ => FeatureSelection.X_now st' = FeatureSelection.X_now st
     | inl _ =>
         exists col g,
           (col < c)%nat
           /\ FeatureSelection.X_now st'
              = FeatureSelection.set_column (FeatureSelection.X_now st) col
                  (fst (FeatureSelection.shuffle g
                          (FeatureSelection.get_column
                             (FeatureSelection.X_now st) col)))
     end.
Proof.
  intros Hrect Hcols. revert st Hrect.
  induction Hcols as [| col cols Hcol _ IH]; intros st Hrect Hrun.
  - cbn in Hrun. injection Hrun as <- <-. split; reflexivity.
  - cbn [FeatureSelection.permute_columns] in Hrun.
    pose proof (FeatureSelection.shuffle_length
                  (FeatureSelection.rgen_now st)
                  (FeatureSelection.get_column
                     (FeatureSelection.X_now st) col)) as Hlen.
    destruct (FeatureSelection.shuffle (FeatureSelection.rgen_now st) _)
      as [shuffled rgen] eqn:Hshuffle.
    cbn [fst] in Hlen.
    unfold FeatureSelection.get_column in Hlen at 1.
    rewrite length_map in Hlen.
    destruct (Py.bind (Utils.predict model _) _) as [e | new_score].
    + injection Hrun as <- <-. split; [reflexivity |].
      exists col, (FeatureSelection.rgen_now st).
      split; [exact Hcol |]. now rewrite Hshuffle.
    + rewrite set_column_restore in Hrun.
      * apply IH in Hrun; [| exact Hrect].
        cbn [FeatureSelection.X_now FeatureSelection.importance] in Hrun.
        now rewrite length_alter in Hrun.
      * eapply Forall_impl; [exact Hrect |]. cbn. intros row ->. exact Hcol.
      * exact Hlen.
Qed.

Lemma permute_rounds_outcome (baseline : Q) (rounds : nat)
    (st st' : FeatureSelection.permutation_state G) (r : Py.result unit) :
  Forall (fun row => length row = FeatureSelection.width
                                    (FeatureSelection.X_now st))
    (FeatureSelection.X_now st) ->
  FeatureSelection.permute_rounds score_func model y baseline
    (FeatureSelection.width (FeatureSelection.X_now st)) rounds st
  = (r, st') ->
  length (FeatureSelection.importance st')
  = length (FeatureSelection.importance st)
  /\ match r with
     | inr _ => FeatureSelection.X_now st' = FeatureSelection.X_now st
     | inl _ =>
         exists col g,
           (col < FeatureSelection.width (FeatureSelection.X_now st))%nat
           /\ FeatureSelection.X_now st'
              = FeatureSelection.set_column (FeatureSelection.X_now st) col
                  (fst (FeatureSelection.shuffle g
                          (FeatureSelection.get_column
                             (FeatureSelection.X_now st) col)))
     end.
Proof.
  revert st. induction rounds as [| rounds IH]; intros st Hrect Hrun.
  - cbn in Hrun. injection Hrun as <- <-. split; reflexivity.
  - cbn [FeatureSelection.permute_rounds] in Hrun.
    destruct (FeatureSelection.permute_columns score_func model y baseline
                (seq 0 (FeatureSelection.width (FeatureSelection.X_now st)))
                st) as [[e | []] st1] eqn:Hcols;
      apply (permute_columns_outcome baseline
               (FeatureSelection.width (FeatureSelection.X_now st)))
        in Hcols as [Hlen Hx];
      try exact Hrect;
      try (apply Forall_forall; intros col Hin;
           apply elem_of_seq in Hin; lia).
    + injection Hrun as <- <-. auto.
    + rewrite <- Hx in Hrun, Hrect. apply IH in Hrun; [| exact Hrect].
      rewrite Hx in Hrun. destruct Hrun as [Hlen' Hout].
      split; [congruence | exact Hout].
Qed.


(** X23. When [_feature_permutation_importance] fails, the matrix is not
    put back: it is left either untouched, when the baseline score itself
    fails, or with one of its columns shuffled. *)
Theorem permutation_importance_failure (num_rounds : nat) (rgen rgen' : G)
    (X X' : list (list Q)) (e : Py.exn) :
  Forall (fun row => length row = FeatureSelection.width X) X ->
  FeatureSelection.feature_permutation_importance score_func model num_rounds
    rgen X y = (inl e, X', rgen') ->
  (Py.bind (Utils.predict model X) (score_func y) = inl e /\ X' = X)
  \/ exists col g,
       (col < FeatureSelection.width X)%nat
       /\ X' = FeatureSelection.set_column X col
                 (fst (FeatureSelection.shuffle g
                         (FeatureSelection.get_column X col))).
Proof.
  intros Hrect. unfold FeatureSelection.feature_permutation_importance.
  destruct (Py.bind (Utils.predict model X) _) as [e0 | base] eqn:Hbase.
  - intros Hrun. injection Hrun as <- <- _. left. auto.
  - destruct (FeatureSelection.permute_rounds _ _ _ _ _ _ _)
      as [[e1 | []] st'] eqn:Hrounds; [| discriminate].
    intros Hrun. injection Hrun as <- <- _.
    destruct (permute_rounds_outcome base num_rounds
                {| FeatureSelection.X_now := X;
                   FeatureSelection.rgen_now := rgen;
                   FeatureSelection.importance :=
                     replicate (FeatureSelection.width X) 0 |}
                st' (inl e1) Hrect Hrounds) as [_ Hx].
    right. exact Hx.
Qed.

End PermutationProperties.

(** ** The result file of an experiment *)

Lemma uint_underscore_free (d : Decimal.uint) :
  Spec.underscore_free (NilEmpty.string_of_uint d) = true.
Proof. induction d; cbn; auto. Qed.

Lemma str_seed_underscore_free (random_state : option Z) :
  Spec.underscore_free (ComparisonSchemes.str_seed random_state) = true.
Proof.
  destruct random_state as [s |]; [| reflexivity].
  unfold ComparisonSchemes.str_seed, NilZero.string_of_int,
    NilZero.string_of_uint.
  destruct (Z.to_int s) as [[] | []]; cbn; auto using uint_underscore_free.
Qed.

Lemma str_seed_inj (s1 s2 : option Z) :
  ComparisonSchemes.str_seed s1 = ComparisonSchemes.str_seed s2 -> s1 = s2.
Proof.
  assert (Hdigits : forall z, NilZero.int_of_string
                                (NilZero.string_of_int (Z.to_int z))
                              = Some (Z.to_int z)).
  { intros z. apply NilZero.isi; destruct z; cbn; try discriminate;
      intros Heq; injection Heq;
      apply DecimalPos.Unsigned.to_uint_nonnil. }
  assert (Hnone : forall z,
             NilZero.string_of_int (Z.to_int z) <> "None"%string).
  { intros z Heq. specialize (Hdigits z). rewrite Heq in Hdigits.
    vm_compute in Hdigits. discriminate Hdigits. }
  destruct s1 as [z1 |], s2 as [z2 |]; cbn; intros Heq.
  - f_equal. apply DecimalZ.to_int_inj.
    pose proof (Hdigits z1) as H1. rewrite Heq, Hdigits in H1. congruence.
  - now apply Hnone in Heq.
  - symmetry in Heq. now apply Hnone in Heq.
  - reflexivity.
Qed.

Lemma split_at_underscore (a1 a2 r1 r2 : string) :
  Spec.underscore_free a1 = true -> Spec.underscore_free a2 = true ->
  (a1 ++ "_" ++ r1 = a2 ++ "_" ++ r2)%string -> a1 = a2 /\ r1 = r2.
Proof.
  revert a2. induction a1 as [| c1 a1 IH]; intros [| c2 a2]; cbn;
    intros H1 H2 Heq.
  - change (String "_" r1 = String "_" r2) in Heq. injection Heq as ->. auto.
  - change (String "_" r1 = String c2 (a2 ++ "_" ++ r2)) in Heq.
    injection Heq as <- _. discriminate H2.
  - change (String c1 (a1 ++ "_" ++ r1) = String "_" r2) in Heq.
    injection Heq as -> _. discriminate H1.
  - change (String c1 (a1 ++ "_" ++ r1) = String c2 (a2 ++ "_" ++ r2)) in Heq.
    injection Heq as -> Heq.
    apply andb_true_iff in H1 as [_ H1]. apply andb_true_iff in H2 as [_ H2].
    destruct (IH a2 H1 H2 Heq) as [-> ->]. auto.
Qed.

(** X26. Under one directory of preliminary results, the result file of
    [nested_cross_validation_smac] determines the seed and the experiment
    name: two runs share a file only if they have the same [random_state]
    (an integer or [None]) and the same [experiment_id]. *)
Theorem case_file_distinct (dir : string) (s1 s2 : option Z)
    (id1 id2 : string) :
  ComparisonSchemes.path_case_file (Some dir) s1 id1
  = ComparisonSchemes.path_case_file (Some dir) s2 id2
  <-> s1 = s2 /\ id1 = id2.
Proof.
  split; [| intros [-> ->]; reflexivity].
  unfold ComparisonSchemes.path_case_file, ComparisonSchemes.path_join.
  change (String.prefix "/" ("experiment_" ++ ?s)) with false.
  cbv iota. intros Heq.
  assert (Hname : (ComparisonSchemes.str_seed s1 ++ "_" ++ id1
                   = ComparisonSchemes.str_seed s2 ++ "_" ++ id2)%string).
  { destruct (String.eqb dir _ || ComparisonSchemes.ends_with_slash dir)%bool.
    - apply (String.app_inj dir) in Heq. now injection Heq.
    - apply (String.app_inj dir) in Heq. now injection Heq. }
  apply split_at_underscore in Hname as [Hseed ->];
    auto using str_seed_underscore_free.
  apply str_seed_inj in Hseed. auto.
Qed.

(** ** Feature selectors: supports read with [np.where] *)

Lemma positions_from_spec (mask : list bool) (i p : nat) :
  p ∈ FeatureSelection.positions_from i mask
  <-> exists j, p = (i + j)%nat /\ mask !! j = Some true.
Proof.
  revert i. induction mask as [| b mask IH]; intros i; cbn.
  - split; [intros Hin; inversion Hin | intros (j & _ & Hj); discriminate].
  - destruct b.
    + rewrite elem_of_cons, IH. split.
      * intros [-> | (j & -> & Hj)].
        -- exists 0%nat. split; [lia | reflexivity].
        -- exists (S j). split; [lia | exact Hj].
      * intros ([| j] & -> & Hj).
        -- left. lia.
        -- right. exists j. split; [lia | exact Hj].
    + rewrite IH. split.
      * intros (j & -> & Hj). exists (S j). split; [lia | exact Hj].
      * intros ([| j] & -> & Hj); [discriminate |].
        exists j. split; [lia | exact Hj].
Qed.

Lemma positions_from_sublist (mask : list bool) (i : nat) :
  sublist (FeatureSelection.positions_from i mask) (seq i (length mask)).
Proof.
  revert i. induction mask as [| [] mask IH]; intros i; cbn;
    [constructor | constructor; apply IH | constructor; apply IH].
Qed.

(** What [check_support] makes of the tuple of [np.where] under
    ["return_all"]: the positions as a one-dimensional array, or all
    columns when there is none. *)
Lemma check_support_where (self : FeatureSelection.BaseSelector)
    (X : FeatureSelection.array) (mask : list bool) (indices : Numpy.ndarray) :
  FeatureSelection.error_handling self = "return_all"%string ->
  FeatureSelection.check_support self (FeatureSelection.np_where mask) X
  = Py.ok indices ->
  match FeatureSelection.positions_from 0 mask with
  | [] =>
      exists d0 d1 rest,
        FeatureSelection.dims X = d0 :: d1 :: rest
        /\ indices = FeatureSelection.arange_array d1
  | positions => indices = FeatureSelection.index_array positions
  end.
Proof.
  intros Hmode. unfold FeatureSelection.np_where.
  destruct (FeatureSelection.positions_from 0 mask) as [| p [| p' positions]];
    unfold FeatureSelection.check_support;
    cbn [Numpy.asarray Numpy.shape Numpy.data FeatureSelection.prod foldr
         length map Nat.mul Nat.add Nat.ltb Nat.leb];
    rewrite Hmode.
  - unfold FeatureSelection.shape1.
    destruct (FeatureSelection.dims X) as [| d0 [| d1 rest]];
      try discriminate.
    cbn. intros Hok. injection Hok as <-. eauto.
  - cbn [Py.bind Py.ok]. unfold Numpy.ndim, Numpy.squeeze.
    cbn [Numpy.shape Numpy.data length Nat.ltb Nat.leb].
    rewrite !filter_unit_axis, filter_nil. cbn.
    intros Hok. injection Hok as <-. reflexivity.
  - cbn [Py.bind Py.ok]. unfold Numpy.ndim, Numpy.squeeze.
    cbn [Numpy.shape Numpy.data length Nat.ltb Nat.leb].
    rewrite !filter_unit_axis, filter_nil. cbn.
    intros Hok. injection Hok as <-. reflexivity.
Qed.

Section WhereProperties.
Context `{FeatureSelection.Libraries}.

(** X24. A successful [MRMRSelection.fit] under ["return_all"] sets the
    support to the positions, in increasing order, at which the mask of the
    mutual-information selector is true, or to all columns of the checked
    matrix when the mask is true nowhere. *)
Theorem mrmr_fit_support `{FeatureSelection.MutualInformation}
    (self self' : FeatureSelection.MRMRSelection)
    (X : FeatureSelection.array) (y : list Z) :
  FeatureSelection.error_handling (FeatureSelection.mrmr_base self)
  = "return_all"%string ->
  FeatureSelection.mrmr_fit self X y = inr self' ->
  exists X1 y1 mask selected,
    FeatureSelection.check_X_y X y = inr (X1, y1)
    /\ FeatureSelection.mifs_support (FeatureSelection.k self)
         (FeatureSelection.mrmr_num_features self) X1 y1 = inr mask
    /\ (forall col, col ∈ selected <-> mask !! col = Some true)
    /\ sublist selected (seq 0 (length mask))
    /\ match selected with
       | [] =>
           exists d0 d1 rest,
             FeatureSelection.dims X1 = d0 :: d1 :: rest
             /\ FeatureSelection.support (FeatureSelection.mrmr_base self')
                = Some (FeatureSelection.arange_array d1)
       | _ =>
           FeatureSelection.support (FeatureSelection.mrmr_base self')
           = Some (FeatureSelection.index_array selected)
       end.
Proof.
  intros Hmode Hfit. unfold FeatureSelection.mrmr_fit in Hfit.
  apply bind_ok in Hfit as ([X1 y1] & Hcheck & Hfit).
  apply bind_ok in Hfit as (mask & Hmask & Hfit).
  apply bind_ok in Hfit as (indices & Hsupport & Hfit).
  injection Hfit as <-.
  assert (Hsame : map (fun b => Bool.eqb b true) mask = mask).
  { clear. induction mask as [| [] mask IH]; cbn; congruence. }
  rewrite Hsame in Hsupport.
  apply (check_support_where _ _ _ _ Hmode) in Hsupport.
  exists X1, y1, mask, (FeatureSelection.positions_from 0 mask).
  split; [exact Hcheck |]. split; [exact Hmask |]. split.
  { intros col. rewrite positions_from_spec. split.
    - intros (j & -> & Hj). exact Hj.
    - intros Hcol. exists col. split; [reflexivity | exact Hcol]. }
  split; [apply positions_from_sublist |].
  cbn [FeatureSelection.mrmr_base FeatureSelection.support].
  destruct (FeatureSelection.positions_from 0 mask) as [| p positions].
  - destruct Hsupport as (d0 & d1 & rest & Hdims & ->). eauto.
  - now rewrite Hsupport.
Qed.

Section PermutationFit.
Context {G E : Type} `{FeatureSelection.Splitting G}
  `{FeatureSelection.Shuffler G} `{Utils.Estimator E (list (list Q))}.
Variable score_func : list Z -> list Z -> Py.result Q.

(** X25. A successful [PermutationSelection.fit] under ["return_all"]
    keeps the fitted model and the generator as the importance computation
    left it, and sets the support to the columns, in increasing order,
    whose average importance on the test part is a number above zero, or
    to all columns of the checked matrix when there is none; with
    [num_rounds = 0] every average is NaN and all columns are selected. *)
Theorem permutation_fit_support
    (self self' : FeatureSelection.PermutationSelection G E)
    (X : FeatureSelection.array) (y : list Z) :
  FeatureSelection.error_handling (FeatureSelection.permutation_base self)
  = "return_all"%string ->
  FeatureSelection.permutation_fit score_func self X y = inr self' ->
  exists X1 y1 X_train X_test y_train y_test X_test' rgen' averages selected,
    FeatureSelection.check_X_y X y = inr (X1, y1)
    /\ FeatureSelection.train_test_split X1 y1
         (FeatureSelection.test_size self)
         (FeatureSelection.permutation_random_state self)
       = inr (X_train, X_test, y_train, y_test)
    /\ Utils.fit (FeatureSelection.permutation_model self) X_train y_train
       = inr (FeatureSelection.permutation_model self')
    /\ FeatureSelection.feature_permutation_importance score_func
         (FeatureSelection.permutation_model self')
         (FeatureSelection.num_rounds self)
         (match FeatureSelection.permutation_rgen self with
          | Some g => g
          | None =>
              FeatureSelection.new_rgen
                (FeatureSelection.permutation_random_state self)
          end) X_test y_test
       = (inr averages, X_test', rgen')
    /\ FeatureSelection.permutation_rgen self' = Some rgen'
    /\ (forall col,
          col ∈ selected
          <-> exists q, averages !! col = Some (Some q) /\ 0 < q)
    /\ sublist selected (seq 0 (length averages))
    /\ (FeatureSelection.num_rounds self = 0%nat -> selected = [])
    /\ match selected with
       | [] =>
           exists d0 d1 rest,
             FeatureSelection.dims X1 = d0 :: d1 :: rest
             /\ FeatureSelection.support
                  (FeatureSelection.permutation_base self')
                = Some (FeatureSelection.arange_array d1)
       | _ =>
           FeatureSelection.support (FeatureSelection.permutation_base self')
           = Some (FeatureSelection.index_array selected)
       end.
Proof.
  intros Hmode Hfit. unfold FeatureSelection.permutation_fit in Hfit.
  apply bind_ok in Hfit as ([X1 y1] & Hcheck & Hfit).
  apply bind_ok in Hfit
    as ([[[X_train X_test] y_train] y_test] & Hsplit & Hfit).
  apply bind_ok in Hfit as (model & Hmodel & Hfit).
  destruct (FeatureSelection.feature_permutation_importance _ _ _ _ _ _)
    as [[outcome X_test'] rgen'] eqn:Hrun.
  apply bind_ok in Hfit as (averages & -> & Hfit).
  apply bind_ok in Hfit as (indices & Hsupport & Hfit).
  injection Hfit as <-.
  cbn [FeatureSelection.permutation_model FeatureSelection.permutation_rgen
       FeatureSelection.permutation_base FeatureSelection.support].
  apply (check_support_where _ _ _ _ Hmode) in Hsupport.
  set (mask := map FeatureSelection.positive averages) in *.
  assert (Hpositive : forall col,
             mask !! col = Some true
             <-> exists q, averages !! col = Some (Some q) /\ 0 < q).
  { intros col. unfold mask. rewrite list_lookup_fmap.
    destruct (averages !! col) as [[q |] |]; cbn.
    - unfold Py.gt. destruct (Qlt_le_dec 0 q) as [Hq | Hq].
      + split; [intros _; eauto | reflexivity].
      + split; [discriminate |].
        intros (q' & Heq & Hq'). injection Heq as <-. lra.
    - split; [discriminate | intros (q & Heq & _); discriminate].
    - split; [discriminate | intros (q & Heq & _); discriminate]. }
  exists X1, y1, X_train, X_test, y_train, y_test, X_test', rgen', averages,
    (FeatureSelection.positions_from 0 mask).
  split; [exact Hcheck |]. split; [exact Hsplit |].
  split; [exact Hmodel |]. split; [exact Hrun |]. split; [reflexivity |].
  split.
  { intros col. rewrite <- Hpositive, positions_from_spec. split.
    - intros (j & -> & Hj). exact Hj.
    - intros Hcol. exists col. split; [reflexivity | exact Hcol]. }
  split.
  { replace (length averages) with (length mask)
      by (unfold mask; apply length_map).
    apply positions_from_sublist. }
  split.
  { intros Hzero.
    destruct (FeatureSelection.positions_from 0 mask) as [| p positions] eqn:Hp;
      [reflexivity | exfalso].
    assert (Hin : p ∈ FeatureSelection.positions_from 0 mask)
      by (rewrite Hp; left).
    apply positions_from_spec in Hin as (j & _ & Hj).
    apply Hpositive in Hj as (q & Hq & _).
    revert Hrun Hq. unfold FeatureSelection.feature_permutation_importance.
    rewrite Hzero.
    destruct (Py.bind _ _) as [e | base]; [discriminate |].
    destruct (FeatureSelection.permute_rounds _ _ _ _ _ _ _)
      as [[e | []] st']; [discriminate |].
    intros Hrun. injection Hrun as <- _ _.
    rewrite list_lookup_fmap.
    destruct (FeatureSelection.importance st' !! j); discriminate. }
  destruct (FeatureSelection.positions_from 0 mask) as [| p positions].
  - destruct Hsupport as (d0 & d1 & rest & Hdims & ->). eauto.
  - now rewrite Hsupport.
Qed.

End PermutationFit.
End WhereProperties.

(** ** Feature selectors on the stand-in libraries *)

#[local] Existing Instances
  Stub.libraries Stub.reversing Stub.picky Stub.splitting
  Stub.first_features.

(** Three columns with the p-values 0.01, 0.03 and 0.5 at the threshold
    0.05: the correction keeps the first column, the plain test the first
    two. *)
Lemma wilcoxon_bonferroni_nested_witness :
  exists kept_corrected kept_plain,
    FeatureSelection.wilcoxon_signed_rank
      {| FeatureSelection.wilcoxon_base :=
           {| FeatureSelection.error_handling := "return_all";
              FeatureSelection.support := None |};
         FeatureSelection.thresh := 0.05;
         FeatureSelection.bf_correction := true |} Stub.pvalues []
    = inr (FeatureSelection.index_array kept_corrected)
    /\ sublist kept_corrected kept_plain
    /\ sublist kept_plain [0; 1; 2]%nat.
Proof.
  destruct (wilcoxon_bonferroni_nested
              {| FeatureSelection.error_handling := "return_all";
                 FeatureSelection.support := None |}
              0.05 Stub.pvalues []
              {| Numpy.shape := [1%nat]; Numpy.data := [0%Z] |}
              {| Numpy.shape := [2%nat]; Numpy.data := [0; 1]%Z |})
    as (nrows & ncols & kept_c & kept_p & Hdims & Hc & Hp & Hsub & Hall).
  - discriminate.
  - vm_compute. reflexivity.
  - vm_compute. reflexivity.
  - injection Hdims as <- <-.
    exists kept_c, kept_p. split; [| split; assumption].
    rewrite <- Hc. vm_compute. reflexivity.
Defined.

(** At the threshold 0.001 no column passes and the fit falls back on all
    three columns. *)
Lemma wilcoxon_fit_support_witness :
  exists self',
    FeatureSelection.wilcoxon_fit Stub.strict_wilcoxon Stub.pvalues []
    = inr self'
    /\ FeatureSelection.support (FeatureSelection.wilcoxon_base self')
       = Some (FeatureSelection.arange_array 3).
Proof.
  destruct (FeatureSelection.wilcoxon_fit Stub.strict_wilcoxon Stub.pvalues [])
    as [e | self'] eqn:Hfit; [vm_compute in Hfit; discriminate Hfit |].
  exists self'. split; [reflexivity |].
  destruct (wilcoxon_fit_support Stub.strict_wilcoxon self' Stub.pvalues []
              eq_refl Hfit)
    as (X1 & y1 & selected & Hcheck & Hrank & _ & Hsupport).
  injection Hcheck as <- <-.
  destruct selected as [| num selected];
    [| vm_compute in Hrank; discriminate Hrank].
  destruct Hsupport as (nrows & ncols & Hdims & Hsupport).
  injection Hdims as <- <-. exact Hsupport.
Defined.

(** Asking ReliefF for no feature returns all three. *)
Lemma relieff_fit_support_witness :
  exists self',
    FeatureSelection.relieff_fit Stub.empty_relieff Stub.pvalues []
    = inr self'
    /\ FeatureSelection.support (FeatureSelection.relieff_base self')
       = Some (FeatureSelection.arange_array 3).
Proof.
  destruct (FeatureSelection.relieff_fit Stub.empty_relieff Stub.pvalues [])
    as [e | self'] eqn:Hfit; [vm_compute in Hfit; discriminate Hfit |].
  exists self'. split; [reflexivity |].
  destruct (relieff_fit_support Stub.empty_relieff self' Stub.pvalues []
              eq_refl Hfit)
    as (X1 & y1 & X2 & top & Hcheck & Hscale & Htop & Hsupport & _).
  injection Hcheck as <- <-. injection Hscale as <-. injection Htop as <-.
  cbn in Hsupport. destruct Hsupport as (d0 & d1 & rest & Hdims & Hsupport).
  injection Hdims as <- <- <-. exact Hsupport.
Defined.


(** The model that refuses a leading 1 fails once the first column is
    reversed, and the matrix stays that way. *)
Lemma permutation_importance_failure_witness :
  exists col,
    snd (fst (FeatureSelection.feature_permutation_importance Stub.accuracy
                true 2 tt [[0; 1]; [1; 0]] [1; 1]%Z))
    = FeatureSelection.set_column [[0; 1]; [1; 0]] col
        (rev (FeatureSelection.get_column [[0; 1]; [1; 0]] col)).
Proof.
  destruct (FeatureSelection.feature_permutation_importance Stub.accuracy
              true 2 tt [[0; 1]; [1; 0]] [1; 1]%Z)
    as [[[e | averages] X'] rgen'] eqn:Hrun.
  - cbn [fst snd].
    destruct (permutation_importance_failure Stub.accuracy true [1; 1]%Z 2
                tt rgen' [[0; 1]; [1; 0]] X' e) as [[Hbase _] | Hcol];
      [repeat constructor | exact Hrun | |].
    + vm_compute in Hbase. discriminate Hbase.
    + destruct Hcol as (col & g & _ & ->). exists col. reflexivity.
  - apply (f_equal (fun r => fst (fst r))) in Hrun. vm_compute in Hrun.
    discriminate Hrun.
Defined.

(** The mask of an MRMR selector asked for no feature is false
    throughout, and the fit falls back on all three columns. *)
Lemma mrmr_fit_support_witness :
  exists self',
    FeatureSelection.mrmr_fit Stub.empty_mrmr Stub.pvalues [] = inr self'
    /\ FeatureSelection.support (FeatureSelection.mrmr_base self')
       = Some (FeatureSelection.arange_array 3).
Proof.
  destruct (FeatureSelection.mrmr_fit Stub.empty_mrmr Stub.pvalues [])
    as [e | self'] eqn:Hfit; [vm_compute in Hfit; discriminate Hfit |].
  exists self'. split; [reflexivity |].
  destruct (mrmr_fit_support Stub.empty_mrmr self' Stub.pvalues [] eq_refl
              Hfit)
    as (X1 & y1 & mask & selected & Hcheck & Hmask & Hin & _ & Hsupport).
  injection Hcheck as <- <-. injection Hmask as <-.
  destruct selected as [| col selected].
  - destruct Hsupport as (d0 & d1 & rest & Hdims & Hsupport).
    injection Hdims as <- <- <-. exact Hsupport.
  - exfalso. assert (Hcol : col ∈ col :: selected) by left.
    apply Hin in Hcol. destruct col as [| [| [| col]]]; discriminate Hcol.
Defined.

(** A permutation selector that runs no round selects all three
    columns. *)
Lemma permutation_fit_support_witness :
  exists self',
    FeatureSelection.permutation_fit Stub.accuracy Stub.idle_permutation
      Stub.pvalues [1%Z] = inr self'
    /\ FeatureSelection.support (FeatureSelection.permutation_base self')
       = Some (FeatureSelection.arange_array 3).
Proof.
  destruct (FeatureSelection.permutation_fit Stub.accuracy
              Stub.idle_permutation Stub.pvalues [1%Z])
    as [e | self'] eqn:Hfit; [vm_compute in Hfit; discriminate Hfit |].
  exists self'. split; [reflexivity |].
  destruct (permutation_fit_support Stub.accuracy Stub.idle_permutation self'
              Stub.pvalues [1%Z] eq_refl Hfit)
    as (X1 & y1 & X_train & X_test & y_train & y_test & X_test' & rgen'
        & averages & selected & Hcheck & _ & _ & _ & _ & _ & _ & Hzero
        & Hsupport).
  injection Hcheck as <- <-. rewrite (Hzero eq_refl) in Hsupport.
  destruct Hsupport as (d0 & d1 & rest & Hdims & Hsupport).
  injection Hdims as <- <- <-. exact Hsupport.
Defined.
